(** * Ignition on-chain execution: nonce synchronisation and transaction sending

    A shallow embedding of

    - [getNonceSyncMessages]
      (execution/nonce-management/get-nonce-sync-messages.ts), and
    - [sendTransactionForOnchainInteraction] with [getNextTransactionFees]
      (the network-interaction helpers of the execution engine,
      src/unnamed/part_001),

    followed by the properties of the two flows.

    The source is asynchronous TypeScript that talks to a JSON-RPC node.
    Every [await] on a collaborator is a step of a state-and-exception monad:
    the state [S] stands for everything outside the function (the node, the
    journal, the nonce manager), a collaborator call may change it and may
    throw.  JavaScript [number]s that hold counts and nonces are integers
    ([Z]); [bigint]s are [Z] with the truncating division of the language. *)

From Stdlib Require Import ZArith List String Bool Lia DecimalString.
Import ListNotations.

Local Open Scope string_scope.
Local Open Scope list_scope.
Local Open Scope Z_scope.

Set Implicit Arguments.

(** ** Thrown values and the monad of asynchronous code *)

(** The errors built by the modelled functions with
    [new IgnitionError(ERRORS...., {...})], by error code and payload.  The
    last one is the internal error IGN102 with which the constructor itself
    answers an argument it refuses (see [newGasEstimationFailed]). *)
Inductive IgnitionError : Type :=
| WAITING_FOR_CONFIRMATIONS (sender : string) (requiredConfirmations : Z)
| WAITING_FOR_NONCE (sender : string) (nonce : Z) (requiredConfirmations : Z)
| INSUFFICIENT_FUNDS_FOR_TRANSFER (sender : string) (amount : string)
| INSUFFICIENT_FUNDS_FOR_DEPLOY (sender : string)
| GAS_ESTIMATION_FAILED (error : string)
| ASSERTION_ERROR (description : string)
| TEMPLATE_VALUE_CONTAINS_VARIABLE_TAG (variable : string).

(** A value thrown by a collaborator, as far as the code inspects it:
    [error instanceof Error] and [error.message]. *)
Record JsThrown : Type := mkJsThrown {
  instanceofError : bool;
  message : string
}.

(** What the modelled functions can throw: an error of their own making, or
    a collaborator's, passed on unchanged. *)
Inductive Thrown : Type :=
| Ignition (e : IgnitionError)
| Foreign (v : JsThrown).

Inductive Outcome (E A : Type) : Type :=
| Val (a : A)
| Throw (e : E).

Arguments Val {E A} a.
Arguments Throw {E A} e.

(** An asynchronous computation of the modelled code. *)
Definition M (S A : Type) : Type := S -> Outcome Thrown A * S.

(** An asynchronous operation of a collaborator. *)
Definition Rpc (S A : Type) : Type := S -> Outcome JsThrown A * S.

Definition ret {S A} (a : A) : M S A := fun s => (Val a, s).

Definition throw {S A} (e : Thrown) : M S A := fun s => (Throw e, s).

Definition bind {S A B} (m : M S A) (k : A -> M S B) : M S B :=
  fun s =>
    match m s with
    | (Val a, s') => k a s'
    | (Throw e, s') => (Throw e, s')
    end.

(** [await op]: a rejection of the collaborator's promise is rethrown. *)
Definition await {S A} (op : Rpc S A) : M S A :=
  fun s =>
    match op s with
    | (Val a, s') => (Val a, s')
    | (Throw v, s') => (Throw (Foreign v), s')
    end.

(** [try { x = await op } catch (error) { handler }; rest], for a handler
    that always leaves the function (returns or throws). *)
Definition tryAwait {S A B} (op : Rpc S A) (handler : JsThrown -> M S B)
    (rest : A -> M S B) : M S B :=
  fun s =>
    match op s with
    | (Val a, s') => rest a s'
    | (Throw error, s') => handler error s'
    end.

Declare Scope async_scope.
Delimit Scope async_scope with async.

Notation "x <- m ;; k" := (bind m (fun x => k))
  (at level 100, m at next level, right associativity) : async_scope.
Notation "m ;;; k" := (bind m (fun _ => k))
  (at level 100, right associativity) : async_scope.

Local Open Scope async_scope.

(** [for (const x of l) { acc = body(x, acc) }], the accumulator being the
    [messages] array the loops push to; [continue] is [ret acc]. *)
Fixpoint forOf {S A B} (l : list A) (body : A -> B -> M S B) (acc : B)
    : M S B :=
  match l with
  | [] => ret acc
  | x :: rest => acc' <- body x acc ;; forOf rest body acc'
  end.

(** [await Promise.all(ops)]: every operation is started, in the order of the
    list; the results are collected, and a rejection rejects the whole. *)
Fixpoint promiseAll {S A} (ops : list (Rpc S A)) : M S (list A) :=
  match ops with
  | [] => ret []
  | op :: rest =>
      fun s =>
        match op s with
        | (Val a, s1) =>
            match promiseAll rest s1 with
            | (Val l, s2) => (Val (a :: l), s2)
            | (Throw e, s2) => (Throw e, s2)
            end
        | (Throw v, s1) =>
            match promiseAll rest s1 with
            | (_, s2) => (Throw (Foreign v), s2)
            end
        end
  end.

(** Modelled from the spec: [assertIgnitionInvariant] of utils/assertions,
    which is not among the sources.  Sections 4.3 and 7 make a violated
    invariant a hard, fatal error; the model throws an Ignition assertion
    error that carries the description and never continues, as the TypeScript
    signature [asserts invariant] of its call sites requires. *)
Definition assertIgnitionInvariant {S} (invariant : bool)
    (description : string) : M S unit :=
  if invariant then ret tt else throw (Ignition (ASSERTION_ERROR description)).

(** ** Data model (types/jsonrpc, types/network-interaction, types/messages) *)

(** [NetworkFees = { gasPrice } | { maxFeePerGas, maxPriorityFeePerGas }] *)
Inductive NetworkFees : Type :=
| LegacyFees (gasPrice : Z)
| EIP1559Fees (maxFeePerGas maxPriorityFeePerGas : Z).

Record Transaction : Type := mkTransaction {
  tx_hash : string;
  tx_fees : NetworkFees
}.

Record OnchainInteraction : Type := mkOnchainInteraction {
  oi_id : Z;
  oi_to : option string;
  oi_data : string;
  oi_value : Z;
  oi_nonce : option Z;
  oi_transactions : list Transaction
}.

Inductive BlockTag : Type :=
| latest
| pending
| blockNumber (n : Z).

Record Block : Type := mkBlock { number : Z }.

(** Modelled from the spec: [RawStaticCallResult] of types/jsonrpc, which is
    not among the sources; an opaque byte string plus a success flag. *)
Record RawStaticCallResult : Type := mkRawStaticCallResult {
  returnData : string;
  success : bool
}.

(** The parameters of [estimateGas], [call] and [sendTransaction]; an absent
    or [undefined] field is [None]. *)
Record TransactionParams : Type := mkTransactionParams {
  p_to : option string;
  p_from : string;
  p_data : string;
  p_value : Z;
  p_nonce : Z;
  p_fees : option NetworkFees;
  p_gasLimit : option Z
}.

Inductive JournalMessage : Type :=
| TRANSACTION_PREPARE_SEND (futureId : string) (networkInteractionId : Z)
    (nonce : Z)
| ONCHAIN_INTERACTION_REPLACED_BY_USER (futureId : string)
    (networkInteractionId : Z)
| ONCHAIN_INTERACTION_DROPPED (futureId : string) (networkInteractionId : Z).

(** The collaborators, as interfaces over the outside state. *)
Record JsonRpcClient (S : Type) : Type := mkJsonRpcClient {
  getLatestBlock : Rpc S Block;
  getTransactionCount : string -> BlockTag -> Rpc S Z;
  getTransaction : string -> Rpc S (option Transaction);
  call : TransactionParams -> BlockTag -> Rpc S RawStaticCallResult;
  estimateGas : TransactionParams -> Rpc S Z;
  getNetworkFees : Rpc S NetworkFees;
  sendTransaction : TransactionParams -> Rpc S string
}.

Record NonceManager (S : Type) : Type := mkNonceManager {
  getNextNonce : string -> Rpc S Z
}.

Record DeploymentLoader (S : Type) : Type := mkDeploymentLoader {
  recordToJournal : JournalMessage -> Rpc S unit
}.

(** ** Fee policy: [getNextTransactionFees] *)

(** ["gasPrice" in fees] and ["maxFeePerGas" in fees]. *)
Definition hasGasPrice (fees : NetworkFees) : bool :=
  match fees with LegacyFees _ => true | EIP1559Fees _ _ => false end.

Definition hasMaxFeePerGas (fees : NetworkFees) : bool :=
  match fees with LegacyFees _ => false | EIP1559Fees _ _ => true end.

(** Reading a property of [undefined], or multiplying [undefined] by a
    bigint: the runtime throws a TypeError. *)
Definition typeError : Thrown :=
  Foreign (mkJsThrown true "TypeError").

(** [a / b] on bigints rounds towards zero. *)
Definition bigintDiv (a b : Z) : Z := Z.quot a b.

Definition getNextTransactionFees {S} (client : JsonRpcClient S)
    (onchainInteraction : OnchainInteraction) : M S NetworkFees :=
  recommendedFees <- await (getNetworkFees client) ;;
  if (List.length (oi_transactions onchainInteraction) =? 0)%nat
  then ret recommendedFees
  else
    match nth_error (oi_transactions onchainInteraction)
            (List.length (oi_transactions onchainInteraction) - 1) with
    | None => throw typeError
    | Some transactionWithHighestFees =>
        match recommendedFees with
        | EIP1559Fees recommendedMaxFeePerGas recommendedMaxPriorityFeePerGas =>
            let previousFees :=
              match tx_fees transactionWithHighestFees with
              | LegacyFees gasPrice => (gasPrice, gasPrice)
              | EIP1559Fees maxFeePerGas maxPriorityFeePerGas =>
                  (maxFeePerGas, maxPriorityFeePerGas)
              end in
            let bumpedMaxFeePerGas :=
              bigintDiv (fst previousFees * 110) 100 in
            let bumpedMaxPriorityFeePerGas :=
              bigintDiv (snd previousFees * 110) 100 in
            let maxFeePerGas :=
              if recommendedMaxFeePerGas >? bumpedMaxFeePerGas
              then recommendedMaxFeePerGas
              else bumpedMaxFeePerGas in
            let maxPriorityFeePerGas :=
              if recommendedMaxPriorityFeePerGas >? bumpedMaxPriorityFeePerGas
              then recommendedMaxPriorityFeePerGas
              else bumpedMaxPriorityFeePerGas in
            ret (EIP1559Fees maxFeePerGas maxPriorityFeePerGas)
        | LegacyFees recommendedGasPrice =>
            assertIgnitionInvariant
              (hasGasPrice (tx_fees transactionWithHighestFees))
              "EIP-1559 transaction was already sent but the currently recommended fees are not EIP-1559" ;;;
            match tx_fees transactionWithHighestFees with
            | EIP1559Fees _ _ => throw typeError
            | LegacyFees gasPrice =>
                let bumpedGasPrice := bigintDiv (gasPrice * 110) 100 in
                let maxGasPrice :=
                  if recommendedGasPrice >? bumpedGasPrice
                  then recommendedGasPrice
                  else bumpedGasPrice in
                ret (LegacyFees maxGasPrice)
            end
        end
    end.

(** ** Send pipeline: [sendTransactionForOnchainInteraction] *)

(** Modelled from the spec: the two simulation-error results of
    types/execution-result, which is not among the sources; structured values
    that the pipeline passes through without looking inside. *)
Inductive DecodedSimulationError : Type :=
| SimulationErrorExecutionResult (error : string)
| StrategySimulationErrorExecutionResult (error : string).

(** What the function resolves to: a decoded simulation error, or
    [{ type: TRANSACTION_SENT_TYPE, transaction: { hash, fees }, nonce }]. *)
Inductive SendResult : Type :=
| SimulationFailed (decoded : DecodedSimulationError)
| TRANSACTION_SENT (transaction : Transaction) (nonce : Z).

(** [re.test(s)] for a regular expression without metacharacters: [s] has
    the pattern as a substring. *)
Fixpoint regexTest (pattern s : string) : bool :=
  if String.prefix pattern s then true
  else
    match s with
    | EmptyString => false
    | String _ s' => regexTest pattern s'
    end.

(** [value.toString()] of a bigint: its decimal digits. *)
Definition bigintToString (value : Z) : string :=
  NilZero.string_of_int (Z.to_int value).

(** The constructor of [IgnitionError] (errors.ts) is not among the sources.
    It fills the message template of the error code with the arguments, and
    an argument whose text holds a template tag, "%%" or "%name%" (a percent
    sign, then nothing or a letter followed by letters and digits, then a
    percent sign), makes it throw the
    internal error IGN102, TEMPLATE_VALUE_CONTAINS_VARIABLE_TAG with the
    name of the argument, instead of building the error.  The arguments of
    the other errors are accounts and numbers; the one text that comes from
    outside is the node's message given to GAS_ESTIMATION_FAILED. *)
(** The percent sign. *)
Definition percent : Ascii.ascii := Ascii.ascii_of_nat 37.

Definition isLetter (c : Ascii.ascii) : bool :=
  let n := Ascii.nat_of_ascii c in
  ((65 <=? n) && (n <=? 90) || (97 <=? n) && (n <=? 122))%nat.

Definition isLetterOrDigit (c : Ascii.ascii) : bool :=
  let n := Ascii.nat_of_ascii c in
  (isLetter c || (48 <=? n) && (n <=? 57))%nat.

(** [s] without its leading run of [[a-zA-Z0-9]]. *)
Fixpoint skipLettersAndDigits (s : string) : string :=
  match s with
  | EmptyString => EmptyString
  | String c rest =>
      if isLetterOrDigit c then skipLettersAndDigits rest else s
  end.

(** [s] follows a "%": it goes on with "%", or with a name and "%". *)
Definition closesVariableTag (s : string) : bool :=
  match s with
  | EmptyString => false
  | String c rest =>
      if Ascii.eqb c percent then true
      else if isLetter c then
        match skipLettersAndDigits rest with
        | EmptyString => false
        | String c' _ => Ascii.eqb c' percent
        end
      else false
  end.

(** [value.match(tag) !== null] for the tag pattern above, anywhere in
    [value]. *)
Fixpoint valueContainsVariableTag (value : string) : bool :=
  match value with
  | EmptyString => false
  | String c rest =>
      if Ascii.eqb c percent && closesVariableTag rest then true
      else valueContainsVariableTag rest
  end.

(** [new IgnitionError(ERRORS.EXECUTION.GAS_ESTIMATION_FAILED,
    { error: message })]: the error that ends up thrown. *)
Definition newGasEstimationFailed (message : string) : IgnitionError :=
  if valueContainsVariableTag message
  then TEMPLATE_VALUE_CONTAINS_VARIABLE_TAG "error"
  else GAS_ESTIMATION_FAILED message.

(** [{ to, from: sender, data, value, nonce, fees, gasLimit: undefined }] *)
Definition estimateGasPrams (sender : string)
    (onchainInteraction : OnchainInteraction) (nonce : Z)
    (fees : NetworkFees) : TransactionParams :=
  {| p_to := oi_to onchainInteraction;
     p_from := sender;
     p_data := oi_data onchainInteraction;
     p_value := oi_value onchainInteraction;
     p_nonce := nonce;
     p_fees := Some fees;
     p_gasLimit := None |}.

(** [const { fees: _fees, ...paramsWithoutFees } = params] *)
Definition paramsWithoutFees (params : TransactionParams)
    : TransactionParams :=
  {| p_to := p_to params;
     p_from := p_from params;
     p_data := p_data params;
     p_value := p_value params;
     p_nonce := p_nonce params;
     p_fees := None;
     p_gasLimit := p_gasLimit params |}.

(** [{ ...params, gasLimit }] *)
Definition withGasLimit (params : TransactionParams) (gasLimit : Z)
    : TransactionParams :=
  {| p_to := p_to params;
     p_from := p_from params;
     p_data := p_data params;
     p_value := p_value params;
     p_nonce := p_nonce params;
     p_fees := p_fees params;
     p_gasLimit := Some gasLimit |}.

(** [onchainInteraction.nonce ?? (await nonceManager.getNextNonce(sender))] *)
Definition nonceFor {S} (nonceManager : NonceManager S) (sender : string)
    (onchainInteraction : OnchainInteraction) : M S Z :=
  match oi_nonce onchainInteraction with
  | Some nonce => ret nonce
  | None => await (getNextNonce nonceManager sender)
  end.

Definition sendTransactionForOnchainInteraction {S}
    (client : JsonRpcClient S)
    (sender : string)
    (onchainInteraction : OnchainInteraction)
    (nonceManager : NonceManager S)
    (decodeSimulationResult :
       RawStaticCallResult -> Rpc S (option DecodedSimulationError))
    (deploymentLoader : DeploymentLoader S)
    (futureId : string) : M S SendResult :=
  nonce <- nonceFor nonceManager sender onchainInteraction ;;
  fees <- getNextTransactionFees client onchainInteraction ;;
  let params := estimateGasPrams sender onchainInteraction nonce fees in
  tryAwait (estimateGas client params)
    (fun error =>
       failedEstimateGasSimulationResult <-
         await (call client (paramsWithoutFees params) pending) ;;
       decoded <-
         await (decodeSimulationResult failedEstimateGasSimulationResult) ;;
       match decoded with
       | Some decodedError => ret (SimulationFailed decodedError)
       | None =>
           assertIgnitionInvariant (instanceofError error)
             "Unexpected error type while resolving failed gas estimation" ;;;
           if regexTest "insufficient funds for transfer" (message error)
           then
             throw (Ignition (INSUFFICIENT_FUNDS_FOR_TRANSFER sender
                                (bigintToString (p_value params))))
           else if regexTest "contract creation code storage out of gas"
                     (message error)
           then throw (Ignition (INSUFFICIENT_FUNDS_FOR_DEPLOY sender))
           else throw (Ignition (newGasEstimationFailed (message error)))
       end)
    (fun gasLimit =>
       let transactionParams := withGasLimit params gasLimit in
       simulationResult <- await (call client transactionParams pending) ;;
       decodedSimulationResult <-
         await (decodeSimulationResult simulationResult) ;;
       match decodedSimulationResult with
       | Some decodedError => ret (SimulationFailed decodedError)
       | None =>
           await (recordToJournal deploymentLoader
                    (TRANSACTION_PREPARE_SEND futureId
                       (oi_id onchainInteraction)
                       (p_nonce transactionParams))) ;;;
           txHash <- await (sendTransaction client transactionParams) ;;
           ret (TRANSACTION_SENT
                  {| tx_hash := txHash; tx_fees := fees |} nonce)
       end).

(** *** Observing the journal and the broadcast

    The pipeline never touches the outside state itself; whatever it does to
    the journal and to the network goes through [recordToJournal] and
    [sendTransaction].  To speak of their order the two are wrapped, as a
    test double would, so that every invocation is appended to a log kept
    beside the outside state. *)
Inductive Effect : Type :=
| JournalRecord (m : JournalMessage)
| Broadcast (params : TransactionParams).

Definition Observed (W : Type) : Type := (W * list Effect)%type.

(** An operation that leaves no mark in the log. *)
Definition unobserved {W A} (op : Rpc W A) : Rpc (Observed W) A :=
  fun s =>
    match op (fst s) with
    | (r, w') => (r, (w', snd s))
    end.

(** An operation whose invocation is logged as [e] before it runs. *)
Definition observed {W A} (e : Effect) (op : Rpc W A) : Rpc (Observed W) A :=
  fun s =>
    match op (fst s) with
    | (r, w') => (r, (w', snd s ++ [e]))
    end.

Definition observedClient {W} (client : JsonRpcClient W)
    : JsonRpcClient (Observed W) :=
  {| getLatestBlock := unobserved (getLatestBlock client);
     getTransactionCount :=
       fun sender tag => unobserved (getTransactionCount client sender tag);
     getTransaction := fun h => unobserved (getTransaction client h);
     call := fun params tag => unobserved (call client params tag);
     estimateGas := fun params => unobserved (estimateGas client params);
     getNetworkFees := unobserved (getNetworkFees client);
     sendTransaction :=
       fun params => observed (Broadcast params) (sendTransaction client params)
  |}.

Definition observedNonceManager {W} (nonceManager : NonceManager W)
    : NonceManager (Observed W) :=
  {| getNextNonce := fun sender => unobserved (getNextNonce nonceManager sender)
  |}.

Definition observedLoader {W} (deploymentLoader : DeploymentLoader W)
    : DeploymentLoader (Observed W) :=
  {| recordToJournal :=
       fun m => observed (JournalRecord m) (recordToJournal deploymentLoader m)
  |}.

(** The pipeline run against the wrapped collaborators. *)
Definition observedSend {W}
    (client : JsonRpcClient W)
    (sender : string)
    (onchainInteraction : OnchainInteraction)
    (nonceManager : NonceManager W)
    (decodeSimulationResult :
       RawStaticCallResult -> Rpc W (option DecodedSimulationError))
    (deploymentLoader : DeploymentLoader W)
    (futureId : string) : M (Observed W) SendResult :=
  sendTransactionForOnchainInteraction
    (observedClient client) sender onchainInteraction
    (observedNonceManager nonceManager)
    (fun raw => unobserved (decodeSimulationResult raw))
    (observedLoader deploymentLoader) futureId.

(** ** Nonce synchronisation: [getNonceSyncMessages] *)

(** An element of the per-sender arrays built by
    [createMapFromSenderToNonceAndTransactions]. *)
Record PendingIgnitionTransaction : Type := mkPendingIgnitionTransaction {
  nonce : Z;
  transactions : list string;
  executionStateId : string;
  networkInteractionId : Z
}.

(** A JavaScript object used as a map from strings, its own keys in
    insertion order ([Object.entries], [Object.keys], [Object.values]). *)
Definition JsObject (A : Type) : Type := list (string * A).

Fixpoint objGet {A} (o : JsObject A) (k : string) : option A :=
  match o with
  | [] => None
  | (k', v) :: rest => if String.eqb k' k then Some v else objGet rest k
  end.

(** [o[k] = v]: an existing key keeps its place, a new one goes last. *)
Fixpoint objSet {A} (o : JsObject A) (k : string) (v : A) : JsObject A :=
  match o with
  | [] => [(k, v)]
  | (k', v') :: rest =>
      if String.eqb k' k then (k', v) :: rest else (k', v') :: objSet rest k v
  end.

(** The numbers [Math.max] can return on integers: [Math.max()] of no
    argument is [-Infinity]. *)
Inductive JsNumber : Type :=
| NegativeInfinity
| Finite (z : Z).

Definition Math_max (l : list Z) : JsNumber :=
  fold_left
    (fun acc n =>
       match acc with
       | NegativeInfinity => Finite n
       | Finite m => Finite (Z.max m n)
       end)
    l NegativeInfinity.

(** [x + n] and [x < n] for a finite [n]. *)
Definition jsPlus (x : JsNumber) (n : Z) : JsNumber :=
  match x with
  | NegativeInfinity => NegativeInfinity
  | Finite z => Finite (z + n)
  end.

Definition jsLt (x : JsNumber) (n : Z) : bool :=
  match x with
  | NegativeInfinity => true
  | Finite z => z <? n
  end.

(** [tx !== undefined] *)
Definition isDefined {A} (x : option A) : bool :=
  match x with Some _ => true | None => false end.

(** [confirmedBlockNumber] of lines 81-84. *)
Definition confirmedBlockNumberOf (block : Block) (requiredConfirmations : Z)
    : option Z :=
  if number block - requiredConfirmations + 1 >=? 0
  then Some (number block - requiredConfirmations + 1)
  else None.

(** [safeConfirmationsCount] of lines 90-93. *)
Definition safeConfirmationsCountOf {S} (client : JsonRpcClient S)
    (sender : string) (confirmedBlockNumber : option Z) : M S (option Z) :=
  match confirmedBlockNumber with
  | Some b =>
      count <- await (getTransactionCount client sender (blockNumber b)) ;;
      ret (Some count)
  | None => ret None
  end.

(** [hasOnchainUnconfirmedPendingTransactions] of lines 110-113. *)
Definition hasOnchainUnconfirmedPendingTransactions
    (safeConfirmationsCount : option Z) (pendingCount : Z) : bool :=
  match safeConfirmationsCount with
  | None => pendingCount >? 0
  | Some safe => negb (safe =? pendingCount)
  end.

(** The body of the inner loop, lines 125-205, for one pending Ignition
    transaction; [messages] is the array pushed to. *)
Definition syncPendingTransaction {S} (client : JsonRpcClient S)
    (sender : string) (requiredConfirmations : Z)
    (safeConfirmationsCount : option Z) (pendingCount latestCount : Z)
    (pendingTransaction : PendingIgnitionTransaction)
    (messages : list JournalMessage) : M S (list JournalMessage) :=
  fetchedTransactions <-
    promiseAll (map (fun tx => getTransaction client tx)
                  (transactions pendingTransaction)) ;;
  if existsb isDefined fetchedTransactions then ret messages
  else if latestCount >? nonce pendingTransaction then
    let hasEnoughConfirmations :=
      match safeConfirmationsCount with
      | None => false
      | Some safe => safe >=? nonce pendingTransaction
      end in
    if negb hasEnoughConfirmations
    then throw (Ignition (WAITING_FOR_NONCE sender (nonce pendingTransaction)
                            requiredConfirmations))
    else ret (messages ++
                [ONCHAIN_INTERACTION_REPLACED_BY_USER
                   (executionStateId pendingTransaction)
                   (networkInteractionId pendingTransaction)])
  else if pendingCount >? nonce pendingTransaction then
    throw (Ignition (WAITING_FOR_NONCE sender (nonce pendingTransaction)
                       requiredConfirmations))
  else ret (messages ++
              [ONCHAIN_INTERACTION_DROPPED
                 (executionStateId pendingTransaction)
                 (networkInteractionId pendingTransaction)]).

(** Case 4, lines 207-223, after the inner loop. *)
Definition checkHigherUserNonces {S} (sender : string)
    (requiredConfirmations : Z) (safeConfirmationsCount : option Z)
    (pendingCount : Z)
    (pendingIgnitionTransactions : list PendingIgnitionTransaction)
    (messages : list JournalMessage) : M S (list JournalMessage) :=
  let highestPendingNonce :=
    Math_max (map nonce pendingIgnitionTransactions) in
  if jsLt (jsPlus highestPendingNonce 1) pendingCount then
    if hasOnchainUnconfirmedPendingTransactions safeConfirmationsCount
         pendingCount
    then throw (Ignition (WAITING_FOR_NONCE sender (pendingCount - 1)
                            requiredConfirmations))
    else ret messages
  else ret messages.

(** The body of the outer loop, lines 86-224, for one sender. *)
Definition syncSender {S} (client : JsonRpcClient S)
    (requiredConfirmations : Z) (confirmedBlockNumber : option Z)
    (entry : string * list PendingIgnitionTransaction)
    (messages : list JournalMessage) : M S (list JournalMessage) :=
  let sender := fst entry in
  let pendingIgnitionTransactions := snd entry in
  safeConfirmationsCount <-
    safeConfirmationsCountOf client sender confirmedBlockNumber ;;
  pendingCount <- await (getTransactionCount client sender pending) ;;
  latestCount <- await (getTransactionCount client sender latest) ;;
  (if (List.length pendingIgnitionTransactions =? 0)%nat
   then
     if hasOnchainUnconfirmedPendingTransactions safeConfirmationsCount
          pendingCount
     then throw (Ignition (WAITING_FOR_CONFIRMATIONS sender
                             requiredConfirmations))
     else ret tt
   else ret tt) ;;;
  messages' <-
    forOf pendingIgnitionTransactions
      (syncPendingTransaction client sender requiredConfirmations
         safeConfirmationsCount pendingCount latestCount)
      messages ;;
  checkHigherUserNonces sender requiredConfirmations safeConfirmationsCount
    pendingCount pendingIgnitionTransactions messages'.

(** The pass over an already built map: lines 80-226. *)
Definition syncPendingTransactionsPerSender {S} (client : JsonRpcClient S)
    (pendingTransactionsPerSender :
       JsObject (list PendingIgnitionTransaction))
    (requiredConfirmations : Z) : M S (list JournalMessage) :=
  block <- await (getLatestBlock client) ;;
  let confirmedBlockNumber :=
    confirmedBlockNumberOf block requiredConfirmations in
  forOf pendingTransactionsPerSender
    (syncSender client requiredConfirmations confirmedBlockNumber) [].

(** *** Building the map: [createMapFromSenderToNonceAndTransactions] *)

(** Modelled from the spec: the enumerations and the record of
    types/execution-state, which is not among the sources.  The three
    read-only types and [SUCCESS] are named by the code; the others follow
    section 3. *)
Inductive ExecutionStateType : Type :=
| DEPLOYMENT_EXECUTION_STATE
| CALL_EXECUTION_STATE
| SEND_DATA_EXECUTION_STATE
| STATIC_CALL_EXECUTION_STATE
| READ_EVENT_ARGUMENT_EXECUTION_STATE
| CONTRACT_AT_EXECUTION_STATE
| ENCODE_FUNCTION_CALL_EXECUTION_STATE.

Inductive ExecutionStatus : Type :=
| STARTED
| RUNNING
| SUCCESS
| TIMEOUT
| FAILURE.

(** [StaticCall], with the fields [runStaticCall] reads. *)
Record StaticCall : Type := mkStaticCall {
  sc_from : string;
  sc_to : option string;
  sc_data : string;
  sc_value : Z
}.

Inductive NetworkInteraction : Type :=
| ONCHAIN_INTERACTION (interaction : OnchainInteraction)
| STATIC_CALL (staticCall : StaticCall).

Record ExecutionState : Type := mkExecutionState {
  es_id : string;
  es_type : ExecutionStateType;
  es_status : ExecutionStatus;
  es_from : string;
  es_networkInteractions : list NetworkInteraction
}.

Record DeploymentState : Type := mkDeploymentState {
  executionStates : JsObject ExecutionState
}.

(** The helpers of the module, of the views and of the type guards that the
    map construction calls and that are not among the sources, taken as an
    interface. *)
Record ModuleHelpers : Type := mkModuleHelpers {
  Future : Type;
  IgnitionModule : Type;
  FutureFrom : Type;
  getFuturesFromModule : IgnitionModule -> list Future;
  future_id : Future -> string;
  future_from : Future -> FutureFrom;
  isNamedContractAtFuture : Future -> bool;
  isArtifactContractAtFuture : Future -> bool;
  isReadEventArgumentFuture : Future -> bool;
  isEncodeFunctionCallFuture : Future -> bool;
  resolveFutureFrom : FutureFrom -> list string -> string -> string;
  getPendingOnchainInteraction : ExecutionState -> option OnchainInteraction
}.

Definition isReadOnlyType (t : ExecutionStateType) : bool :=
  match t with
  | READ_EVENT_ARGUMENT_EXECUTION_STATE
  | CONTRACT_AT_EXECUTION_STATE
  | ENCODE_FUNCTION_CALL_EXECUTION_STATE => true
  | _ => false
  end.

Definition isSuccess (st : ExecutionStatus) : bool :=
  match st with SUCCESS => true | _ => false end.

(** lodash [uniq]: the first occurrence of every element, in order. *)
Fixpoint uniqFrom (seen l : list string) : list string :=
  match l with
  | [] => []
  | x :: rest =>
      if existsb (String.eqb x) seen then uniqFrom seen rest
      else x :: uniqFrom (x :: seen) rest
  end.

Definition uniq (l : list string) : list string := uniqFrom [] l.

(** [array.sort((a, b) => a.nonce - b.nonce)]: a stable sort. *)
Fixpoint insertByNonce (x : PendingIgnitionTransaction)
    (sorted : list PendingIgnitionTransaction)
    : list PendingIgnitionTransaction :=
  match sorted with
  | [] => [x]
  | y :: rest =>
      if nonce x - nonce y >? 0 then y :: insertByNonce x rest
      else x :: y :: rest
  end.

Definition sortByNonce (l : list PendingIgnitionTransaction)
    : list PendingIgnitionTransaction :=
  fold_right insertByNonce [] l.

Definition _pickFrom (h : ModuleHelpers) (future : Future h)
    (accounts : list string) (defaultSender : string) : option string :=
  if isNamedContractAtFuture h future then None
  else if isArtifactContractAtFuture h future then None
  else if isReadEventArgumentFuture h future then None
  else if isEncodeFunctionCallFuture h future then None
  else Some (resolveFutureFrom h (future_from h future) accounts defaultSender).

(** [.filter((x) => x !== null)] *)
Fixpoint dropNulls (l : list (option string)) : list string :=
  match l with
  | [] => []
  | None :: rest => dropNulls rest
  | Some x :: rest => x :: dropNulls rest
  end.

Definition _resolveFutureSenders (h : ModuleHelpers)
    (ignitionModule : IgnitionModule h) (accounts : list string)
    (defaultSender : string) (exStateIds : list string) : list string :=
  let futures := getFuturesFromModule h ignitionModule in
  let senders :=
    dropNulls
      (map (fun f => _pickFrom h f accounts defaultSender)
         (filter
            (fun f => negb (existsb (String.eqb (future_id h f)) exStateIds))
            futures)) in
  uniq senders.

(** The first loop of the construction, lines 251-286, for one execution
    state. *)
Definition addExecutionState (h : ModuleHelpers)
    (pendingTransactionsPerAccount :
       JsObject (list PendingIgnitionTransaction))
    (executionState : ExecutionState)
    : JsObject (list PendingIgnitionTransaction) :=
  if isReadOnlyType (es_type executionState)
  then pendingTransactionsPerAccount
  else if isSuccess (es_status executionState)
  then pendingTransactionsPerAccount
  else
    match getPendingOnchainInteraction h executionState with
    | None => pendingTransactionsPerAccount
    | Some onchainInteraction =>
        match oi_nonce onchainInteraction with
        | None => pendingTransactionsPerAccount
        | Some interactionNonce =>
            let existing :=
              match objGet pendingTransactionsPerAccount
                      (es_from executionState) with
              | None => []
              | Some l => l
              end in
            objSet pendingTransactionsPerAccount (es_from executionState)
              (existing ++
                 [{| nonce := interactionNonce;
                     transactions :=
                       map tx_hash (oi_transactions onchainInteraction);
                     executionStateId := es_id executionState;
                     networkInteractionId := oi_id onchainInteraction |}])
        end
    end.

(** The second loop, lines 296-300. *)
Definition addFutureSender
    (pendingTransactionsPerAccount :
       JsObject (list PendingIgnitionTransaction))
    (futureSender : string) : JsObject (list PendingIgnitionTransaction) :=
  match objGet pendingTransactionsPerAccount futureSender with
  | None => objSet pendingTransactionsPerAccount futureSender []
  | Some _ => pendingTransactionsPerAccount
  end.

Definition createMapFromSenderToNonceAndTransactions (h : ModuleHelpers)
    (deploymentState : DeploymentState)
    (ignitionModule : IgnitionModule h) (accounts : list string)
    (defaultSender : string) : JsObject (list PendingIgnitionTransaction) :=
  let fromStates :=
    fold_left (addExecutionState h)
      (map snd (executionStates deploymentState)) [] in
  let exStateIds := map fst (executionStates deploymentState) in
  let futureSenders :=
    _resolveFutureSenders h ignitionModule accounts defaultSender exStateIds in
  let withFutureSenders := fold_left addFutureSender futureSenders fromStates in
  map (fun kv => (fst kv, sortByNonce (snd kv))) withFutureSenders.

Definition getNonceSyncMessages {S} (h : ModuleHelpers)
    (jsonRpcClient : JsonRpcClient S)
    (deploymentState : DeploymentState)
    (ignitionModule : IgnitionModule h)
    (accounts : list string)
    (defaultSender : string)
    (requiredConfirmations : Z) : M S (list JournalMessage) :=
  let pendingTransactionsPerSender :=
    createMapFromSenderToNonceAndTransactions h deploymentState
      ignitionModule accounts defaultSender in
  syncPendingTransactionsPerSender jsonRpcClient pendingTransactionsPerSender
    requiredConfirmations.

(** ** Vocabulary of the properties *)

(** The previous fees as the two fields the bump works on: a legacy
    [gasPrice] stands for both. *)
Definition asMaxFeePerGas (fees : NetworkFees) : Z :=
  match fees with
  | LegacyFees gasPrice => gasPrice
  | EIP1559Fees maxFeePerGas _ => maxFeePerGas
  end.

Definition asMaxPriorityFeePerGas (fees : NetworkFees) : Z :=
  match fees with
  | LegacyFees gasPrice => gasPrice
  | EIP1559Fees _ maxPriorityFeePerGas => maxPriorityFeePerGas
  end.

(** Fees are unsigned quantities. *)
Definition feesNonNegative (fees : NetworkFees) : Prop :=
  0 <= asMaxFeePerGas fees /\ 0 <= asMaxPriorityFeePerGas fees.

(** [next] is, field by field, at least 1.10 times [prev]: the exact ratio,
    without rounding.  Fees of a legacy [next] cannot follow EIP-1559 ones. *)
Definition atLeast110Percent (prev next : NetworkFees) : Prop :=
  match next with
  | LegacyFees gasPrice =>
      hasGasPrice prev = true /\ 100 * gasPrice >= 110 * asMaxFeePerGas prev
  | EIP1559Fees maxFeePerGas maxPriorityFeePerGas =>
      100 * maxFeePerGas >= 110 * asMaxFeePerGas prev /\
      100 * maxPriorityFeePerGas >= 110 * asMaxPriorityFeePerGas prev
  end.

(** [next] is, field by field, at least 110% of [prev] rounded down by the
    integer division. *)
Definition atLeastBumped (prev next : NetworkFees) : Prop :=
  match next with
  | LegacyFees gasPrice =>
      hasGasPrice prev = true /\ gasPrice >= asMaxFeePerGas prev * 110 / 100
  | EIP1559Fees maxFeePerGas maxPriorityFeePerGas =>
      maxFeePerGas >= asMaxFeePerGas prev * 110 / 100 /\
      maxPriorityFeePerGas >= asMaxPriorityFeePerGas prev * 110 / 100
  end.

(** [next] is, field by field, not below [prev]. *)
Definition atLeastPrevious (prev next : NetworkFees) : Prop :=
  asMaxFeePerGas next >= asMaxFeePerGas prev /\
  asMaxPriorityFeePerGas next >= asMaxPriorityFeePerGas prev.

(** Every adjacent pair of a transactions sequence satisfies [R]. *)
Fixpoint adjacentFees (R : NetworkFees -> NetworkFees -> Prop)
    (txs : list Transaction) : Prop :=
  match txs with
  | [] => True
  | a :: rest =>
      match rest with
      | [] => True
      | b :: _ => R (tx_fees a) (tx_fees b) /\ adjacentFees R rest
      end
  end.

(** The pass over [perSender], started in [s0], fetched the latest block
    [block] and arrives at the sender [sender] with the messages [messages]
    pushed so far, the outside being in state [s]. *)
Definition passReachesSender {S} (client : JsonRpcClient S)
    (requiredConfirmations : Z)
    (perSender : JsObject (list PendingIgnitionTransaction)) (s0 : S)
    (block : Block)
    (sender : string)
    (pendingIgnitionTransactions : list PendingIgnitionTransaction)
    (messages : list JournalMessage) (s : S) : Prop :=
  exists sendersBefore sendersAfter s1,
    perSender =
      sendersBefore ++ (sender, pendingIgnitionTransactions) :: sendersAfter /\
    getLatestBlock client s0 = (Val block, s1) /\
    forOf sendersBefore
      (syncSender client requiredConfirmations
         (confirmedBlockNumberOf block requiredConfirmations)) [] s1
    = (Val messages, s).

(** The three counts the pass reads for a sender, from state [s] to [s']. *)
Definition readsCounts {S} (client : JsonRpcClient S) (sender : string)
    (confirmedBlockNumber : option Z) (s : S)
    (safeConfirmationsCount : option Z) (pendingCount latestCount : Z)
    (s' : S) : Prop :=
  exists s1 s2,
    safeConfirmationsCountOf client sender confirmedBlockNumber s
    = (Val safeConfirmationsCount, s1) /\
    getTransactionCount client sender pending s1 = (Val pendingCount, s2) /\
    getTransactionCount client sender latest s2 = (Val latestCount, s').

(** The pass arrives at the pending transaction [pendingTransaction] of
    [sender], having read the sender's counts. *)
Definition passReachesEntry {S} (client : JsonRpcClient S)
    (requiredConfirmations : Z)
    (perSender : JsObject (list PendingIgnitionTransaction)) (s0 : S)
    (sender : string) (safeConfirmationsCount : option Z)
    (pendingCount latestCount : Z)
    (pendingTransaction : PendingIgnitionTransaction)
    (messages : list JournalMessage) (s : S) : Prop :=
  exists block entriesBefore entriesAfter messages0 sa sb,
    passReachesSender client requiredConfirmations perSender s0 block sender
      (entriesBefore ++ pendingTransaction :: entriesAfter) messages0 sa /\
    readsCounts client sender
      (confirmedBlockNumberOf block requiredConfirmations) sa
      safeConfirmationsCount pendingCount latestCount sb /\
    forOf entriesBefore
      (syncPendingTransaction client sender requiredConfirmations
         safeConfirmationsCount pendingCount latestCount)
      messages0 sb
    = (Val messages, s).

(** [has_unconfirmed] in the words of the spec: with no safe count, some
    transaction is pending; with one, it differs from the pending count. *)
Definition hasUnconfirmed (safeConfirmationsCount : option Z)
    (pendingCount : Z) : Prop :=
  match safeConfirmationsCount with
  | None => pendingCount > 0
  | Some safe => safe <> pendingCount
  end.

(** The node knows none of the fetched transactions. *)
Definition allUnknown (fetched : list (option Transaction)) : Prop :=
  Forall (fun tx => tx = None) fetched.

(** [m] is the largest of the nonces of a non-empty list. *)
Definition isHighestNonce (m : Z) (l : list PendingIgnitionTransaction)
    : Prop :=
  In m (map nonce l) /\ forall n, In n (map nonce l) -> n <= m.

(** The outcomes of the send pipeline other than a sent transaction that come
    from a failed simulation or a failed gas estimation. *)
Definition abortedBeforeSending (r : Outcome Thrown SendResult) : Prop :=
  match r with
  | Val (SimulationFailed _) => True
  | Throw (Ignition (INSUFFICIENT_FUNDS_FOR_TRANSFER _ _)) => True
  | Throw (Ignition (INSUFFICIENT_FUNDS_FOR_DEPLOY _)) => True
  | Throw (Ignition (GAS_ESTIMATION_FAILED _)) => True
  | _ => False
  end.

(** ** Concrete collaborators for the example runs *)

(** A node whose answers do not depend on what happened before. *)
Definition fixedNode (blockNum : Z) (counts : string -> BlockTag -> Z)
    (known : string -> option Transaction) (gas : Outcome JsThrown Z)
    (recommended : NetworkFees) (raw : RawStaticCallResult)
    (txHash : string) : JsonRpcClient unit :=
  {| getLatestBlock := fun s => (Val (mkBlock blockNum), s);
     getTransactionCount := fun sender tag s => (Val (counts sender tag), s);
     getTransaction := fun h s => (Val (known h), s);
     call := fun _ _ s => (Val raw, s);
     estimateGas := fun _ s => (gas, s);
     getNetworkFees := fun s => (Val recommended, s);
     sendTransaction := fun _ s => (Val txHash, s) |}.

Definition emptyResult : RawStaticCallResult := mkRawStaticCallResult "" true.

(** A node for the fee examples: only [getNetworkFees] matters. *)
Definition feeNode (recommended : NetworkFees) : JsonRpcClient unit :=
  fixedNode 0 (fun _ _ => 0) (fun _ => None) (Val 21000) recommended
    emptyResult "0xbb".

(** An interaction of sender nonce 5 with the given earlier transactions. *)
Definition resendOf (txs : list Transaction) : OnchainInteraction :=
  {| oi_id := 1; oi_to := Some "0xcc"; oi_data := "0x"; oi_value := 0;
     oi_nonce := Some 5; oi_transactions := txs |}.

Definition nonceManagerAt (next : Z) : NonceManager unit :=
  {| getNextNonce := fun _ s => (Val next, s) |}.

Definition acceptingLoader : DeploymentLoader unit :=
  {| recordToJournal := fun _ s => (Val tt, s) |}.

Definition decodesAs (decoded : option DecodedSimulationError)
    : RawStaticCallResult -> Rpc unit (option DecodedSimulationError) :=
  fun _ s => (Val decoded, s).

(** An interaction that was never sent: a transfer of 1000 to "0xcc". *)
Definition firstSend : OnchainInteraction :=
  {| oi_id := 1; oi_to := Some "0xcc"; oi_data := "0x"; oi_value := 1000;
     oi_nonce := None; oi_transactions := [] |}.

(** A node that accepts the first send: gas 21000, hash "0xaa". *)
Definition acceptingNode : JsonRpcClient unit :=
  fixedNode 0 (fun _ _ => 5) (fun _ => None) (Val 21000) (EIP1559Fees 100 2)
    emptyResult "0xaa".

(** A node whose gas estimation fails with the given message. *)
Definition refusingNode (msg : string) : JsonRpcClient unit :=
  fixedNode 0 (fun _ _ => 5) (fun _ => None) (Throw (mkJsThrown true msg))
    (EIP1559Fees 100 2) emptyResult "0xaa".

(** A node for the synchronisation examples: the latest block, the three
    transaction counts of every sender, and the transactions it knows. *)
Definition syncNode (blockNum safeCount pendingCount latestCount : Z)
    (known : string -> option Transaction) : JsonRpcClient unit :=
  fixedNode blockNum
    (fun _ tag =>
       match tag with
       | latest => latestCount
       | pending => pendingCount
       | blockNumber _ => safeCount
       end)
    known (Val 21000) (EIP1559Fees 100 2) emptyResult "0xaa".

Definition knowsNothing : string -> option Transaction := fun _ => None.

Definition knowsAll : string -> option Transaction :=
  fun h => Some (mkTransaction h (EIP1559Fees 100 2)).

(** The pending transaction of nonce [n], sent once with hash "0xaa". *)
Definition pendingAt (n : Z) : PendingIgnitionTransaction :=
  {| nonce := n; transactions := ["0xaa"]; executionStateId := "future#1";
     networkInteractionId := n |}.

(** ** Vocabulary of the further properties *)

(** The fees are of the same kind: both legacy or both EIP-1559. *)
Definition sameKind (a b : NetworkFees) : Prop :=
  hasGasPrice a = hasGasPrice b.

(** The interaction was sent before under EIP-1559 fees and the node now
    recommends legacy fees. *)
Definition isDowngrade (recommended : NetworkFees)
    (txs : list Transaction) : Prop :=
  exists earlier prev,
    txs = earlier ++ [prev] /\
    hasGasPrice recommended = true /\ hasMaxFeePerGas (tx_fees prev) = true.

(** The three shapes of what one run of the pipeline adds to the log:
    nothing; the journal record alone; the record followed by the broadcast
    of a transaction of the same nonce and sender. *)
Definition addsAtMostRecordThenBroadcast (futureId : string)
    (onchainInteraction : OnchainInteraction) (sender : string)
    (added : list Effect) : Prop :=
  added = [] \/
  exists n,
    let record :=
      JournalRecord
        (TRANSACTION_PREPARE_SEND futureId (oi_id onchainInteraction) n) in
    added = [record] \/
    exists params,
      added = [record; Broadcast params] /\
      p_nonce params = n /\ p_from params = sender.

(** A journal that rejects every record with [v]. *)
Definition rejectingLoader (v : JsThrown) : DeploymentLoader unit :=
  {| recordToJournal := fun _ s => (Throw v, s) |}.

(** [client] with a [sendTransaction] that fails with [v]. *)
Definition withFailingBroadcast (v : JsThrown) (client : JsonRpcClient unit)
    : JsonRpcClient unit :=
  {| getLatestBlock := getLatestBlock client;
     getTransactionCount := getTransactionCount client;
     getTransaction := getTransaction client;
     call := call client;
     estimateGas := estimateGas client;
     getNetworkFees := getNetworkFees client;
     sendTransaction := fun _ s => (Throw v, s) |}.

(** A node whose gas estimation throws a value that is not an Error. *)
Definition oddlyRefusingNode : JsonRpcClient unit :=
  fixedNode 0 (fun _ _ => 5) (fun _ => None)
    (Throw (mkJsThrown false "insufficient funds for transfer"))
    (EIP1559Fees 100 2) emptyResult "0xaa".

(** The message reports a pending transaction of the map: it is a
    replaced-by-user or a dropped message with the ids of one of them. *)
Definition reportsEntryOf
    (perSender : JsObject (list PendingIgnitionTransaction))
    (m : JournalMessage) : Prop :=
  exists sender l e,
    In (sender, l) perSender /\ In e l /\
    (m = ONCHAIN_INTERACTION_REPLACED_BY_USER (executionStateId e)
           (networkInteractionId e) \/
     m = ONCHAIN_INTERACTION_DROPPED (executionStateId e)
           (networkInteractionId e)).

(** The number of pending transactions of the map. *)
Definition countEntries
    (perSender : JsObject (list PendingIgnitionTransaction)) : nat :=
  fold_right (fun kv n => (List.length (snd kv) + n)%nat) 0%nat perSender.

(** The error asks to wait for a sender of the map, with the required
    confirmations of the pass. *)
Definition isWaitingErrorOf
    (perSender : JsObject (list PendingIgnitionTransaction))
    (requiredConfirmations : Z) (e : IgnitionError) : Prop :=
  exists sender l,
    In (sender, l) perSender /\
    (e = WAITING_FOR_CONFIRMATIONS sender requiredConfirmations \/
     exists n, e = WAITING_FOR_NONCE sender n requiredConfirmations).

(** The node answers every [getTransaction] with a transaction. *)
Definition knowsEveryTransaction {S} (client : JsonRpcClient S) : Prop :=
  forall h s, exists tx s', getTransaction client h s = (Val (Some tx), s').

(** A pending transaction of nonce [n] for which nothing was sent yet. *)
Definition reservedAt (n : Z) : PendingIgnitionTransaction :=
  {| nonce := n; transactions := []; executionStateId := "future#2";
     networkInteractionId := n |}.

(** The own keys of an object, in insertion order. *)
Definition keysOf {A} (o : JsObject A) : list string := map fst o.

(** The array stored under [sender] holds [e]. *)
Definition holds (o : JsObject (list PendingIgnitionTransaction))
    (sender : string) (e : PendingIgnitionTransaction) : Prop :=
  exists l, objGet o sender = Some l /\ In e l.

(** The nonces of the list ascend: no element has a higher nonce than a
    later one. *)
Fixpoint ascendingNonces (l : list PendingIgnitionTransaction) : Prop :=
  match l with
  | [] => True
  | a :: rest =>
      (forall b, In b rest -> nonce a <= nonce b) /\ ascendingNonces rest
  end.

(** The execution state [es] has a transaction that is still to be settled
    for [sender], described by [e]: it is of a type that sends transactions,
    it has not succeeded, and its pending on-chain interaction has a nonce. *)
Definition contributes (h : ModuleHelpers) (es : ExecutionState)
    (sender : string) (e : PendingIgnitionTransaction) : Prop :=
  isReadOnlyType (es_type es) = false /\
  isSuccess (es_status es) = false /\
  exists onchainInteraction,
    getPendingOnchainInteraction h es = Some onchainInteraction /\
    oi_nonce onchainInteraction = Some (nonce e) /\
    es_from es = sender /\
    transactions e = map tx_hash (oi_transactions onchainInteraction) /\
    executionStateId e = es_id es /\
    networkInteractionId e = oi_id onchainInteraction.

(** The future is not yet in the deployment state and is of a kind that
    sends transactions, and [sender] is the account it will send from. *)
Definition willSendFrom (h : ModuleHelpers) (accounts : list string)
    (defaultSender : string) (exStateIds : list string) (f : Future h)
    (sender : string) : Prop :=
  ~ In (future_id h f) exStateIds /\
  isNamedContractAtFuture h f = false /\
  isArtifactContractAtFuture h f = false /\
  isReadEventArgumentFuture h f = false /\
  isEncodeFunctionCallFuture h f = false /\
  sender = resolveFutureFrom h (future_from h f) accounts defaultSender.

(** A small module for the examples: a future has an id, an optional sender
    and a flag telling whether it is a contract-at future. *)
Record ExampleFuture : Type := mkExampleFuture {
  ef_id : string;
  ef_from : option string;
  ef_contractAt : bool
}.

Definition lastInteraction (es : ExecutionState) : option OnchainInteraction :=
  match rev (es_networkInteractions es) with
  | ONCHAIN_INTERACTION interaction :: _ => Some interaction
  | _ => None
  end.

Definition exampleHelpers : ModuleHelpers :=
  {| Future := ExampleFuture;
     IgnitionModule := list ExampleFuture;
     FutureFrom := option string;
     getFuturesFromModule := fun m => m;
     future_id := ef_id;
     future_from := ef_from;
     isNamedContractAtFuture := ef_contractAt;
     isArtifactContractAtFuture := fun _ => false;
     isReadEventArgumentFuture := fun _ => false;
     isEncodeFunctionCallFuture := fun _ => false;
     resolveFutureFrom :=
       fun from _ defaultSender =>
         match from with Some account => account | None => defaultSender end;
     getPendingOnchainInteraction := lastInteraction |}.

(** A deployment with one succeeded state and one started state whose
    interaction has nonce 5 and one transaction. *)
Definition exampleState : DeploymentState :=
  {| executionStates :=
       [("future#0",
         {| es_id := "future#0"; es_type := DEPLOYMENT_EXECUTION_STATE;
            es_status := SUCCESS; es_from := "0xA";
            es_networkInteractions :=
              [ONCHAIN_INTERACTION
                 (mkOnchainInteraction 1 None "0x" 0 (Some 4)
                    [mkTransaction "0x99" (EIP1559Fees 100 2)])] |});
        ("future#1",
         {| es_id := "future#1"; es_type := CALL_EXECUTION_STATE;
            es_status := STARTED; es_from := "0xA";
            es_networkInteractions :=
              [ONCHAIN_INTERACTION
                 (mkOnchainInteraction 1 (Some "0xcc") "0x" 0 (Some 5)
                    [mkTransaction "0xaa" (EIP1559Fees 100 2)])] |})] |}.

(** Its module: the two futures of the state, a contract-at future and a
    future that will send from the default sender. *)
Definition exampleModule : list ExampleFuture :=
  [mkExampleFuture "future#0" (Some "0xA") false;
   mkExampleFuture "future#1" (Some "0xA") false;
   mkExampleFuture "future#2" None true;
   mkExampleFuture "future#3" None false].

(** ** Properties *)

(** *** The monad *)

Lemma bind_val {S A B} (m : M S A) (k : A -> M S B) s a s' :
  m s = (Val a, s') -> bind m k s = k a s'.
Proof. intros H. unfold bind. rewrite H. reflexivity. Qed.

Lemma bind_throw {S A B} (m : M S A) (k : A -> M S B) s e s' :
  m s = (Throw e, s') -> bind m k s = (Throw e, s').
Proof. intros H. unfold bind. rewrite H. reflexivity. Qed.

Lemma await_val {S A} (op : Rpc S A) s a s' :
  op s = (Val a, s') -> await op s = (Val a, s').
Proof. intros H. unfold await. rewrite H. reflexivity. Qed.

Lemma await_throw {S A} (op : Rpc S A) s v s' :
  op s = (Throw v, s') -> await op s = (Throw (Foreign v), s').
Proof. intros H. unfold await. rewrite H. reflexivity. Qed.

(** *** Fee policy *)

Lemma last_of_snoc {A} (l : list A) (x : A) :
  nth_error (l ++ [x]) (List.length (l ++ [x]) - 1) = Some x.
Proof.
  rewrite length_app. simpl.
  replace (List.length l + 1 - 1)%nat with (List.length l) by lia.
  rewrite nth_error_app2 by lia.
  rewrite Nat.sub_diag. reflexivity.
Qed.

Lemma snoc_not_empty {A} (l : list A) (x : A) :
  (List.length (l ++ [x]) =? 0)%nat = false.
Proof. rewrite length_app. simpl. apply Nat.eqb_neq. lia. Qed.

Lemma greater_or_else_is_max (a b : Z) :
  (if a >? b then a else b) = Z.max a b.
Proof. destruct (Z.gtb_spec a b); lia. Qed.

Lemma bump_is_floor (x : Z) :
  0 <= x -> bigintDiv (x * 110) 100 = x * 110 / 100.
Proof. intros H. unfold bigintDiv. apply Z.quot_div_nonneg; lia. Qed.

(** With at least one earlier transaction and EIP-1559 recommended fees the
    function returns, whatever the earlier fees are. *)
Lemma next_fees_eip1559 {S} (client : JsonRpcClient S) oi s s'
    earlier prev rMax rPrio :
  getNetworkFees client s = (Val (EIP1559Fees rMax rPrio), s') ->
  oi_transactions oi = earlier ++ [prev] ->
  getNextTransactionFees client oi s =
    (Val (EIP1559Fees
            (Z.max rMax (bigintDiv (asMaxFeePerGas (tx_fees prev) * 110) 100))
            (Z.max rPrio
               (bigintDiv (asMaxPriorityFeePerGas (tx_fees prev) * 110) 100))),
     s').
Proof.
  intros Hfees Htxs. unfold getNextTransactionFees.
  rewrite (bind_val _ _ _ (await_val _ _ Hfees)).
  rewrite Htxs, snoc_not_empty, last_of_snoc.
  rewrite !greater_or_else_is_max.
  destruct (tx_fees prev); reflexivity.
Qed.

Lemma next_fees_legacy {S} (client : JsonRpcClient S) oi s s'
    earlier prev rGasPrice gasPrice :
  getNetworkFees client s = (Val (LegacyFees rGasPrice), s') ->
  oi_transactions oi = earlier ++ [prev] ->
  tx_fees prev = LegacyFees gasPrice ->
  getNextTransactionFees client oi s =
    (Val (LegacyFees (Z.max rGasPrice (bigintDiv (gasPrice * 110) 100))), s').
Proof.
  intros Hfees Htxs Hprev. unfold getNextTransactionFees.
  rewrite (bind_val _ _ _ (await_val _ _ Hfees)).
  rewrite Htxs, snoc_not_empty, last_of_snoc, Hprev.
  simpl. unfold bind, ret. simpl.
  rewrite greater_or_else_is_max. reflexivity.
Qed.

(** C3. With no earlier transaction the next fees are the node's recommended
    fees.  With an earlier transaction and EIP-1559 recommended fees they are
    the field-wise maximum of the recommended fees and of
    floor(previous * 110 / 100), a legacy previous gas price standing for
    both fields.  With legacy recommended and legacy previous fees they are
    max(recommended gas price, floor(previous gas price * 110 / 100)). *)
Theorem next_fees_are_max_of_recommended_and_bumped :
  forall S (client : JsonRpcClient S) (oi : OnchainInteraction)
         (s s' : S) (recommended : NetworkFees),
    getNetworkFees client s = (Val recommended, s') ->
    (oi_transactions oi = [] ->
     getNextTransactionFees client oi s = (Val recommended, s')) /\
    (forall earlier prev rMax rPrio,
        oi_transactions oi = earlier ++ [prev] ->
        recommended = EIP1559Fees rMax rPrio ->
        feesNonNegative (tx_fees prev) ->
        getNextTransactionFees client oi s =
          (Val (EIP1559Fees
                  (Z.max rMax (asMaxFeePerGas (tx_fees prev) * 110 / 100))
                  (Z.max rPrio
                     (asMaxPriorityFeePerGas (tx_fees prev) * 110 / 100))),
           s')) /\
    (forall earlier prev rGasPrice gasPrice,
        oi_transactions oi = earlier ++ [prev] ->
        recommended = LegacyFees rGasPrice ->
        tx_fees prev = LegacyFees gasPrice ->
        0 <= gasPrice ->
        getNextTransactionFees client oi s =
          (Val (LegacyFees (Z.max rGasPrice (gasPrice * 110 / 100))), s')).
Proof.
  intros S client oi s s' recommended Hfees. repeat split.
  - intros Htxs. unfold getNextTransactionFees.
    rewrite (bind_val _ _ _ (await_val _ _ Hfees)).
    rewrite Htxs. reflexivity.
  - intros earlier prev rMax rPrio Htxs -> [Hmax Hprio].
    rewrite (@next_fees_eip1559 _ client oi s s' earlier prev rMax rPrio Hfees Htxs).
    rewrite !bump_is_floor by assumption. reflexivity.
  - intros earlier prev rGasPrice gasPrice Htxs -> Hprev Hpos.
    rewrite (@next_fees_legacy _ client oi s s' earlier prev rGasPrice gasPrice Hfees Htxs Hprev).
    rewrite bump_is_floor by assumption. reflexivity.
Qed.

(** The three cases of C3 on literal values: a first send, the fee bump of
    an EIP-1559 transaction, a legacy transaction under EIP-1559
    recommendations, and a legacy bump. *)
Lemma next_fees_are_max_of_recommended_and_bumped_witness :
  getNextTransactionFees (feeNode (EIP1559Fees 100 2)) (resendOf []) tt
  = (Val (EIP1559Fees 100 2), tt) /\
  getNextTransactionFees (feeNode (EIP1559Fees 90 1))
    (resendOf [mkTransaction "0xaa" (EIP1559Fees 100 2)]) tt
  = (Val (EIP1559Fees 110 2), tt) /\
  getNextTransactionFees (feeNode (EIP1559Fees 90 1))
    (resendOf [mkTransaction "0xaa" (LegacyFees 95)]) tt
  = (Val (EIP1559Fees 104 104), tt) /\
  getNextTransactionFees (feeNode (LegacyFees 200))
    (resendOf [mkTransaction "0xaa" (LegacyFees 95)]) tt
  = (Val (LegacyFees 200), tt).
Proof.
  split; [| split; [| split]].
  - apply (proj1 (@next_fees_are_max_of_recommended_and_bumped
                    unit (feeNode (EIP1559Fees 100 2)) (resendOf []) tt tt
                    (EIP1559Fees 100 2) eq_refl)).
    reflexivity.
  - apply (proj1 (proj2 (@next_fees_are_max_of_recommended_and_bumped
                    unit (feeNode (EIP1559Fees 90 1))
                    (resendOf [mkTransaction "0xaa" (EIP1559Fees 100 2)])
                    tt tt (EIP1559Fees 90 1) eq_refl))
             [] (mkTransaction "0xaa" (EIP1559Fees 100 2)) 90 1
             eq_refl eq_refl).
    unfold feesNonNegative; simpl; lia.
  - apply (proj1 (proj2 (@next_fees_are_max_of_recommended_and_bumped
                    unit (feeNode (EIP1559Fees 90 1))
                    (resendOf [mkTransaction "0xaa" (LegacyFees 95)])
                    tt tt (EIP1559Fees 90 1) eq_refl))
             [] (mkTransaction "0xaa" (LegacyFees 95)) 90 1
             eq_refl eq_refl).
    unfold feesNonNegative; simpl; lia.
  - apply (proj2 (proj2 (@next_fees_are_max_of_recommended_and_bumped
                    unit (feeNode (LegacyFees 200))
                    (resendOf [mkTransaction "0xaa" (LegacyFees 95)])
                    tt tt (LegacyFees 200) eq_refl))
             [] (mkTransaction "0xaa" (LegacyFees 95)) 200 95
             eq_refl eq_refl eq_refl).
    lia.
Defined.

(** C8. With at least one earlier transaction whose last fees are EIP-1559,
    legacy recommended fees make the function throw the hard error of the
    violated invariant (the spec's EIP1559_DOWNGRADE); it returns no fees. *)
Theorem downgrade_to_legacy_is_a_hard_error :
  forall S (client : JsonRpcClient S) (oi : OnchainInteraction) (s s' : S)
         earlier prev rGasPrice maxFeePerGas maxPriorityFeePerGas,
    oi_transactions oi = earlier ++ [prev] ->
    tx_fees prev = EIP1559Fees maxFeePerGas maxPriorityFeePerGas ->
    getNetworkFees client s = (Val (LegacyFees rGasPrice), s') ->
    getNextTransactionFees client oi s =
      (Throw (Ignition (ASSERTION_ERROR
         "EIP-1559 transaction was already sent but the currently recommended fees are not EIP-1559")),
       s') /\
    forall fees s'', getNextTransactionFees client oi s <> (Val fees, s'').
Proof.
  intros S client oi s s' earlier prev rGasPrice mf mp Htxs Hprev Hfees.
  assert (Hrun : getNextTransactionFees client oi s =
      (Throw (Ignition (ASSERTION_ERROR
         "EIP-1559 transaction was already sent but the currently recommended fees are not EIP-1559")),
       s')).
  { unfold getNextTransactionFees.
    rewrite (bind_val _ _ _ (await_val _ _ Hfees)).
    rewrite Htxs, snoc_not_empty, last_of_snoc, Hprev. reflexivity. }
  split; [exact Hrun |].
  intros fees s'' Hval. rewrite Hrun in Hval. discriminate.
Qed.

Lemma downgrade_to_legacy_is_a_hard_error_witness :
  getNextTransactionFees (feeNode (LegacyFees 90))
    (resendOf [mkTransaction "0xaa" (EIP1559Fees 100 2)]) tt
  = (Throw (Ignition (ASSERTION_ERROR
       "EIP-1559 transaction was already sent but the currently recommended fees are not EIP-1559")),
     tt).
Proof.
  apply (proj1 (@downgrade_to_legacy_is_a_hard_error
                  unit (feeNode (LegacyFees 90))
                  (resendOf [mkTransaction "0xaa" (EIP1559Fees 100 2)])
                  tt tt [] (mkTransaction "0xaa" (EIP1559Fees 100 2))
                  90 100 2 eq_refl eq_refl eq_refl)).
Defined.

(** C9, as stated, fails: after a transaction with fees (100, 2) and the
    recommended fees (90, 1) the next fees are (110, 2), and the priority fee
    2 is below 1.10 * 2. *)
Lemma next_fees_below_110_percent :
  getNextTransactionFees (feeNode (EIP1559Fees 90 1))
    (resendOf [mkTransaction "0xaa" (EIP1559Fees 100 2)]) tt
  = (Val (EIP1559Fees 110 2), tt) /\
  ~ atLeast110Percent (EIP1559Fees 100 2) (EIP1559Fees 110 2).
Proof.
  split; [reflexivity |].
  unfold atLeast110Percent. simpl. lia.
Qed.

Lemma floor_bump_bounds (x y : Z) :
  0 <= x -> y >= x * 110 / 100 -> y >= x /\ 100 * y > 110 * x - 100.
Proof.
  intros Hx Hy.
  pose proof (Z.div_le_lower_bound (x * 110) 100 x ltac:(lia) ltac:(lia)).
  pose proof (Z.mul_succ_div_gt (x * 110) 100 ltac:(lia)).
  lia.
Qed.

Lemma adjacentFees_snoc (R : NetworkFees -> NetworkFees -> Prop)
    (earlier : list Transaction) (prev next : Transaction) :
  adjacentFees R (earlier ++ [prev]) ->
  R (tx_fees prev) (tx_fees next) ->
  adjacentFees R ((earlier ++ [prev]) ++ [next]).
Proof.
  induction earlier as [| a rest IH]; intros Hadj HR.
  - simpl. auto.
  - destruct rest as [| b rest'].
    + simpl in *. tauto.
    + change (adjacentFees R (a :: (b :: rest') ++ [prev])) in Hadj.
      change (adjacentFees R (a :: ((b :: rest') ++ [prev]) ++ [next])).
      simpl in Hadj. destruct Hadj as [Hab Hrest].
      specialize (IH Hrest HR). simpl in IH. simpl. split; assumption.
Qed.

(** C9, amended.  With at least one earlier transaction of non-negative fees,
    and unless legacy fees are recommended after an EIP-1559 transaction, the
    function returns fees that are field-wise at least
    floor(1.10 * previous), hence never below the previous fees and less than
    one unit short of 1.10 times them; appending a transaction with these fees
    keeps every adjacent pair of the sequence in that relation. *)
Theorem next_fees_at_least_floor_of_110_percent :
  forall S (client : JsonRpcClient S) (oi : OnchainInteraction) (s s' : S)
         (recommended : NetworkFees) earlier prev,
    oi_transactions oi = earlier ++ [prev] ->
    feesNonNegative (tx_fees prev) ->
    getNetworkFees client s = (Val recommended, s') ->
    hasMaxFeePerGas recommended = true \/ hasGasPrice (tx_fees prev) = true ->
    exists fees,
      getNextTransactionFees client oi s = (Val fees, s') /\
      atLeastBumped (tx_fees prev) fees /\
      atLeastPrevious (tx_fees prev) fees /\
      100 * asMaxFeePerGas fees > 110 * asMaxFeePerGas (tx_fees prev) - 100 /\
      100 * asMaxPriorityFeePerGas fees >
        110 * asMaxPriorityFeePerGas (tx_fees prev) - 100 /\
      forall txHash,
        adjacentFees atLeastBumped (oi_transactions oi) ->
        adjacentFees atLeastBumped
          (oi_transactions oi ++ [mkTransaction txHash fees]).
Proof.
  intros S client oi s s' recommended earlier prev Htxs [Hmax Hprio] Hfees Hkind.
  assert (Hcases :
    exists fees,
      getNextTransactionFees client oi s = (Val fees, s') /\
      atLeastBumped (tx_fees prev) fees).
  { destruct recommended as [rGasPrice | rMax rPrio].
    - destruct Hkind as [Hkind | Hkind]; [discriminate |].
      destruct (tx_fees prev) as [gasPrice |] eqn:Hprev; [| discriminate].
      eexists. split.
      + apply (@next_fees_legacy _ client oi s s' earlier prev rGasPrice
                 gasPrice Hfees Htxs Hprev).
      + simpl in *. rewrite bump_is_floor by assumption. split; [reflexivity | lia].
    - eexists. split.
      + apply (@next_fees_eip1559 _ client oi s s' earlier prev rMax rPrio
                 Hfees Htxs).
      + simpl. rewrite !bump_is_floor by assumption. lia. }
  destruct Hcases as [fees [Hrun Hbumped]].
  exists fees. split; [exact Hrun |]. split; [exact Hbumped |].
  assert (Hfields :
    asMaxFeePerGas fees >= asMaxFeePerGas (tx_fees prev) * 110 / 100 /\
    asMaxPriorityFeePerGas fees >=
      asMaxPriorityFeePerGas (tx_fees prev) * 110 / 100).
  { destruct fees as [g | mf mp]; simpl in *.
    - destruct Hbumped as [Hleg Hg].
      destruct (tx_fees prev); [simpl in *; split; exact Hg | discriminate].
    - exact Hbumped. }
  destruct Hfields as [Hf1 Hf2].
  destruct (floor_bump_bounds Hmax Hf1) as [Ha1 Ha2].
  destruct (floor_bump_bounds Hprio Hf2) as [Hb1 Hb2].
  split; [split; assumption |].
  split; [exact Ha2 |]. split; [exact Hb2 |].
  intros txHash Hadj. rewrite Htxs in *.
  apply adjacentFees_snoc; assumption.
Qed.

Lemma next_fees_at_least_floor_of_110_percent_witness :
  exists fees,
    getNextTransactionFees (feeNode (EIP1559Fees 90 1))
      (resendOf [mkTransaction "0xaa" (EIP1559Fees 100 2)]) tt
    = (Val fees, tt) /\
    atLeastBumped (EIP1559Fees 100 2) fees.
Proof.
  assert (Hpos : feesNonNegative (EIP1559Fees 100 2))
    by (unfold feesNonNegative; simpl; lia).
  destruct (@next_fees_at_least_floor_of_110_percent
              unit (feeNode (EIP1559Fees 90 1))
              (resendOf [mkTransaction "0xaa" (EIP1559Fees 100 2)])
              tt tt (EIP1559Fees 90 1) []
              (mkTransaction "0xaa" (EIP1559Fees 100 2))
              eq_refl Hpos eq_refl (or_introl eq_refl))
    as [fees [Hrun [Hbumped _]]].
  exists fees. split; assumption.
Defined.

(** *** Send pipeline *)

Lemma prefix_spec (p s : string) :
  String.prefix p s = true <-> exists rest, s = (p ++ rest)%string.
Proof.
  revert s. induction p as [| c p IH]; intros s.
  - destruct s; simpl; (split; [intros _; eexists; reflexivity | reflexivity]).
  - destruct s as [| c' s']; simpl.
    + split; [discriminate | intros [rest H]; discriminate].
    + destruct (Ascii.ascii_dec c c') as [-> | Hne].
      * rewrite IH. split; intros [rest H]; exists rest.
        -- rewrite H. reflexivity.
        -- injection H as H. exact H.
      * split; [discriminate |].
        intros [rest H]. injection H as H1 H2. congruence.
Qed.

Lemma regexTest_unfold (p s : string) :
  regexTest p s =
  if String.prefix p s then true
  else match s with
       | EmptyString => false
       | String _ s' => regexTest p s'
       end.
Proof. destruct s; reflexivity. Qed.

(** [regexTest] decides the presence of the pattern as a substring. *)
Lemma regexTest_spec (p s : string) :
  regexTest p s = true <->
  exists before rest, s = (before ++ p ++ rest)%string.
Proof.
  induction s as [| c s IH]; rewrite regexTest_unfold.
  - destruct (String.prefix p "") eqn:Hp.
    + apply prefix_spec in Hp. destruct Hp as [rest Hp].
      split; [intros _; exists "", rest; exact Hp | reflexivity].
    + split; [discriminate |].
      intros [before [rest H]].
      assert (Hp' : String.prefix p "" = true).
      { apply prefix_spec. destruct before; [| discriminate].
        exists rest. exact H. }
      congruence.
  - destruct (String.prefix p (String c s)) eqn:Hp.
    + apply prefix_spec in Hp. destruct Hp as [rest Hp].
      split; [intros _; exists "", rest; exact Hp | reflexivity].
    + rewrite IH. split.
      * intros [before [rest H]]. exists (String c before), rest.
        simpl. rewrite H. reflexivity.
      * intros [before [rest H]]. destruct before as [| c' before].
        -- assert (Hp' : String.prefix p (String c s) = true)
             by (apply prefix_spec; exists rest; exact H).
           congruence.
        -- simpl in H. injection H as _ H. exists before, rest. exact H.
Qed.

(** The tag test on a few texts: a name between percent signs and a doubled
    percent sign are tags; a lone percent sign, an empty-looking name that
    starts with a digit and a name with a space are not. *)
Example variable_tags :
  valueContainsVariableTag "execution reverted: fee %bps% too high" = true /\
  valueContainsVariableTag "slippage above 100%% of the quote" = true /\
  valueContainsVariableTag "execution reverted" = false /\
  valueContainsVariableTag "fee is 5% too high" = false /\
  valueContainsVariableTag "%1bps% and %two words%" = false.
Proof. repeat split; reflexivity. Qed.

(** What the pipeline does when [estimateGas] fails: it simulates again
    through [call], without the fees field and at block tag "pending".  A
    decoded error of that simulation is the outcome.  Otherwise, for a thrown
    Error, it throws INSUFFICIENT_FUNDS_FOR_TRANSFER with the sender and the
    value when the message contains "insufficient funds for transfer", else
    INSUFFICIENT_FUNDS_FOR_DEPLOY with the sender when it contains "contract
    creation code storage out of gas"; else GAS_ESTIMATION_FAILED with the
    message when the message holds no template tag, and the internal
    template error when it holds one. *)
Lemma failed_gas_estimation_cases :
  forall S (client : JsonRpcClient S) (sender : string)
         (oi : OnchainInteraction) (nonceManager : NonceManager S)
         (decode : RawStaticCallResult -> Rpc S (option DecodedSimulationError))
         (loader : DeploymentLoader S) (futureId : string)
         (s0 s1 s2 s3 s4 s5 : S) (n : Z) (fees : NetworkFees)
         (error : JsThrown) (raw : RawStaticCallResult)
         (decoded : option DecodedSimulationError),
    nonceFor nonceManager sender oi s0 = (Val n, s1) ->
    getNextTransactionFees client oi s1 = (Val fees, s2) ->
    estimateGas client (estimateGasPrams sender oi n fees) s2
    = (Throw error, s3) ->
    call client
      {| p_to := oi_to oi; p_from := sender; p_data := oi_data oi;
         p_value := oi_value oi; p_nonce := n; p_fees := None;
         p_gasLimit := None |}
      pending s3
    = (Val raw, s4) ->
    decode raw s4 = (Val decoded, s5) ->
    let run :=
      sendTransactionForOnchainInteraction client sender oi nonceManager
        decode loader futureId s0 in
    (forall decodedError,
        decoded = Some decodedError ->
        run = (Val (SimulationFailed decodedError), s5)) /\
    (decoded = None ->
     instanceofError error = true ->
     (regexTest "insufficient funds for transfer" (message error) = true ->
      run = (Throw (Ignition (INSUFFICIENT_FUNDS_FOR_TRANSFER sender
                                (bigintToString (oi_value oi)))), s5)) /\
     (regexTest "insufficient funds for transfer" (message error) = false ->
      regexTest "contract creation code storage out of gas" (message error)
      = true ->
      run = (Throw (Ignition (INSUFFICIENT_FUNDS_FOR_DEPLOY sender)), s5)) /\
     (regexTest "insufficient funds for transfer" (message error) = false ->
      regexTest "contract creation code storage out of gas" (message error)
      = false ->
      valueContainsVariableTag (message error) = false ->
      run = (Throw (Ignition (GAS_ESTIMATION_FAILED (message error))), s5)) /\
     (regexTest "insufficient funds for transfer" (message error) = false ->
      regexTest "contract creation code storage out of gas" (message error)
      = false ->
      valueContainsVariableTag (message error) = true ->
      run = (Throw (Ignition (TEMPLATE_VALUE_CONTAINS_VARIABLE_TAG "error")),
             s5))).
Proof.
  intros S client sender oi nonceManager decode loader futureId
         s0 s1 s2 s3 s4 s5 n fees error raw decoded
         Hnonce Hfees Hgas Hcall Hdecode run.
  assert (Hrun : run =
    match decoded with
    | Some decodedError => (Val (SimulationFailed decodedError), s5)
    | None =>
        (assertIgnitionInvariant (instanceofError error)
           "Unexpected error type while resolving failed gas estimation" ;;;
         if regexTest "insufficient funds for transfer" (message error)
         then throw (Ignition (INSUFFICIENT_FUNDS_FOR_TRANSFER sender
                                 (bigintToString (oi_value oi))))
         else if regexTest "contract creation code storage out of gas"
                   (message error)
         then throw (Ignition (INSUFFICIENT_FUNDS_FOR_DEPLOY sender))
         else throw (Ignition (newGasEstimationFailed (message error)))) s5
    end).
  { subst run. unfold sendTransactionForOnchainInteraction.
    rewrite (bind_val _ _ _ Hnonce). rewrite (bind_val _ _ _ Hfees).
    unfold tryAwait. rewrite Hgas.
    unfold paramsWithoutFees, estimateGasPrams at 1. simpl.
    rewrite (bind_val _ _ _ (await_val _ _ Hcall)).
    rewrite (bind_val _ _ _ (await_val _ _ Hdecode)).
    destruct decoded; reflexivity. }
  split.
  - intros decodedError ->. exact Hrun.
  - intros -> Herr. rewrite Hrun, Herr. unfold assertIgnitionInvariant.
    unfold bind, ret, throw, newGasEstimationFailed.
    repeat split; intros;
      repeat match goal with
             | H : regexTest _ _ = _ |- _ => rewrite H; clear H
             | H : valueContainsVariableTag _ = _ |- _ => rewrite H; clear H
             end; reflexivity.
Qed.

(** Scenario 7 of section 8: the node refuses the estimation of a transfer
    of 1000 with "insufficient funds for transfer" and the simulation decodes
    to nothing. *)
Example scenario_insufficient_funds_for_transfer :
  sendTransactionForOnchainInteraction
    (refusingNode "insufficient funds for transfer") "0xA" firstSend
    (nonceManagerAt 5) (decodesAs None) acceptingLoader "future#1" tt
  = (Throw (Ignition (INSUFFICIENT_FUNDS_FOR_TRANSFER "0xA" "1000")), tt).
Proof.
  apply (proj1 (proj2 (@failed_gas_estimation_cases
           unit (refusingNode "insufficient funds for transfer") "0xA"
           firstSend (nonceManagerAt 5) (decodesAs None) acceptingLoader
           "future#1" tt tt tt tt tt tt 5 (EIP1559Fees 100 2)
           (mkJsThrown true "insufficient funds for transfer")
           emptyResult None eq_refl eq_refl eq_refl eq_refl eq_refl)
         eq_refl eq_refl)).
  reflexivity.
Qed.

(** C5, where the code falls short of it.  The node refuses the estimation
    with the Error "execution reverted: fee %bps% too high", which matches
    neither pattern, and the simulation decodes to nothing: the catch-all
    branch builds GAS_ESTIMATION_FAILED with that message, the constructor
    refuses the "%bps%" in it, and what the pipeline throws is the internal
    template error, not GAS_ESTIMATION_FAILED with the node's message. *)
Theorem tagged_node_message_is_not_reported :
  sendTransactionForOnchainInteraction
    (refusingNode "execution reverted: fee %bps% too high") "0xA" firstSend
    (nonceManagerAt 5) (decodesAs None) acceptingLoader "future#1" tt
  = (Throw (Ignition (TEMPLATE_VALUE_CONTAINS_VARIABLE_TAG "error")), tt) /\
  regexTest "insufficient funds for transfer"
    "execution reverted: fee %bps% too high" = false /\
  regexTest "contract creation code storage out of gas"
    "execution reverted: fee %bps% too high" = false /\
  sendTransactionForOnchainInteraction
    (refusingNode "execution reverted: fee %bps% too high") "0xA" firstSend
    (nonceManagerAt 5) (decodesAs None) acceptingLoader "future#1" tt
  <> (Throw (Ignition (GAS_ESTIMATION_FAILED
               "execution reverted: fee %bps% too high")), tt).
Proof.
  repeat split; try reflexivity. discriminate.
Qed.

(** Reading the fees leaves the log alone. *)
Lemma observed_fees_keep_log {W} (client : JsonRpcClient W) oi (w : W) log :
  getNextTransactionFees (observedClient client) oi (w, log)
  = (fst (getNextTransactionFees client oi w),
     (snd (getNextTransactionFees client oi w), log)).
Proof.
  unfold getNextTransactionFees, bind, await. simpl.
  unfold unobserved. simpl.
  destruct (getNetworkFees client w) as [[recommended | v] w']; simpl;
    [| reflexivity].
  destruct (List.length (oi_transactions oi) =? 0)%nat; [reflexivity |].
  destruct (nth_error (oi_transactions oi)
              (List.length (oi_transactions oi) - 1)) as [prev |];
    [| reflexivity].
  destruct recommended; [| reflexivity].
  destruct (tx_fees prev); reflexivity.
Qed.

Lemma observed_nonce_keeps_log {W} (nonceManager : NonceManager W) sender oi
    (w : W) log :
  nonceFor (observedNonceManager nonceManager) sender oi (w, log)
  = (fst (nonceFor nonceManager sender oi w),
     (snd (nonceFor nonceManager sender oi w), log)).
Proof.
  unfold nonceFor. destruct (oi_nonce oi); [reflexivity |].
  unfold await. simpl. unfold unobserved. simpl.
  destruct (getNextNonce nonceManager sender w) as [[a | v] w']; reflexivity.
Qed.

(** What a run of the pipeline can leave in the log: nothing, and then no
    transaction was sent and no collaborator's error came from the journal or
    the broadcast; or the journal record alone, when the journal or the
    broadcast threw; or the record followed by the broadcast. *)
Lemma observedSend_log {W} (client : JsonRpcClient W) sender oi
    (nonceManager : NonceManager W)
    (decode : RawStaticCallResult -> Rpc W (option DecodedSimulationError))
    (loader : DeploymentLoader W) futureId (w w' : W) log log' r :
  observedSend client sender oi nonceManager decode loader futureId (w, log)
  = (r, (w', log')) ->
  (log' = log /\ forall tx n, r <> Val (TRANSACTION_SENT tx n)) \/
  (exists n fees gasLimit,
      let params :=
        withGasLimit (estimateGasPrams sender oi n fees) gasLimit in
      let record :=
        JournalRecord (TRANSACTION_PREPARE_SEND futureId (oi_id oi) n) in
      (log' = log ++ [record] /\ exists v, r = Throw (Foreign v)) \/
      (log' = log ++ [record; Broadcast params] /\
       ((exists v, r = Throw (Foreign v)) \/
        exists txHash w5 w6,
          r = Val (TRANSACTION_SENT (mkTransaction txHash fees) n) /\
          recordToJournal loader
            (TRANSACTION_PREPARE_SEND futureId (oi_id oi) n) w5
          = (Val tt, w6) /\
          sendTransaction client params w6 = (Val txHash, w')))).
Proof.
  unfold observedSend, sendTransactionForOnchainInteraction.
  unfold bind at 1. rewrite observed_nonce_keeps_log.
  destruct (nonceFor nonceManager sender oi w) as [[n | e] w1]; simpl;
    [| intros H; injection H as <- <- <-; left; split;
       [reflexivity | discriminate]].
  unfold bind at 1. rewrite observed_fees_keep_log.
  destruct (getNextTransactionFees client oi w1) as [[fees | e] w2]; simpl;
    [| intros H; injection H as <- <- <-; left; split;
       [reflexivity | discriminate]].
  unfold tryAwait, bind, await, assertIgnitionInvariant, ret, throw. simpl.
  unfold unobserved, observed. simpl.
  destruct (estimateGas client (estimateGasPrams sender oi n fees) w2)
    as [[gasLimit | error] w3]; simpl.
  - destruct (call client
                (withGasLimit (estimateGasPrams sender oi n fees) gasLimit)
                pending w3) as [[raw | v] w4]; simpl;
      [| intros H; injection H as <- <- <-; left; split;
         [reflexivity | discriminate]].
    destruct (decode raw w4) as [[[d |] | v] w5]; simpl;
      try (intros H; injection H as <- <- <-; left; split;
           [reflexivity | discriminate]).
    destruct (recordToJournal loader _ w5) as [[[] | v] w6] eqn:Hrecord; simpl.
    + destruct (sendTransaction client _ w6) as [[txHash | v] w7] eqn:Hsend;
        simpl;
        intros H; injection H as <- <- <-; right;
        exists n, fees, gasLimit; right;
        (split; [rewrite <- app_assoc; reflexivity |]).
      * right. exists txHash, w5, w6.
        split; [reflexivity |]. split; [exact Hrecord | exact Hsend].
      * left. exists v. reflexivity.
    + intros H; injection H as <- <- <-. right.
      exists n, fees, gasLimit. left. split; [reflexivity |].
      exists v. reflexivity.
  - destruct (call client _ pending w3) as [[raw | v] w4]; simpl;
      [| intros H; injection H as <- <- <-; left; split;
         [reflexivity | discriminate]].
    destruct (decode raw w4) as [[[d |] | v] w5]; simpl;
      try (intros H; injection H as <- <- <-; left; split;
           [reflexivity | discriminate]).
    destruct (instanceofError error); simpl;
      [| intros H; injection H as <- <- <-; left; split;
         [reflexivity | discriminate]].
    destruct (regexTest "insufficient funds for transfer" (message error));
      [intros H; injection H as <- <- <-; left; split;
       [reflexivity | discriminate] |].
    destruct (regexTest "contract creation code storage out of gas"
                (message error));
      intros H; injection H as <- <- <-; left; split;
      try reflexivity; discriminate.
Qed.

(** C4. When the pipeline returns a sent transaction, the journal record
    TRANSACTION_PREPARE_SEND with the future, the interaction's id and the
    returned nonce was handed to the journal and accepted by it, the
    broadcast started from the state the journal left and came right after
    the record in the log, and the broadcast parameters carry the returned
    nonce and fees. *)
Theorem journal_record_precedes_broadcast :
  forall W (client : JsonRpcClient W) (sender : string)
         (oi : OnchainInteraction) (nonceManager : NonceManager W)
         (decode : RawStaticCallResult -> Rpc W (option DecodedSimulationError))
         (loader : DeploymentLoader W) (futureId : string)
         (w w' : W) (log log' : list Effect) (tx : Transaction) (n : Z),
    observedSend client sender oi nonceManager decode loader futureId (w, log)
    = (Val (TRANSACTION_SENT tx n), (w', log')) ->
    exists gasLimit wBefore wRecorded,
      let record := TRANSACTION_PREPARE_SEND futureId (oi_id oi) n in
      let params :=
        {| p_to := oi_to oi; p_from := sender; p_data := oi_data oi;
           p_value := oi_value oi; p_nonce := n;
           p_fees := Some (tx_fees tx); p_gasLimit := Some gasLimit |} in
      recordToJournal loader record wBefore = (Val tt, wRecorded) /\
      sendTransaction client params wRecorded = (Val (tx_hash tx), w') /\
      log' = log ++ [JournalRecord record; Broadcast params].
Proof.
  intros W client sender oi nonceManager decode loader futureId
         w w' log log' tx n Hrun.
  destruct (observedSend_log _ _ _ _ _ _ _ _ _ Hrun)
    as [[_ Hnot] | [n' [fees [gasLimit [[_ [v Hthrow]] | [Hlog Hres]]]]]].
  - exfalso. apply (Hnot tx n). reflexivity.
  - discriminate.
  - destruct Hres as [[v Hthrow] | [txHash [w5 [w6 [Hsent [Hrecord Hsend]]]]]];
      [discriminate |].
    injection Hsent as -> ->. exists gasLimit, w5, w6.
    split; [exact Hrecord |]. split; [exact Hsend | exact Hlog].
Qed.

(** C4 on the first send of the example: nonce 5 from the nonce manager,
    fees (100, 2), gas 21000, hash "0xaa"; the journal record comes first. *)
Lemma journal_record_precedes_broadcast_witness :
  exists gasLimit wBefore wRecorded,
    recordToJournal acceptingLoader
      (TRANSACTION_PREPARE_SEND "future#1" 1 5) wBefore
    = (Val tt, wRecorded) /\
    sendTransaction acceptingNode
      {| p_to := Some "0xcc"; p_from := "0xA"; p_data := "0x";
         p_value := 1000; p_nonce := 5;
         p_fees := Some (EIP1559Fees 100 2);
         p_gasLimit := Some gasLimit |} wRecorded
    = (Val "0xaa", tt) /\
    [JournalRecord (TRANSACTION_PREPARE_SEND "future#1" 1 5);
     Broadcast
       {| p_to := Some "0xcc"; p_from := "0xA"; p_data := "0x";
          p_value := 1000; p_nonce := 5;
          p_fees := Some (EIP1559Fees 100 2);
          p_gasLimit := Some 21000 |}]
    = [] ++
      [JournalRecord (TRANSACTION_PREPARE_SEND "future#1" 1 5);
       Broadcast
         {| p_to := Some "0xcc"; p_from := "0xA"; p_data := "0x";
            p_value := 1000; p_nonce := 5;
            p_fees := Some (EIP1559Fees 100 2);
            p_gasLimit := Some gasLimit |}].
Proof.
  apply (@journal_record_precedes_broadcast
           unit acceptingNode "0xA" firstSend (nonceManagerAt 5)
           (decodesAs None) acceptingLoader "future#1" tt tt [] _
           (mkTransaction "0xaa" (EIP1559Fees 100 2)) 5).
  reflexivity.
Defined.

(** Scenario 1 of section 8: the first send takes nonce 5 from the nonce
    manager, records it, then broadcasts with the recommended fees. *)
Example scenario_happy_path_first_send :
  observedSend acceptingNode "0xA" firstSend (nonceManagerAt 5)
    (decodesAs None) acceptingLoader "future#1" (tt, [])
  = (Val (TRANSACTION_SENT (mkTransaction "0xaa" (EIP1559Fees 100 2)) 5),
     (tt,
      [JournalRecord (TRANSACTION_PREPARE_SEND "future#1" 1 5);
       Broadcast
         {| p_to := Some "0xcc"; p_from := "0xA"; p_data := "0x";
            p_value := 1000; p_nonce := 5;
            p_fees := Some (EIP1559Fees 100 2);
            p_gasLimit := Some 21000 |}])).
Proof. reflexivity. Qed.

(** C10. When the pipeline ends with a decoded simulation error, from the
    simulation after a failed gas estimation or from the simulation before
    sending, or throws one of its errors for a failed gas estimation, no
    journal record was handed to the journal and [sendTransaction] was not
    invoked. *)
Theorem aborted_send_leaves_journal_and_network_alone :
  forall W (client : JsonRpcClient W) (sender : string)
         (oi : OnchainInteraction) (nonceManager : NonceManager W)
         (decode : RawStaticCallResult -> Rpc W (option DecodedSimulationError))
         (loader : DeploymentLoader W) (futureId : string)
         (w w' : W) (log log' : list Effect) (r : Outcome Thrown SendResult),
    observedSend client sender oi nonceManager decode loader futureId (w, log)
    = (r, (w', log')) ->
    abortedBeforeSending r ->
    log' = log.
Proof.
  intros W client sender oi nonceManager decode loader futureId
         w w' log log' r Hrun Haborted.
  destruct (observedSend_log _ _ _ _ _ _ _ _ _ Hrun)
    as [[Hlog _]
       | [n [fees [gasLimit
            [[_ [v ->]] | [_ [[v ->] | [h [w5 [w6 [-> _]]]]]]]]]]].
  - exact Hlog.
  - contradiction.
  - contradiction.
  - contradiction.
Qed.

(** C10 on three aborted runs: the simulation before sending decodes to an
    error; the simulation after a failed estimation decodes to an error; the
    failed estimation is reported as GAS_ESTIMATION_FAILED.  The log stays
    empty. *)
Lemma aborted_send_leaves_journal_and_network_alone_witness :
  (observedSend acceptingNode "0xA" firstSend (nonceManagerAt 5)
     (decodesAs (Some (SimulationErrorExecutionResult "reverted")))
     acceptingLoader "future#1" (tt, [])
   = (Val (SimulationFailed (SimulationErrorExecutionResult "reverted")),
      (tt, []))) /\
  (observedSend (refusingNode "execution reverted") "0xA" firstSend
     (nonceManagerAt 5)
     (decodesAs (Some (SimulationErrorExecutionResult "reverted")))
     acceptingLoader "future#1" (tt, [])
   = (Val (SimulationFailed (SimulationErrorExecutionResult "reverted")),
      (tt, []))) /\
  (observedSend (refusingNode "execution reverted") "0xA" firstSend
     (nonceManagerAt 5) (decodesAs None) acceptingLoader "future#1" (tt, [])
   = (Throw (Ignition (GAS_ESTIMATION_FAILED "execution reverted")),
      (tt, []))) /\
  (@nil Effect) = [].
Proof.
  split; [reflexivity |]. split; [reflexivity |]. split; [reflexivity |].
  apply (@aborted_send_leaves_journal_and_network_alone
           unit (refusingNode "execution reverted") "0xA" firstSend
           (nonceManagerAt 5) (decodesAs None) acceptingLoader "future#1"
           tt tt [] []
           (Throw (Ignition (GAS_ESTIMATION_FAILED "execution reverted")))).
  - reflexivity.
  - exact I.
Defined.

(** *** Nonce synchronisation: the loops *)

Lemma forOf_app {S A B} (l1 l2 : list A) (body : A -> B -> M S B) acc s :
  forOf (l1 ++ l2) body acc s =
  match forOf l1 body acc s with
  | (Val acc', s') => forOf l2 body acc' s'
  | (Throw e, s') => (Throw e, s')
  end.
Proof.
  revert acc s. induction l1 as [| x l1 IH]; intros acc s; simpl.
  - reflexivity.
  - unfold bind. destruct (body x acc s) as [[acc' | e] s']; [apply IH |].
    reflexivity.
Qed.

(** A loop whose body only appends to the accumulator only appends. *)
Lemma forOf_appends {S A C} (l : list A) (body : A -> list C -> M S (list C)) :
  (forall x acc s acc' s',
      body x acc s = (Val acc', s') -> exists more, acc' = acc ++ more) ->
  forall acc s out s',
    forOf l body acc s = (Val out, s') -> exists more, out = acc ++ more.
Proof.
  intros Hbody. induction l as [| x l IH]; intros acc s out s' Hrun.
  - simpl in Hrun. injection Hrun as <- <-. exists []. symmetry.
    apply app_nil_r.
  - simpl in Hrun. unfold bind in Hrun.
    destruct (body x acc s) as [[acc1 | e] s1] eqn:Hx; [| discriminate].
    destruct (Hbody _ _ _ _ _ Hx) as [more1 ->].
    destruct (IH _ _ _ _ Hrun) as [more2 ->].
    exists (more1 ++ more2). symmetry. apply app_assoc.
Qed.

Lemma syncPendingTransaction_appends {S} (client : JsonRpcClient S) sender
    rc safe pendingCount latestCount e messages s out s' :
  syncPendingTransaction client sender rc safe pendingCount latestCount e
    messages s = (Val out, s') ->
  exists more, out = messages ++ more.
Proof.
  unfold syncPendingTransaction, bind, ret, throw.
  destruct (promiseAll _ s) as [[fetched | err] s1]; [| discriminate].
  destruct (existsb isDefined fetched).
  - intros H; injection H as <- <-. exists []. symmetry. apply app_nil_r.
  - destruct (latestCount >? nonce e).
    + destruct (negb _); [discriminate |].
      intros H; injection H as <- <-. eexists. reflexivity.
    + destruct (pendingCount >? nonce e); [discriminate |].
      intros H; injection H as <- <-. eexists. reflexivity.
Qed.

Lemma checkHigherUserNonces_keeps {S} sender rc safe pendingCount l messages
    (s : S) out s' :
  checkHigherUserNonces sender rc safe pendingCount l messages s
  = (Val out, s') ->
  out = messages /\ s' = s.
Proof.
  unfold checkHigherUserNonces, ret, throw.
  destruct (jsLt _ _); [destruct (hasOnchainUnconfirmedPendingTransactions _ _) |];
    intros H; try discriminate; injection H as <- <-; split; reflexivity.
Qed.

(** What [syncSender] does once the three counts are read. *)
Lemma syncSender_after_reads {S} (client : JsonRpcClient S) rc
    confirmedBlockNumber sender l messages s safe pendingCount latestCount sb :
  readsCounts client sender confirmedBlockNumber s safe pendingCount
    latestCount sb ->
  syncSender client rc confirmedBlockNumber (sender, l) messages s =
  ((if (List.length l =? 0)%nat
    then
      if hasOnchainUnconfirmedPendingTransactions safe pendingCount
      then throw (Ignition (WAITING_FOR_CONFIRMATIONS sender rc))
      else ret tt
    else ret tt) ;;;
   messages' <-
     forOf l
       (syncPendingTransaction client sender rc safe pendingCount latestCount)
       messages ;;
   checkHigherUserNonces sender rc safe pendingCount l messages') sb.
Proof.
  intros [s1 [s2 [Hsafe [Hpending Hlatest]]]].
  unfold syncSender. simpl.
  rewrite (bind_val _ _ _ Hsafe).
  rewrite (bind_val _ _ _ (await_val _ _ Hpending)).
  rewrite (bind_val _ _ _ (await_val _ _ Hlatest)).
  reflexivity.
Qed.

Lemma syncSender_appends {S} (client : JsonRpcClient S) rc
    confirmedBlockNumber entry messages s out s' :
  syncSender client rc confirmedBlockNumber entry messages s = (Val out, s') ->
  exists more, out = messages ++ more.
Proof.
  unfold syncSender. unfold bind at 1.
  destruct (safeConfirmationsCountOf _ _ _ s) as [[safe | e] s1];
    [| discriminate].
  unfold bind at 1.
  destruct (await _ s1) as [[pendingCount | e] s2]; [| discriminate].
  unfold bind at 1.
  destruct (await _ s2) as [[latestCount | e] s3]; [| discriminate].
  unfold bind at 1.
  match goal with
  | |- context [match ?c s3 with _ => _ end] =>
      destruct (c s3) as [[[] | e] s4]; [| discriminate]
  end.
  unfold bind at 1.
  destruct (forOf _ _ messages s4) as [[messages' | e] s5] eqn:Hloop;
    [| discriminate].
  intros Hcheck. apply checkHigherUserNonces_keeps in Hcheck.
  destruct Hcheck as [-> _].
  apply (forOf_appends _ _
           (fun x acc s acc' s' =>
              @syncPendingTransaction_appends _ client _ _ _ _ _ x acc s
                acc' s') _ _ Hloop).
Qed.

(** The pass, seen from a sender it reaches. *)
Lemma pass_from_sender {S} (client : JsonRpcClient S) rc perSender s0
    block sender l messages s :
  passReachesSender client rc perSender s0 block sender l messages s ->
  exists sendersAfter,
    syncPendingTransactionsPerSender client perSender rc s0 =
    (messages' <-
       syncSender client rc (confirmedBlockNumberOf block rc) (sender, l)
         messages ;;
     forOf sendersAfter
       (syncSender client rc (confirmedBlockNumberOf block rc))
       messages') s.
Proof.
  intros [before [after [s1 [-> [Hblock Hbefore]]]]].
  exists after. unfold syncPendingTransactionsPerSender.
  rewrite (bind_val _ _ _ (await_val _ _ Hblock)).
  rewrite forOf_app, Hbefore. reflexivity.
Qed.

Lemma pass_throws_at_sender {S} (client : JsonRpcClient S) rc perSender s0
    block sender l messages s e s' :
  passReachesSender client rc perSender s0 block sender l messages s ->
  syncSender client rc (confirmedBlockNumberOf block rc) (sender, l) messages s
  = (Throw e, s') ->
  syncPendingTransactionsPerSender client perSender rc s0 = (Throw e, s').
Proof.
  intros Hreach Hthrow.
  destruct (@pass_from_sender _ client rc perSender s0 block
              sender l messages s Hreach) as [after ->].
  apply bind_throw. exact Hthrow.
Qed.

Lemma pass_keeps_sender_messages {S} (client : JsonRpcClient S) rc perSender
    s0 block sender l messages s messages' s' out sf :
  passReachesSender client rc perSender s0 block sender l messages s ->
  syncSender client rc (confirmedBlockNumberOf block rc) (sender, l) messages s
  = (Val messages', s') ->
  syncPendingTransactionsPerSender client perSender rc s0 = (Val out, sf) ->
  exists more, out = messages' ++ more.
Proof.
  intros Hreach Hsender Hpass.
  destruct (@pass_from_sender _ client rc perSender s0 block
              sender l messages s Hreach) as [after Heq].
  rewrite Heq, (bind_val _ _ _ Hsender) in Hpass.
  apply (forOf_appends _ _
           (fun x acc s acc' s' =>
              @syncSender_appends _ client rc
                (confirmedBlockNumberOf block rc) x acc s acc' s') _ _ Hpass).
Qed.

(** The sender's part of the pass, seen from an entry it reaches. *)
Lemma sender_from_entry {S} (client : JsonRpcClient S) rc confirmedBlockNumber
    sender before e after messages0 sa safe pendingCount latestCount sb
    messages s :
  readsCounts client sender confirmedBlockNumber sa safe pendingCount
    latestCount sb ->
  forOf before
    (syncPendingTransaction client sender rc safe pendingCount latestCount)
    messages0 sb = (Val messages, s) ->
  syncSender client rc confirmedBlockNumber (sender, before ++ e :: after)
    messages0 sa =
  (messages1 <-
     syncPendingTransaction client sender rc safe pendingCount latestCount e
       messages ;;
   messages2 <-
     forOf after
       (syncPendingTransaction client sender rc safe pendingCount latestCount)
       messages1 ;;
   checkHigherUserNonces sender rc safe pendingCount (before ++ e :: after)
     messages2) s.
Proof.
  intros Hreads Hbefore.
  rewrite (@syncSender_after_reads _ client rc confirmedBlockNumber sender
             (before ++ e :: after) messages0 sa safe pendingCount
             latestCount sb Hreads).
  assert (Hlen : (List.length (before ++ e :: after) =? 0)%nat = false).
  { apply Nat.eqb_neq. rewrite length_app. simpl. lia. }
  rewrite Hlen. unfold bind at 1. unfold ret at 1.
  unfold bind at 1. rewrite forOf_app, Hbefore.
  simpl. unfold bind.
  destruct (syncPendingTransaction _ _ _ _ _ _ e messages s)
    as [[m1 | err] s1]; reflexivity.
Qed.

Lemma pass_throws_at_entry {S} (client : JsonRpcClient S) rc perSender s0
    sender safe pendingCount latestCount e messages s err s' :
  passReachesEntry client rc perSender s0 sender safe pendingCount
    latestCount e messages s ->
  syncPendingTransaction client sender rc safe pendingCount latestCount e
    messages s = (Throw err, s') ->
  syncPendingTransactionsPerSender client perSender rc s0 = (Throw err, s').
Proof.
  intros [block [before [after [m0 [sa [sb [Hsender [Hreads Hbefore]]]]]]]] Hthrow.
  apply (@pass_throws_at_sender _ client rc perSender s0 block sender
           (before ++ e :: after) m0 sa err s' Hsender).
  rewrite (@sender_from_entry _ client rc (confirmedBlockNumberOf block rc) sender before e after m0 sa
             safe pendingCount latestCount sb messages s Hreads Hbefore).
  apply bind_throw. exact Hthrow.
Qed.

Lemma pass_keeps_entry_messages {S} (client : JsonRpcClient S) rc perSender s0
    sender safe pendingCount latestCount e messages s messages' s' out sf :
  passReachesEntry client rc perSender s0 sender safe pendingCount
    latestCount e messages s ->
  syncPendingTransaction client sender rc safe pendingCount latestCount e
    messages s = (Val messages', s') ->
  syncPendingTransactionsPerSender client perSender rc s0 = (Val out, sf) ->
  exists more, out = messages' ++ more.
Proof.
  intros [block [before [after [m0 [sa [sb [Hsender [Hreads Hbefore]]]]]]]]
         Hstep Hpass.
  destruct (syncSender client rc (confirmedBlockNumberOf block rc)
              (sender, before ++ e :: after) m0 sa)
    as [[m3 | err] s3] eqn:Hrun.
  - destruct (@pass_keeps_sender_messages _ client rc perSender s0 block sender
                (before ++ e :: after) m0 sa m3 s3 out sf Hsender Hrun Hpass)
      as [more ->].
    rewrite (@sender_from_entry _ client rc (confirmedBlockNumberOf block rc) sender before e after m0 sa
               safe pendingCount latestCount sb messages s Hreads Hbefore)
      in Hrun.
    rewrite (bind_val _ _ _ Hstep) in Hrun.
    unfold bind at 1 in Hrun.
    destruct (forOf after _ messages' s') as [[m2 | err] s2] eqn:Hafter;
      [| discriminate].
    apply checkHigherUserNonces_keeps in Hrun. destruct Hrun as [-> _].
    destruct (forOf_appends _ _
                (fun x acc s acc' s' =>
                   @syncPendingTransaction_appends _ client _ _ _ _ _ x acc s
                     acc' s') _ _ Hafter) as [more' ->].
    exists (more' ++ more). symmetry. apply app_assoc.
  - rewrite (@pass_throws_at_sender _ client rc perSender s0 block sender
               (before ++ e :: after) m0 sa err s3 Hsender Hrun) in Hpass.
    discriminate.
Qed.

(** [getNonceSyncMessages] is the pass over the map it builds; what follows
    holds of any map, so of that one. *)
Lemma getNonceSyncMessages_is_the_pass {S} (h : ModuleHelpers)
    (client : JsonRpcClient S) deploymentState ignitionModule accounts
    defaultSender requiredConfirmations :
  getNonceSyncMessages h client deploymentState ignitionModule accounts
    defaultSender requiredConfirmations
  = syncPendingTransactionsPerSender client
      (createMapFromSenderToNonceAndTransactions h deploymentState
         ignitionModule accounts defaultSender)
      requiredConfirmations.
Proof. reflexivity. Qed.

(** *** Nonce synchronisation: the cases *)

Lemma allUnknown_none_defined (fetched : list (option Transaction)) :
  allUnknown fetched -> existsb isDefined fetched = false.
Proof.
  induction 1 as [| tx rest Htx _ IH]; [reflexivity |].
  subst tx. exact IH.
Qed.

Lemma one_known_is_defined (fetched : list (option Transaction)) :
  (exists tx, In (Some tx) fetched) -> existsb isDefined fetched = true.
Proof.
  intros [tx Hin]. apply existsb_exists. exists (Some tx).
  split; [exact Hin | reflexivity].
Qed.

Lemma hasUnconfirmed_reflect (safe : option Z) (pendingCount : Z) :
  hasOnchainUnconfirmedPendingTransactions safe pendingCount = true <->
  hasUnconfirmed safe pendingCount.
Proof.
  destruct safe as [c |]; simpl.
  - rewrite negb_true_iff, Z.eqb_neq. reflexivity.
  - rewrite Z.gtb_gt. lia.
Qed.

Lemma hasUnconfirmed_reflect_not (safe : option Z) (pendingCount : Z) :
  hasOnchainUnconfirmedPendingTransactions safe pendingCount = false <->
  ~ hasUnconfirmed safe pendingCount.
Proof.
  rewrite <- hasUnconfirmed_reflect.
  destruct (hasOnchainUnconfirmedPendingTransactions safe pendingCount);
    split; congruence.
Qed.

(** C1. For a pending transaction the pass reaches, none of whose hashes the
    node knows and whose nonce is below the latest count: if the safe count
    is defined and at least the nonce, the pass pushes
    ONCHAIN_INTERACTION_REPLACED_BY_USER for it, and every list the pass
    returns has it right after the earlier messages; otherwise the pass
    throws WAITING_FOR_NONCE with the sender, the nonce and the required
    confirmations instead of returning. *)
Theorem unknown_transactions_of_a_confirmed_nonce :
  forall S (client : JsonRpcClient S) (requiredConfirmations : Z)
         (perSender : JsObject (list PendingIgnitionTransaction)) (s0 s s' : S)
         (sender : string) (safeCount : option Z)
         (pendingCount latestCount : Z) (e : PendingIgnitionTransaction)
         (messages : list JournalMessage)
         (fetched : list (option Transaction)),
    passReachesEntry client requiredConfirmations perSender s0 sender
      safeCount pendingCount latestCount e messages s ->
    promiseAll (map (fun tx => getTransaction client tx) (transactions e)) s
    = (Val fetched, s') ->
    allUnknown fetched ->
    latestCount > nonce e ->
    let step :=
      syncPendingTransaction client sender requiredConfirmations safeCount
        pendingCount latestCount e messages s in
    let pass :=
      syncPendingTransactionsPerSender client perSender requiredConfirmations
        s0 in
    let replaced :=
      ONCHAIN_INTERACTION_REPLACED_BY_USER (executionStateId e)
        (networkInteractionId e) in
    let waiting :=
      Ignition (WAITING_FOR_NONCE sender (nonce e) requiredConfirmations) in
    ((exists safe, safeCount = Some safe /\ safe >= nonce e) ->
     step = (Val (messages ++ [replaced]), s') /\
     forall out sf,
       pass = (Val out, sf) -> exists more, out = messages ++ replaced :: more)
    /\
    (~ (exists safe, safeCount = Some safe /\ safe >= nonce e) ->
     step = (Throw waiting, s') /\ pass = (Throw waiting, s')).
Proof.
  intros S client rc perSender s0 s s' sender safeCount pendingCount
         latestCount e messages fetched Hreach Hfetch Hunknown Hlatest
         step pass replaced waiting.
  assert (Hstep : step =
    (if negb match safeCount with
             | None => false
             | Some safe => safe >=? nonce e
             end
     then throw waiting
     else ret (messages ++ [replaced])) s').
  { subst step. unfold syncPendingTransaction.
    rewrite (bind_val _ _ _ Hfetch).
    rewrite (allUnknown_none_defined Hunknown).
    replace (latestCount >? nonce e) with true
      by (symmetry; apply Z.gtb_gt; lia).
    reflexivity. }
  split.
  - intros [safe [-> Hsafe]].
    assert (Hval : step = (Val (messages ++ [replaced]), s')).
    { rewrite Hstep.
      replace (safe >=? nonce e) with true
        by (symmetry; apply Z.geb_le; lia).
      reflexivity. }
    split; [exact Hval |].
    intros out sf Hpass.
    destruct (@pass_keeps_entry_messages _ client rc perSender s0 sender
                (Some safe) pendingCount latestCount e messages s
                (messages ++ [replaced]) s' out sf Hreach Hval Hpass)
      as [more ->].
    exists more. rewrite <- app_assoc. reflexivity.
  - intros Hnot.
    assert (Hthrow : step = (Throw waiting, s')).
    { rewrite Hstep. destruct safeCount as [safe |]; [| reflexivity].
      destruct (Z.geb_spec safe (nonce e)) as [Hge | Hlt]; [| reflexivity].
      exfalso. apply Hnot. exists safe. split; [reflexivity | lia]. }
    split; [exact Hthrow |].
    exact (@pass_throws_at_entry _ client rc perSender s0 sender safeCount
             pendingCount latestCount e messages s waiting s' Hreach Hthrow).
Qed.

(** C2. For a pending transaction the pass reaches: if the node still knows
    one of its hashes, the pass goes on with the same messages, nothing
    pushed and nothing thrown for it; if it knows none and the latest count
    is at most the nonce, the pass throws WAITING_FOR_NONCE when the pending
    count is above the nonce and pushes ONCHAIN_INTERACTION_DROPPED when it is
    not. *)
Theorem live_pending_or_dropped_transactions :
  forall S (client : JsonRpcClient S) (requiredConfirmations : Z)
         (perSender : JsObject (list PendingIgnitionTransaction)) (s0 s s' : S)
         (sender : string) (safeCount : option Z)
         (pendingCount latestCount : Z) (e : PendingIgnitionTransaction)
         (messages : list JournalMessage)
         (fetched : list (option Transaction)),
    passReachesEntry client requiredConfirmations perSender s0 sender
      safeCount pendingCount latestCount e messages s ->
    promiseAll (map (fun tx => getTransaction client tx) (transactions e)) s
    = (Val fetched, s') ->
    let step :=
      syncPendingTransaction client sender requiredConfirmations safeCount
        pendingCount latestCount e messages s in
    let pass :=
      syncPendingTransactionsPerSender client perSender requiredConfirmations
        s0 in
    let dropped :=
      ONCHAIN_INTERACTION_DROPPED (executionStateId e)
        (networkInteractionId e) in
    let waiting :=
      Ignition (WAITING_FOR_NONCE sender (nonce e) requiredConfirmations) in
    ((exists tx, In (Some tx) fetched) -> step = (Val messages, s')) /\
    (allUnknown fetched ->
     latestCount <= nonce e ->
     (pendingCount > nonce e ->
      step = (Throw waiting, s') /\ pass = (Throw waiting, s')) /\
     (pendingCount <= nonce e ->
      step = (Val (messages ++ [dropped]), s') /\
      forall out sf,
        pass = (Val out, sf) ->
        exists more, out = messages ++ dropped :: more)).
Proof.
  intros S client rc perSender s0 s s' sender safeCount pendingCount
         latestCount e messages fetched Hreach Hfetch
         step pass dropped waiting.
  split.
  - intros Hknown. subst step. unfold syncPendingTransaction.
    rewrite (bind_val _ _ _ Hfetch).
    rewrite (one_known_is_defined _ Hknown). reflexivity.
  - intros Hunknown Hlatest.
    assert (Hstep : step =
      (if pendingCount >? nonce e then throw waiting
       else ret (messages ++ [dropped])) s').
    { subst step. unfold syncPendingTransaction.
      rewrite (bind_val _ _ _ Hfetch).
      rewrite (allUnknown_none_defined Hunknown).
      replace (latestCount >? nonce e) with false
        by (symmetry; rewrite Z.gtb_ltb; apply Z.ltb_ge; lia).
      reflexivity. }
    split.
    + intros Hpending.
      assert (Hthrow : step = (Throw waiting, s')).
      { rewrite Hstep.
        replace (pendingCount >? nonce e) with true
          by (symmetry; apply Z.gtb_gt; lia).
        reflexivity. }
      split; [exact Hthrow |].
      exact (@pass_throws_at_entry _ client rc perSender s0 sender safeCount
               pendingCount latestCount e messages s waiting s' Hreach Hthrow).
    + intros Hpending.
      assert (Hval : step = (Val (messages ++ [dropped]), s')).
      { rewrite Hstep.
        replace (pendingCount >? nonce e) with false
          by (symmetry; rewrite Z.gtb_ltb; apply Z.ltb_ge; lia).
        reflexivity. }
      split; [exact Hval |].
      intros out sf Hpass.
      destruct (@pass_keeps_entry_messages _ client rc perSender s0 sender
                  safeCount pendingCount latestCount e messages s
                  (messages ++ [dropped]) s' out sf Hreach Hval Hpass)
        as [more ->].
      exists more. rewrite <- app_assoc. reflexivity.
Qed.

Lemma fold_max_finite (l : list Z) (acc : Z) :
  exists m,
    fold_left
      (fun a n =>
         match a with
         | NegativeInfinity => Finite n
         | Finite k => Finite (Z.max k n)
         end)
      l (Finite acc) = Finite m /\
    (m = acc \/ In m l) /\ acc <= m /\ forall n, In n l -> n <= m.
Proof.
  revert acc. induction l as [| x l IH]; intros acc; simpl.
  - exists acc. repeat split; [left; reflexivity | lia | contradiction].
  - destruct (IH (Z.max acc x)) as [m [Hfold [Hin [Hle Hall]]]].
    exists m. split; [exact Hfold |]. split; [| split].
    + destruct Hin as [-> | Hin]; [| right; right; exact Hin].
      destruct (Z.max_spec acc x) as [[_ ->] | [_ ->]];
        [right; left; reflexivity | left; reflexivity].
    + lia.
    + intros n [<- | Hn]; [lia | apply Hall; exact Hn].
Qed.

(** [Math.max] of a non-empty list is its largest element. *)
Lemma Math_max_highest (l : list PendingIgnitionTransaction) (m : Z) :
  isHighestNonce m l -> Math_max (map nonce l) = Finite m.
Proof.
  intros [Hin Hall]. unfold Math_max.
  destruct (map nonce l) as [| x rest]; [contradiction |]. simpl.
  destruct (fold_max_finite rest x) as [m' [-> [Hm' [Hle Hrest]]]].
  f_equal. apply Z.le_antisymm.
  - apply Hall. destruct Hm' as [-> | Hm']; [left; reflexivity |].
    right; exact Hm'.
  - destruct Hin as [<- | Hin]; [exact Hle | apply Hrest; exact Hin].
Qed.

(** C6. For a sender the pass reaches with no pending Ignition transaction:
    the safe count is undefined exactly when block.number -
    requiredConfirmations + 1 is negative; the sender's turn throws
    WAITING_FOR_CONFIRMATIONS with the sender and the required confirmations
    if and only if [hasUnconfirmed] holds, and then so does the pass;
    otherwise the turn ends with the same messages and no error. *)
Theorem sender_without_pending_transactions :
  forall S (client : JsonRpcClient S) (requiredConfirmations : Z)
         (perSender : JsObject (list PendingIgnitionTransaction)) (s0 s sb : S)
         (block : Block) (sender : string) (messages : list JournalMessage)
         (safeCount : option Z) (pendingCount latestCount : Z),
    passReachesSender client requiredConfirmations perSender s0 block sender
      [] messages s ->
    readsCounts client sender
      (confirmedBlockNumberOf block requiredConfirmations) s
      safeCount pendingCount latestCount sb ->
    let turn :=
      syncSender client requiredConfirmations
        (confirmedBlockNumberOf block requiredConfirmations)
        (sender, []) messages s in
    let pass :=
      syncPendingTransactionsPerSender client perSender requiredConfirmations
        s0 in
    let waiting :=
      Ignition (WAITING_FOR_CONFIRMATIONS sender requiredConfirmations) in
    (safeCount = None <-> number block - requiredConfirmations + 1 < 0) /\
    (turn = (Throw waiting, sb) <-> hasUnconfirmed safeCount pendingCount) /\
    (hasUnconfirmed safeCount pendingCount -> pass = (Throw waiting, sb)) /\
    (~ hasUnconfirmed safeCount pendingCount -> turn = (Val messages, sb)).
Proof.
  intros S client rc perSender s0 s sb block sender messages safeCount
         pendingCount latestCount Hreach Hreads turn pass waiting.
  assert (Hturn : turn =
    if hasOnchainUnconfirmedPendingTransactions safeCount pendingCount
    then (Throw waiting, sb) else (Val messages, sb)).
  { subst turn.
    rewrite (@syncSender_after_reads _ client rc
               (confirmedBlockNumberOf block rc) sender [] messages s
               safeCount pendingCount latestCount sb Hreads).
    simpl. unfold bind, throw, ret, checkHigherUserNonces. simpl.
    destruct (hasOnchainUnconfirmedPendingTransactions safeCount pendingCount);
      reflexivity. }
  split; [| split; [| split]].
  - destruct Hreads as [s1 [s2 [Hsafe _]]].
    unfold confirmedBlockNumberOf, safeConfirmationsCountOf in Hsafe.
    destruct (Z.geb_spec (number block - rc + 1) 0) as [Hge | Hlt].
    + unfold bind, await, ret in Hsafe.
      destruct (getTransactionCount client sender _ s) as [[count | v] sx];
        [| discriminate].
      injection Hsafe as <- _. split; [discriminate | lia].
    + injection Hsafe as <- _. split; [intros _; lia | reflexivity].
  - rewrite Hturn. split.
    + intros H. apply hasUnconfirmed_reflect.
      destruct (hasOnchainUnconfirmedPendingTransactions safeCount
                  pendingCount); [reflexivity | discriminate].
    + intros H. apply hasUnconfirmed_reflect in H. rewrite H. reflexivity.
  - intros H. apply hasUnconfirmed_reflect in H.
    apply (@pass_throws_at_sender _ client rc perSender s0 block sender []
             messages s waiting sb Hreach).
    fold turn. rewrite Hturn, H. reflexivity.
  - intros H. apply hasUnconfirmed_reflect_not in H.
    rewrite Hturn, H. reflexivity.
Qed.

(** C7. For a sender the pass reaches with pending Ignition transactions,
    once the loop over them has ended without an error: if the highest of
    their nonces plus one is below the pending count and [hasUnconfirmed]
    holds, the pass throws WAITING_FOR_NONCE with the sender, the nonce
    pendingCount - 1 and the required confirmations; if [hasUnconfirmed] does
    not hold, the sender's turn ends without an error, with the messages of
    the loop. *)
Theorem user_transactions_above_our_nonces :
  forall S (client : JsonRpcClient S) (requiredConfirmations : Z)
         (perSender : JsObject (list PendingIgnitionTransaction))
         (s0 s sb s' : S) (block : Block) (sender : string)
         (l : list PendingIgnitionTransaction)
         (messages messages' : list JournalMessage)
         (safeCount : option Z) (pendingCount latestCount highest : Z),
    passReachesSender client requiredConfirmations perSender s0 block sender
      l messages s ->
    readsCounts client sender
      (confirmedBlockNumberOf block requiredConfirmations) s
      safeCount pendingCount latestCount sb ->
    forOf l
      (syncPendingTransaction client sender requiredConfirmations safeCount
         pendingCount latestCount)
      messages sb = (Val messages', s') ->
    isHighestNonce highest l ->
    let turn :=
      syncSender client requiredConfirmations
        (confirmedBlockNumberOf block requiredConfirmations)
        (sender, l) messages s in
    let pass :=
      syncPendingTransactionsPerSender client perSender requiredConfirmations
        s0 in
    let waiting :=
      Ignition (WAITING_FOR_NONCE sender (pendingCount - 1)
                  requiredConfirmations) in
    (highest + 1 < pendingCount ->
     hasUnconfirmed safeCount pendingCount ->
     turn = (Throw waiting, s') /\ pass = (Throw waiting, s')) /\
    (~ hasUnconfirmed safeCount pendingCount -> turn = (Val messages', s')) /\
    (highest + 1 >= pendingCount -> turn = (Val messages', s')).
Proof.
  intros S client rc perSender s0 s sb s' block sender l messages messages'
         safeCount pendingCount latestCount highest Hreach Hreads Hloop
         Hhighest turn pass waiting.
  assert (Hturn : turn =
    if highest + 1 <? pendingCount
    then
      if hasOnchainUnconfirmedPendingTransactions safeCount pendingCount
      then (Throw waiting, s') else (Val messages', s')
    else (Val messages', s')).
  { subst turn.
    rewrite (@syncSender_after_reads _ client rc
               (confirmedBlockNumberOf block rc) sender l messages s
               safeCount pendingCount latestCount sb Hreads).
    assert (Hlen : (List.length l =? 0)%nat = false).
    { destruct l; [destruct Hhighest as [[] _] | reflexivity]. }
    rewrite Hlen. unfold bind at 1. unfold ret at 1.
    rewrite (bind_val _ _ _ Hloop).
    unfold checkHigherUserNonces.
    rewrite (Math_max_highest Hhighest). simpl.
    destruct (highest + 1 <? pendingCount); [| reflexivity].
    destruct (hasOnchainUnconfirmedPendingTransactions safeCount pendingCount);
      reflexivity. }
  split; [| split].
  - intros Habove Hunconfirmed.
    apply hasUnconfirmed_reflect in Hunconfirmed.
    assert (Hthrow : turn = (Throw waiting, s')).
    { rewrite Hturn, Hunconfirmed.
      replace (highest + 1 <? pendingCount) with true
        by (symmetry; apply Z.ltb_lt; lia).
      reflexivity. }
    split; [exact Hthrow |].
    exact (@pass_throws_at_sender _ client rc perSender s0 block sender l
             messages s waiting s' Hreach Hthrow).
  - intros Hnot. apply hasUnconfirmed_reflect_not in Hnot.
    rewrite Hturn, Hnot. destruct (highest + 1 <? pendingCount); reflexivity.
  - intros Hbelow. rewrite Hturn.
    replace (highest + 1 <? pendingCount) with false
      by (symmetry; apply Z.ltb_ge; lia).
    reflexivity.
Qed.

(** *** Example passes *)

(** A pass over one sender with one pending transaction reaches it. *)
Lemma single_entry_is_reached (blockNum safe pendingCount latestCount rc : Z)
    (known : string -> option Transaction) (e : PendingIgnitionTransaction) :
  blockNum - rc + 1 >= 0 ->
  passReachesEntry (syncNode blockNum safe pendingCount latestCount known) rc
    [("0xA", [e])] tt "0xA" (Some safe) pendingCount latestCount e [] tt.
Proof.
  intros Hdeep.
  exists (mkBlock blockNum), [], [], [], tt, tt.
  split; [| split; [| reflexivity]].
  - exists [], [], tt. repeat split.
  - exists tt, tt. split; [| split; reflexivity].
    unfold confirmedBlockNumberOf. simpl.
    replace (blockNum - rc + 1 >=? 0) with true
      by (symmetry; apply Z.geb_le; lia).
    reflexivity.
Qed.

(** A pass over one sender reaches it. *)
Lemma single_sender_is_reached (blockNum safe pendingCount latestCount rc : Z)
    (known : string -> option Transaction)
    (l : list PendingIgnitionTransaction) :
  passReachesSender (syncNode blockNum safe pendingCount latestCount known) rc
    [("0xA", l)] tt (mkBlock blockNum) "0xA" l [] tt.
Proof. exists [], [], tt. repeat split. Qed.

Lemma single_sender_counts (blockNum safe pendingCount latestCount rc : Z)
    (known : string -> option Transaction) :
  blockNum - rc + 1 >= 0 ->
  readsCounts (syncNode blockNum safe pendingCount latestCount known) "0xA"
    (confirmedBlockNumberOf (mkBlock blockNum) rc) tt
    (Some safe) pendingCount latestCount tt.
Proof.
  intros Hdeep. exists tt, tt. split; [| split; reflexivity].
  unfold confirmedBlockNumberOf. simpl.
  replace (blockNum - rc + 1 >=? 0) with true
    by (symmetry; apply Z.geb_le; lia).
  reflexivity.
Qed.

(** C1 on literal values: nonce 5, latest and pending count 6, five required
    confirmations at block 10.  With the safe count 6 the replacement is
    reported; with the safe count 4 the pass waits. *)
Lemma unknown_transactions_of_a_confirmed_nonce_witness :
  (exists more,
      [ONCHAIN_INTERACTION_REPLACED_BY_USER "future#1" 5]
      = [] ++ ONCHAIN_INTERACTION_REPLACED_BY_USER "future#1" 5 :: more) /\
  syncPendingTransactionsPerSender (syncNode 10 4 6 6 knowsNothing)
    [("0xA", [pendingAt 5])] 5 tt
  = (Throw (Ignition (WAITING_FOR_NONCE "0xA" 5 5)), tt).
Proof.
  assert (Hdeep : 10 - 5 + 1 >= 0) by lia.
  assert (Hunknown : allUnknown [@None Transaction])
    by (repeat constructor).
  assert (Hlatest : 6 > nonce (pendingAt 5)) by (simpl; lia).
  split.
  - destruct (@unknown_transactions_of_a_confirmed_nonce
                unit (syncNode 10 6 6 6 knowsNothing) 5
                [("0xA", [pendingAt 5])] tt tt tt "0xA" (Some 6) 6 6
                (pendingAt 5) [] [None]
                (@single_entry_is_reached 10 6 6 6 5 knowsNothing (pendingAt 5)
                   Hdeep)
                eq_refl Hunknown Hlatest) as [Hyes _].
    assert (Hsafe : exists safe, Some 6 = Some safe /\ safe >= nonce (pendingAt 5))
      by (exists 6; split; [reflexivity | simpl; lia]).
    destruct (Hyes Hsafe) as [_ Hpass].
    exact (Hpass [ONCHAIN_INTERACTION_REPLACED_BY_USER "future#1" 5] tt
             eq_refl).
  - destruct (@unknown_transactions_of_a_confirmed_nonce
                unit (syncNode 10 4 6 6 knowsNothing) 5
                [("0xA", [pendingAt 5])] tt tt tt "0xA" (Some 4) 6 6
                (pendingAt 5) [] [None]
                (@single_entry_is_reached 10 4 6 6 5 knowsNothing (pendingAt 5)
                   Hdeep)
                eq_refl Hunknown Hlatest) as [_ Hno].
    assert (Hsafe : ~ exists safe, Some 4 = Some safe /\ safe >= nonce (pendingAt 5)).
    { intros [safe [Heq Hge]]. injection Heq as <-. simpl in Hge. lia. }
    exact (proj2 (Hno Hsafe)).
Defined.

(** C2 on literal values: nonce 5 and latest count 5.  A known hash: nothing
    happens.  Unknown hashes and pending count 6: the pass waits.  Unknown
    hashes and pending count 5: the transaction is reported dropped. *)
Lemma live_pending_or_dropped_transactions_witness :
  syncPendingTransaction (syncNode 10 5 6 5 knowsAll) "0xA" 5 (Some 5) 6 5
    (pendingAt 5) [] tt = (Val [], tt) /\
  syncPendingTransactionsPerSender (syncNode 10 5 6 5 knowsNothing)
    [("0xA", [pendingAt 5])] 5 tt
  = (Throw (Ignition (WAITING_FOR_NONCE "0xA" 5 5)), tt) /\
  (exists more,
      [ONCHAIN_INTERACTION_DROPPED "future#1" 5]
      = [] ++ ONCHAIN_INTERACTION_DROPPED "future#1" 5 :: more).
Proof.
  assert (Hdeep : 10 - 5 + 1 >= 0) by lia.
  assert (Hunknown : allUnknown [@None Transaction])
    by (repeat constructor).
  assert (Hlatest : 5 <= nonce (pendingAt 5)) by (simpl; lia).
  split; [| split].
  - destruct (@live_pending_or_dropped_transactions
                unit (syncNode 10 5 6 5 knowsAll) 5
                [("0xA", [pendingAt 5])] tt tt tt "0xA" (Some 5) 6 5
                (pendingAt 5) []
                [Some (mkTransaction "0xaa" (EIP1559Fees 100 2))]
                (@single_entry_is_reached 10 5 6 5 5 knowsAll (pendingAt 5)
                   Hdeep)
                eq_refl) as [Hlive _].
    apply Hlive. eexists. left. reflexivity.
  - destruct (@live_pending_or_dropped_transactions
                unit (syncNode 10 5 6 5 knowsNothing) 5
                [("0xA", [pendingAt 5])] tt tt tt "0xA" (Some 5) 6 5
                (pendingAt 5) [] [None]
                (@single_entry_is_reached 10 5 6 5 5 knowsNothing (pendingAt 5)
                   Hdeep)
                eq_refl) as [_ Hgone].
    destruct (Hgone Hunknown Hlatest) as [Hwait _].
    apply Hwait. simpl. lia.
  - destruct (@live_pending_or_dropped_transactions
                unit (syncNode 10 5 5 5 knowsNothing) 5
                [("0xA", [pendingAt 5])] tt tt tt "0xA" (Some 5) 5 5
                (pendingAt 5) [] [None]
                (@single_entry_is_reached 10 5 5 5 5 knowsNothing (pendingAt 5)
                   Hdeep)
                eq_refl) as [_ Hgone].
    destruct (Hgone Hunknown Hlatest) as [_ Hdrop].
    assert (Hpending : 5 <= nonce (pendingAt 5)) by (simpl; lia).
    destruct (Hdrop Hpending) as [_ Hpass].
    exact (Hpass [ONCHAIN_INTERACTION_DROPPED "future#1" 5] tt eq_refl).
Defined.

(** C6 on literal values: a sender without pending transactions, five
    required confirmations at block 10.  Safe count 3 and pending count 4:
    the pass waits for confirmations.  Both 4: nothing happens. *)
Lemma sender_without_pending_transactions_witness :
  syncPendingTransactionsPerSender (syncNode 10 3 4 4 knowsNothing)
    [("0xA", [])] 5 tt
  = (Throw (Ignition (WAITING_FOR_CONFIRMATIONS "0xA" 5)), tt) /\
  syncSender (syncNode 10 4 4 4 knowsNothing) 5
    (confirmedBlockNumberOf (mkBlock 10) 5) ("0xA", []) [] tt
  = (Val [], tt).
Proof.
  assert (Hdeep : 10 - 5 + 1 >= 0) by lia.
  split.
  - destruct (@sender_without_pending_transactions
                unit (syncNode 10 3 4 4 knowsNothing) 5 [("0xA", [])]
                tt tt tt (mkBlock 10) "0xA" [] (Some 3) 4 4
                (single_sender_is_reached 10 3 4 4 5 knowsNothing [])
                (@single_sender_counts 10 3 4 4 5 knowsNothing Hdeep))
      as [_ [_ [Hwait _]]].
    apply Hwait. simpl. lia.
  - destruct (@sender_without_pending_transactions
                unit (syncNode 10 4 4 4 knowsNothing) 5 [("0xA", [])]
                tt tt tt (mkBlock 10) "0xA" [] (Some 4) 4 4
                (single_sender_is_reached 10 4 4 4 5 knowsNothing [])
                (@single_sender_counts 10 4 4 4 5 knowsNothing Hdeep))
      as [_ [_ [_ Hquiet]]].
    apply Hquiet. simpl. lia.
Defined.

(** C7 on literal values: our pending transaction has nonce 5 and is still
    known to the node; the pending count is 8.  With the safe count 6 the
    pass waits for nonce 7; with the safe count 8 the turn ends quietly. *)
Lemma user_transactions_above_our_nonces_witness :
  syncPendingTransactionsPerSender (syncNode 10 6 8 6 knowsAll)
    [("0xA", [pendingAt 5])] 5 tt
  = (Throw (Ignition (WAITING_FOR_NONCE "0xA" (8 - 1) 5)), tt) /\
  syncSender (syncNode 10 8 8 8 knowsAll) 5
    (confirmedBlockNumberOf (mkBlock 10) 5) ("0xA", [pendingAt 5]) [] tt
  = (Val [], tt).
Proof.
  assert (Hdeep : 10 - 5 + 1 >= 0) by lia.
  assert (Hhighest : isHighestNonce 5 [pendingAt 5]).
  { split; [left; reflexivity |].
    intros n [<- | []]. simpl. lia. }
  split.
  - destruct (@user_transactions_above_our_nonces
                unit (syncNode 10 6 8 6 knowsAll) 5 [("0xA", [pendingAt 5])]
                tt tt tt tt (mkBlock 10) "0xA" [pendingAt 5] [] []
                (Some 6) 8 6 5
                (single_sender_is_reached 10 6 8 6 5 knowsAll [pendingAt 5])
                (@single_sender_counts 10 6 8 6 5 knowsAll Hdeep)
                eq_refl Hhighest) as [Hwait _].
    apply Hwait; simpl; lia.
  - destruct (@user_transactions_above_our_nonces
                unit (syncNode 10 8 8 8 knowsAll) 5 [("0xA", [pendingAt 5])]
                tt tt tt tt (mkBlock 10) "0xA" [pendingAt 5] [] []
                (Some 8) 8 8 5
                (single_sender_is_reached 10 8 8 8 5 knowsAll [pendingAt 5])
                (@single_sender_counts 10 8 8 8 5 knowsAll Hdeep)
                eq_refl Hhighest) as [_ [Hquiet _]].
    apply Hquiet. simpl. lia.
Defined.

(** The end-to-end scenarios of section 8 that concern the pass. *)

(** Scenario 3: two pending transactions at nonces 5 and 6, all counts 5,
    no hash known: both are reported dropped, in the order of the nonces. *)
Example scenario_dropped :
  syncPendingTransactionsPerSender (syncNode 10 5 5 5 knowsNothing)
    [("0xA", [pendingAt 5; pendingAt 6])] 5 tt
  = (Val [ONCHAIN_INTERACTION_DROPPED "future#1" 5;
          ONCHAIN_INTERACTION_DROPPED "future#1" 6], tt).
Proof. reflexivity. Qed.

(** Scenario 4: nonce 5, all counts 6: the replacement is reported. *)
Example scenario_replaced_and_confirmed :
  syncPendingTransactionsPerSender (syncNode 10 6 6 6 knowsNothing)
    [("0xA", [pendingAt 5])] 5 tt
  = (Val [ONCHAIN_INTERACTION_REPLACED_BY_USER "future#1" 5], tt).
Proof. reflexivity. Qed.

(** With the safe count equal to the nonce the code already reports the
    replacement: the test is [safeConfirmationsCount >= nonce]. *)
Example replaced_when_safe_count_equals_nonce :
  syncPendingTransactionsPerSender (syncNode 10 5 6 6 knowsNothing)
    [("0xA", [pendingAt 5])] 5 tt
  = (Val [ONCHAIN_INTERACTION_REPLACED_BY_USER "future#1" 5], tt).
Proof. reflexivity. Qed.

(** Scenario 6: nonce 5, latest count 5, pending count 6: the pass waits. *)
Example scenario_user_pending_replacement :
  syncPendingTransactionsPerSender (syncNode 10 5 6 5 knowsNothing)
    [("0xA", [pendingAt 5])] 5 tt
  = (Throw (Ignition (WAITING_FOR_NONCE "0xA" 5 5)), tt).
Proof. reflexivity. Qed.

(** At block 2 with five required confirmations no block is safe: the safe
    count is undefined and a confirmed replacement makes the pass wait. *)
Example replaced_before_any_safe_block :
  syncPendingTransactionsPerSender (syncNode 2 0 6 6 knowsNothing)
    [("0xA", [pendingAt 5])] 5 tt
  = (Throw (Ignition (WAITING_FOR_NONCE "0xA" 5 5)), tt).
Proof. reflexivity. Qed.

(** ** Further properties *)

Unset Implicit Arguments.

(** *** Fee policy *)

Lemma nil_or_snoc {A} (l : list A) :
  l = [] \/ exists earlier prev, l = earlier ++ [prev].
Proof.
  induction l as [| x l IH] using rev_ind.
  - left. reflexivity.
  - right. exists l, x. reflexivity.
Qed.

(** The fees the function returns when it returns: the recommended ones or
    their maximum with the bumped previous ones. *)
Lemma next_fees_shape {S} (client : JsonRpcClient S) oi s s' recommended :
  getNetworkFees client s = (Val recommended, s') ->
  ~ isDowngrade recommended (oi_transactions oi) ->
  exists fees,
    getNextTransactionFees client oi s = (Val fees, s') /\
    (oi_transactions oi = [] /\ fees = recommended \/
     exists earlier prev,
       oi_transactions oi = earlier ++ [prev] /\
       sameKind fees recommended /\
       asMaxFeePerGas fees =
         Z.max (asMaxFeePerGas recommended)
           (bigintDiv (asMaxFeePerGas (tx_fees prev) * 110) 100) /\
       asMaxPriorityFeePerGas fees =
         Z.max (asMaxPriorityFeePerGas recommended)
           (bigintDiv (asMaxPriorityFeePerGas (tx_fees prev) * 110) 100)).
Proof.
  intros Hfees Hnot.
  destruct (nil_or_snoc (oi_transactions oi)) as [Hnil | [earlier [prev Htxs]]].
  - exists recommended. split; [| left; split; [exact Hnil | reflexivity]].
    unfold getNextTransactionFees.
    rewrite (bind_val _ _ _ (await_val _ _ Hfees)). rewrite Hnil. reflexivity.
  - destruct recommended as [rGasPrice | rMax rPrio].
    + destruct (tx_fees prev) as [gasPrice | mf mp] eqn:Hprev.
      * eexists. split.
        -- apply (@next_fees_legacy _ client oi s s' earlier prev rGasPrice
                    gasPrice Hfees Htxs Hprev).
        -- right. exists earlier, prev. rewrite Hprev.
           split; [exact Htxs |]. repeat split.
      * exfalso. apply Hnot. exists earlier, prev. rewrite Hprev.
        repeat split. exact Htxs.
    + eexists. split.
      * apply (@next_fees_eip1559 _ client oi s s' earlier prev rMax rPrio
                 Hfees Htxs).
      * right. exists earlier, prev. split; [exact Htxs |]. repeat split.
Qed.

(** X1. Unless legacy fees are recommended after an EIP-1559 transaction, the
    function returns fees of the kind the node recommends and, field by
    field, never below the recommended ones, whatever was sent before. *)
Theorem next_fees_never_below_recommended :
  forall S (client : JsonRpcClient S) (oi : OnchainInteraction) (s s' : S)
         (recommended : NetworkFees),
    getNetworkFees client s = (Val recommended, s') ->
    ~ isDowngrade recommended (oi_transactions oi) ->
    exists fees,
      getNextTransactionFees client oi s = (Val fees, s') /\
      sameKind fees recommended /\
      asMaxFeePerGas fees >= asMaxFeePerGas recommended /\
      asMaxPriorityFeePerGas fees >= asMaxPriorityFeePerGas recommended.
Proof.
  intros S client oi s s' recommended Hfees Hnot.
  destruct (next_fees_shape client oi s s' recommended Hfees Hnot)
    as [fees [Hrun [[_ Heq] | [earlier [prev [_ [Hkind [Hmax Hprio]]]]]]]];
    exists fees; (split; [exact Hrun |]).
  - subst fees. repeat split; lia.
  - split; [exact Hkind |]. lia.
Qed.

Lemma next_fees_never_below_recommended_witness :
  exists fees,
    getNextTransactionFees (feeNode (EIP1559Fees 200 1))
      (resendOf [mkTransaction "0xaa" (EIP1559Fees 100 2)]) tt
    = (Val fees, tt) /\
    sameKind fees (EIP1559Fees 200 1) /\
    asMaxFeePerGas fees >= 200 /\ asMaxPriorityFeePerGas fees >= 1.
Proof.
  apply (@next_fees_never_below_recommended
           unit (feeNode (EIP1559Fees 200 1))
           (resendOf [mkTransaction "0xaa" (EIP1559Fees 100 2)]) tt tt
           (EIP1559Fees 200 1) eq_refl).
  intros [earlier [prev [_ [Hlegacy _]]]]. discriminate.
Defined.

Lemma bump_grows_from_ten (x : Z) :
  10 <= x -> bigintDiv (x * 110) 100 > x.
Proof.
  intros Hx. rewrite bump_is_floor by lia.
  pose proof (Z.div_le_lower_bound (x * 110) 100 (x + 1) ltac:(lia)
                ltac:(lia)).
  lia.
Qed.

Lemma bump_stalls_below_ten (x : Z) :
  0 <= x < 10 -> bigintDiv (x * 110) 100 = x.
Proof.
  intros Hx. rewrite bump_is_floor by lia.
  symmetry. apply (Z.div_unique (x * 110) 100 x (x * 10)); lia.
Qed.

(** X2. After a transaction whose fee fields are all at least 10, the next
    fees exceed the previous ones in every field: a resend always raises the
    fees. *)
Theorem next_fees_strictly_above_previous_from_ten :
  forall S (client : JsonRpcClient S) (oi : OnchainInteraction) (s s' : S)
         (recommended : NetworkFees) earlier prev,
    getNetworkFees client s = (Val recommended, s') ->
    oi_transactions oi = earlier ++ [prev] ->
    ~ isDowngrade recommended (oi_transactions oi) ->
    10 <= asMaxFeePerGas (tx_fees prev) ->
    10 <= asMaxPriorityFeePerGas (tx_fees prev) ->
    exists fees,
      getNextTransactionFees client oi s = (Val fees, s') /\
      asMaxFeePerGas fees > asMaxFeePerGas (tx_fees prev) /\
      asMaxPriorityFeePerGas fees > asMaxPriorityFeePerGas (tx_fees prev).
Proof.
  intros S client oi s s' recommended earlier prev Hfees Htxs Hnot Hmax Hprio.
  destruct (next_fees_shape client oi s s' recommended Hfees Hnot)
    as [fees [Hrun [[Hnil _] | [earlier' [prev' [Htxs' [_ [Hm Hp]]]]]]]].
  - rewrite Htxs in Hnil. destruct earlier; discriminate.
  - rewrite Htxs in Htxs'. apply app_inj_tail in Htxs'.
    destruct Htxs' as [_ <-].
    exists fees. split; [exact Hrun |].
    pose proof (bump_grows_from_ten _ Hmax).
    pose proof (bump_grows_from_ten _ Hprio). lia.
Qed.

Lemma next_fees_strictly_above_previous_from_ten_witness :
  exists fees,
    getNextTransactionFees (feeNode (LegacyFees 1))
      (resendOf [mkTransaction "0xaa" (LegacyFees 10)]) tt
    = (Val fees, tt) /\
    asMaxFeePerGas fees > 10 /\ asMaxPriorityFeePerGas fees > 10.
Proof.
  apply (@next_fees_strictly_above_previous_from_ten
           unit (feeNode (LegacyFees 1))
           (resendOf [mkTransaction "0xaa" (LegacyFees 10)]) tt tt
           (LegacyFees 1) [] (mkTransaction "0xaa" (LegacyFees 10))
           eq_refl eq_refl).
  - intros [earlier [prev [Htxs [_ Hprev]]]].
    simpl in Htxs. symmetry in Htxs.
    change [mkTransaction "0xaa" (LegacyFees 10)]
      with ([] ++ [mkTransaction "0xaa" (LegacyFees 10)]) in Htxs.
    apply app_inj_tail in Htxs. destruct Htxs as [_ ->]. discriminate.
  - simpl. lia.
  - simpl. lia.
Defined.

(** X3. After a transaction with a non-negative legacy gas price below 10,
    when the node recommends a legacy gas price that is not higher, the next
    gas price equals the previous one: the bump of 110% rounds down to no
    bump at all. *)
Theorem small_legacy_fees_are_not_bumped :
  forall S (client : JsonRpcClient S) (oi : OnchainInteraction) (s s' : S)
         earlier prev rGasPrice gasPrice,
    getNetworkFees client s = (Val (LegacyFees rGasPrice), s') ->
    oi_transactions oi = earlier ++ [prev] ->
    tx_fees prev = LegacyFees gasPrice ->
    0 <= gasPrice < 10 ->
    rGasPrice <= gasPrice ->
    getNextTransactionFees client oi s = (Val (LegacyFees gasPrice), s').
Proof.
  intros S client oi s s' earlier prev rGasPrice gasPrice Hfees Htxs Hprev
         Hsmall Hrec.
  rewrite (@next_fees_legacy _ client oi s s' earlier prev rGasPrice gasPrice
             Hfees Htxs Hprev).
  rewrite (bump_stalls_below_ten _ Hsmall).
  rewrite Z.max_r by lia. reflexivity.
Qed.

Lemma small_legacy_fees_are_not_bumped_witness :
  getNextTransactionFees (feeNode (LegacyFees 7))
    (resendOf [mkTransaction "0xaa" (LegacyFees 9)]) tt
  = (Val (LegacyFees 9), tt).
Proof.
  apply (@small_legacy_fees_are_not_bumped
           unit (feeNode (LegacyFees 7))
           (resendOf [mkTransaction "0xaa" (LegacyFees 9)]) tt tt
           [] (mkTransaction "0xaa" (LegacyFees 9)) 7 9
           eq_refl eq_refl eq_refl); lia.
Defined.

(** X4. The next fees depend on the interaction only through the fees of its
    last transaction: two interactions whose last transactions carry the same
    fees get the same answer, whatever else they hold. *)
Theorem next_fees_depend_on_last_transaction_only :
  forall S (client : JsonRpcClient S) (oi oi' : OnchainInteraction) (s : S)
         earlier earlier' prev prev',
    oi_transactions oi = earlier ++ [prev] ->
    oi_transactions oi' = earlier' ++ [prev'] ->
    tx_fees prev = tx_fees prev' ->
    getNextTransactionFees client oi s = getNextTransactionFees client oi' s.
Proof.
  intros S client oi oi' s earlier earlier' prev prev' Htxs Htxs' Hsame.
  unfold getNextTransactionFees, bind.
  destruct (await (getNetworkFees client) s) as [[recommended | e] s1];
    [| reflexivity].
  rewrite Htxs, Htxs', !snoc_not_empty, !last_of_snoc, Hsame. reflexivity.
Qed.

Lemma next_fees_depend_on_last_transaction_only_witness :
  getNextTransactionFees (feeNode (EIP1559Fees 90 1))
    (resendOf [mkTransaction "0xaa" (EIP1559Fees 100 2)]) tt
  = getNextTransactionFees (feeNode (EIP1559Fees 90 1))
      (resendOf [mkTransaction "0x01" (LegacyFees 3);
                 mkTransaction "0x02" (EIP1559Fees 100 2)]) tt.
Proof.
  apply (@next_fees_depend_on_last_transaction_only
           unit (feeNode (EIP1559Fees 90 1))
           (resendOf [mkTransaction "0xaa" (EIP1559Fees 100 2)])
           (resendOf [mkTransaction "0x01" (LegacyFees 3);
                      mkTransaction "0x02" (EIP1559Fees 100 2)])
           tt [] [mkTransaction "0x01" (LegacyFees 3)]
           (mkTransaction "0xaa" (EIP1559Fees 100 2))
           (mkTransaction "0x02" (EIP1559Fees 100 2))
           eq_refl eq_refl eq_refl).
Defined.

(** *** Send pipeline *)

(** The steps behind a sent transaction. *)
Lemma sent_path {S} (client : JsonRpcClient S) sender oi
    (nonceManager : NonceManager S)
    (decode : RawStaticCallResult -> Rpc S (option DecodedSimulationError))
    (loader : DeploymentLoader S) futureId (s s' : S) tx n :
  sendTransactionForOnchainInteraction client sender oi nonceManager decode
    loader futureId s = (Val (TRANSACTION_SENT tx n), s') ->
  exists s1 s2 s3 s4 s5 s6 gasLimit raw,
    let params :=
      withGasLimit (estimateGasPrams sender oi n (tx_fees tx)) gasLimit in
    nonceFor nonceManager sender oi s = (Val n, s1) /\
    getNextTransactionFees client oi s1 = (Val (tx_fees tx), s2) /\
    estimateGas client (estimateGasPrams sender oi n (tx_fees tx)) s2
    = (Val gasLimit, s3) /\
    call client params pending s3 = (Val raw, s4) /\
    decode raw s4 = (Val None, s5) /\
    recordToJournal loader
      (TRANSACTION_PREPARE_SEND futureId (oi_id oi) n) s5 = (Val tt, s6) /\
    sendTransaction client params s6 = (Val (tx_hash tx), s').
Proof.
  unfold sendTransactionForOnchainInteraction.
  unfold bind at 1.
  destruct (nonceFor nonceManager sender oi s) as [[n0 | e] s1] eqn:Hnonce;
    [| discriminate].
  unfold bind at 1.
  destruct (getNextTransactionFees client oi s1) as [[fees | e] s2] eqn:Hfees;
    [| discriminate].
  unfold tryAwait.
  destruct (estimateGas client (estimateGasPrams sender oi n0 fees) s2)
    as [[gasLimit | error] s3] eqn:Hgas.
  - unfold bind, await, ret.
    destruct (call client _ pending s3) as [[raw | v] s4] eqn:Hcall;
      [| discriminate].
    destruct (decode raw s4) as [[[d |] | v] s5] eqn:Hdecode;
      try discriminate.
    destruct (recordToJournal loader _ s5) as [[[] | v] s6] eqn:Hrecord;
      [| discriminate].
    destruct (sendTransaction client _ s6) as [[txHash | v] s7] eqn:Hsend;
      [| discriminate].
    intros H. injection H as <- <- <-.
    exists s1, s2, s3, s4, s5, s6, gasLimit, raw. simpl.
    repeat split; assumption.
  - unfold bind, await, ret, throw, assertIgnitionInvariant.
    destruct (call client _ pending s3) as [[raw | v] s4]; [| discriminate].
    destruct (decode raw s4) as [[[d |] | v] s5]; try discriminate.
    destruct (instanceofError error); [| discriminate].
    destruct (regexTest _ _); [discriminate |].
    destruct (regexTest _ _); discriminate.
Qed.

(** X5. A transaction is sent only after the gas estimation succeeded and
    after the simulation of the very parameters that are then broadcast, gas
    limit included and at block tag "pending", decoded to no error. *)
Theorem sent_only_after_clean_simulation :
  forall S (client : JsonRpcClient S) (sender : string)
         (oi : OnchainInteraction) (nonceManager : NonceManager S)
         (decode : RawStaticCallResult -> Rpc S (option DecodedSimulationError))
         (loader : DeploymentLoader S) (futureId : string)
         (s s' : S) (tx : Transaction) (n : Z),
    sendTransactionForOnchainInteraction client sender oi nonceManager decode
      loader futureId s = (Val (TRANSACTION_SENT tx n), s') ->
    exists gasLimit raw sEstimate sEstimated sSimulated sDecoded sRecorded,
      let params :=
        {| p_to := oi_to oi; p_from := sender; p_data := oi_data oi;
           p_value := oi_value oi; p_nonce := n;
           p_fees := Some (tx_fees tx); p_gasLimit := Some gasLimit |} in
      estimateGas client
        {| p_to := oi_to oi; p_from := sender; p_data := oi_data oi;
           p_value := oi_value oi; p_nonce := n;
           p_fees := Some (tx_fees tx); p_gasLimit := None |} sEstimate
      = (Val gasLimit, sEstimated) /\
      call client params pending sEstimated = (Val raw, sSimulated) /\
      decode raw sSimulated = (Val None, sDecoded) /\
      sendTransaction client params sRecorded = (Val (tx_hash tx), s').
Proof.
  intros S client sender oi nonceManager decode loader futureId s s' tx n Hrun.
  destruct (sent_path client sender oi nonceManager decode loader futureId
              s s' tx n Hrun)
    as [s1 [s2 [s3 [s4 [s5 [s6 [gasLimit [raw
         [_ [_ [Hgas [Hcall [Hdecode [_ Hsend]]]]]]]]]]]]]].
  exists gasLimit, raw, s2, s3, s4, s5, s6.
  repeat split; assumption.
Qed.

Lemma sent_only_after_clean_simulation_witness :
  exists gasLimit raw sEstimate sEstimated sSimulated sDecoded sRecorded,
    estimateGas acceptingNode
      {| p_to := Some "0xcc"; p_from := "0xA"; p_data := "0x";
         p_value := 1000; p_nonce := 5;
         p_fees := Some (EIP1559Fees 100 2); p_gasLimit := None |} sEstimate
    = (Val gasLimit, sEstimated) /\
    call acceptingNode
      {| p_to := Some "0xcc"; p_from := "0xA"; p_data := "0x";
         p_value := 1000; p_nonce := 5;
         p_fees := Some (EIP1559Fees 100 2); p_gasLimit := Some gasLimit |}
      pending sEstimated = (Val raw, sSimulated) /\
    decodesAs None raw sSimulated = (Val None, sDecoded) /\
    sendTransaction acceptingNode
      {| p_to := Some "0xcc"; p_from := "0xA"; p_data := "0x";
         p_value := 1000; p_nonce := 5;
         p_fees := Some (EIP1559Fees 100 2); p_gasLimit := Some gasLimit |}
      sRecorded = (Val "0xaa", tt).
Proof.
  apply (@sent_only_after_clean_simulation
           unit acceptingNode "0xA" firstSend (nonceManagerAt 5)
           (decodesAs None) acceptingLoader "future#1" tt tt
           (mkTransaction "0xaa" (EIP1559Fees 100 2)) 5).
  reflexivity.
Defined.

(** X6. For an interaction that already has a nonce the nonce manager is not
    consulted: the run is the same with any nonce manager, and a sent
    transaction carries the interaction's nonce. *)
Theorem existing_nonce_is_reused :
  forall S (client : JsonRpcClient S) (sender : string)
         (oi : OnchainInteraction)
         (decode : RawStaticCallResult -> Rpc S (option DecodedSimulationError))
         (loader : DeploymentLoader S) (futureId : string) (n : Z),
    oi_nonce oi = Some n ->
    (forall (nonceManager nonceManager' : NonceManager S) (s : S),
        sendTransactionForOnchainInteraction client sender oi nonceManager
          decode loader futureId s
        = sendTransactionForOnchainInteraction client sender oi nonceManager'
            decode loader futureId s) /\
    (forall (nonceManager : NonceManager S) (s s' : S) tx n',
        sendTransactionForOnchainInteraction client sender oi nonceManager
          decode loader futureId s = (Val (TRANSACTION_SENT tx n'), s') ->
        n' = n).
Proof.
  intros S client sender oi decode loader futureId n Hnonce. split.
  - intros nonceManager nonceManager' s.
    unfold sendTransactionForOnchainInteraction, nonceFor.
    rewrite Hnonce. reflexivity.
  - intros nonceManager s s' tx n' Hrun.
    destruct (sent_path client sender oi nonceManager decode loader futureId
                s s' tx n' Hrun) as [s1 [_ [_ [_ [_ [_ [_ [_ [Hn _]]]]]]]]].
    unfold nonceFor in Hn. rewrite Hnonce in Hn.
    unfold ret in Hn. congruence.
Qed.

Lemma existing_nonce_is_reused_witness :
  sendTransactionForOnchainInteraction (feeNode (EIP1559Fees 90 1)) "0xA"
    (resendOf [mkTransaction "0xaa" (EIP1559Fees 100 2)])
    (nonceManagerAt 6) (decodesAs None) acceptingLoader "future#1" tt
  = sendTransactionForOnchainInteraction (feeNode (EIP1559Fees 90 1)) "0xA"
      (resendOf [mkTransaction "0xaa" (EIP1559Fees 100 2)])
      (nonceManagerAt 77) (decodesAs None) acceptingLoader "future#1" tt.
Proof.
  apply (proj1 (@existing_nonce_is_reused
                  unit (feeNode (EIP1559Fees 90 1)) "0xA"
                  (resendOf [mkTransaction "0xaa" (EIP1559Fees 100 2)])
                  (decodesAs None) acceptingLoader "future#1" 5 eq_refl)).
Defined.

(** X7. Whatever the outcome, one run adds to the log nothing, or the journal
    record, or the journal record followed by one broadcast of that nonce and
    sender: no broadcast without its record before it, and never two. *)
Theorem broadcast_only_after_its_journal_record :
  forall W (client : JsonRpcClient W) (sender : string)
         (oi : OnchainInteraction) (nonceManager : NonceManager W)
         (decode : RawStaticCallResult -> Rpc W (option DecodedSimulationError))
         (loader : DeploymentLoader W) (futureId : string)
         (w : W) (log : list Effect),
    exists added,
      snd (snd (observedSend client sender oi nonceManager decode loader
                  futureId (w, log))) = log ++ added /\
      addsAtMostRecordThenBroadcast futureId oi sender added.
Proof.
  intros W client sender oi nonceManager decode loader futureId w log.
  destruct (observedSend client sender oi nonceManager decode loader futureId
              (w, log)) as [r [w' log']] eqn:Hrun.
  simpl.
  destruct (observedSend_log _ _ _ _ _ _ _ _ _ Hrun)
    as [[Hlog _] | [n [fees [gasLimit [[Hlog _] | [Hlog _]]]]]].
  - exists []. split; [rewrite app_nil_r; exact Hlog | left; reflexivity].
  - eexists. split; [exact Hlog |]. right. exists n. left. reflexivity.
  - eexists. split; [exact Hlog |]. right. exists n. right.
    eexists. split; [reflexivity |]. split; reflexivity.
Qed.

(** The observed run once nonce, fees, gas estimate and a clean simulation
    are there: what remains is the journal and the broadcast. *)
Lemma observedSend_after_simulation {W} (client : JsonRpcClient W) sender oi
    (nonceManager : NonceManager W)
    (decode : RawStaticCallResult -> Rpc W (option DecodedSimulationError))
    (loader : DeploymentLoader W) futureId
    (w w1 w2 w3 w4 w5 : W) log n fees gasLimit raw :
  nonceFor nonceManager sender oi w = (Val n, w1) ->
  getNextTransactionFees client oi w1 = (Val fees, w2) ->
  estimateGas client (estimateGasPrams sender oi n fees) w2
  = (Val gasLimit, w3) ->
  call client (withGasLimit (estimateGasPrams sender oi n fees) gasLimit)
    pending w3 = (Val raw, w4) ->
  decode raw w4 = (Val None, w5) ->
  let params := withGasLimit (estimateGasPrams sender oi n fees) gasLimit in
  let record := TRANSACTION_PREPARE_SEND futureId (oi_id oi) n in
  observedSend client sender oi nonceManager decode loader futureId (w, log)
  = match recordToJournal loader record w5 with
    | (Throw v, w6) => (Throw (Foreign v), (w6, log ++ [JournalRecord record]))
    | (Val _, w6) =>
        match sendTransaction client params w6 with
        | (Throw v, w7) =>
            (Throw (Foreign v),
             (w7, log ++ [JournalRecord record; Broadcast params]))
        | (Val txHash, w7) =>
            (Val (TRANSACTION_SENT (mkTransaction txHash fees) n),
             (w7, log ++ [JournalRecord record; Broadcast params]))
        end
    end.
Proof.
  intros Hnonce Hfees Hgas Hcall Hdecode params record.
  subst params record.
  unfold observedSend, sendTransactionForOnchainInteraction.
  unfold bind at 1. rewrite observed_nonce_keeps_log, Hnonce.
  cbn [fst snd].
  unfold bind at 1. rewrite observed_fees_keep_log, Hfees.
  cbn [fst snd].
  unfold tryAwait, bind, await, ret.
  cbn [estimateGas call sendTransaction recordToJournal observedClient
       observedLoader].
  unfold unobserved, observed. cbn [fst snd].
  rewrite Hgas. cbv beta iota. cbn [fst snd].
  rewrite Hcall. cbv beta iota. cbn [fst snd].
  rewrite Hdecode. cbv beta iota. cbn [fst snd].
  cbn [p_nonce withGasLimit estimateGasPrams].
  destruct (recordToJournal loader _ w5) as [[[] | v] w6];
    cbv beta iota; cbn [fst snd]; [| reflexivity].
  destruct (sendTransaction client _ w6) as [[txHash | v] w7];
    cbv beta iota; cbn [fst snd]; rewrite <- app_assoc; reflexivity.
Qed.

(** X8. When the journal rejects the record, the pipeline throws the
    journal's error and [sendTransaction] is not invoked: nothing is
    broadcast that the journal does not hold. *)
Theorem journal_failure_prevents_broadcast :
  forall W (client : JsonRpcClient W) (sender : string)
         (oi : OnchainInteraction) (nonceManager : NonceManager W)
         (decode : RawStaticCallResult -> Rpc W (option DecodedSimulationError))
         (loader : DeploymentLoader W) (futureId : string)
         (w w1 w2 w3 w4 w5 w6 : W) (log : list Effect) (n gasLimit : Z)
         (fees : NetworkFees) (raw : RawStaticCallResult) (v : JsThrown),
    nonceFor nonceManager sender oi w = (Val n, w1) ->
    getNextTransactionFees client oi w1 = (Val fees, w2) ->
    estimateGas client (estimateGasPrams sender oi n fees) w2
    = (Val gasLimit, w3) ->
    call client (withGasLimit (estimateGasPrams sender oi n fees) gasLimit)
      pending w3 = (Val raw, w4) ->
    decode raw w4 = (Val None, w5) ->
    recordToJournal loader (TRANSACTION_PREPARE_SEND futureId (oi_id oi) n) w5
    = (Throw v, w6) ->
    observedSend client sender oi nonceManager decode loader futureId (w, log)
    = (Throw (Foreign v),
       (w6,
        log ++
        [JournalRecord (TRANSACTION_PREPARE_SEND futureId (oi_id oi) n)])).
Proof.
  intros W client sender oi nonceManager decode loader futureId
         w w1 w2 w3 w4 w5 w6 log n gasLimit fees raw v
         Hnonce Hfees Hgas Hcall Hdecode Hrecord.
  rewrite (observedSend_after_simulation client sender oi nonceManager decode
             loader futureId w w1 w2 w3 w4 w5 log n fees gasLimit raw
             Hnonce Hfees Hgas Hcall Hdecode).
  rewrite Hrecord. reflexivity.
Qed.

Lemma journal_failure_prevents_broadcast_witness :
  observedSend acceptingNode "0xA" firstSend (nonceManagerAt 5)
    (decodesAs None) (rejectingLoader (mkJsThrown true "disk full"))
    "future#1" (tt, [])
  = (Throw (Foreign (mkJsThrown true "disk full")),
     (tt, [] ++ [JournalRecord (TRANSACTION_PREPARE_SEND "future#1" 1 5)])).
Proof.
  apply (@journal_failure_prevents_broadcast
           unit acceptingNode "0xA" firstSend (nonceManagerAt 5)
           (decodesAs None) (rejectingLoader (mkJsThrown true "disk full"))
           "future#1" tt tt tt tt tt tt tt [] 5 21000 (EIP1559Fees 100 2)
           emptyResult (mkJsThrown true "disk full")
           eq_refl eq_refl eq_refl eq_refl eq_refl eq_refl).
Defined.

(** X9. When [sendTransaction] fails after the journal accepted the record,
    the pipeline throws the client's error; the record stays in the journal,
    so the nonce is reserved although the caller gets no transaction. *)
Theorem broadcast_failure_leaves_the_nonce_reserved :
  forall W (client : JsonRpcClient W) (sender : string)
         (oi : OnchainInteraction) (nonceManager : NonceManager W)
         (decode : RawStaticCallResult -> Rpc W (option DecodedSimulationError))
         (loader : DeploymentLoader W) (futureId : string)
         (w w1 w2 w3 w4 w5 w6 w7 : W) (log : list Effect) (n gasLimit : Z)
         (fees : NetworkFees) (raw : RawStaticCallResult) (v : JsThrown),
    nonceFor nonceManager sender oi w = (Val n, w1) ->
    getNextTransactionFees client oi w1 = (Val fees, w2) ->
    estimateGas client (estimateGasPrams sender oi n fees) w2
    = (Val gasLimit, w3) ->
    call client (withGasLimit (estimateGasPrams sender oi n fees) gasLimit)
      pending w3 = (Val raw, w4) ->
    decode raw w4 = (Val None, w5) ->
    recordToJournal loader (TRANSACTION_PREPARE_SEND futureId (oi_id oi) n) w5
    = (Val tt, w6) ->
    sendTransaction client
      (withGasLimit (estimateGasPrams sender oi n fees) gasLimit) w6
    = (Throw v, w7) ->
    observedSend client sender oi nonceManager decode loader futureId (w, log)
    = (Throw (Foreign v),
       (w7,
        log ++
        [JournalRecord (TRANSACTION_PREPARE_SEND futureId (oi_id oi) n);
         Broadcast
           (withGasLimit (estimateGasPrams sender oi n fees) gasLimit)])).
Proof.
  intros W client sender oi nonceManager decode loader futureId
         w w1 w2 w3 w4 w5 w6 w7 log n gasLimit fees raw v
         Hnonce Hfees Hgas Hcall Hdecode Hrecord Hsend.
  rewrite (observedSend_after_simulation client sender oi nonceManager decode
             loader futureId w w1 w2 w3 w4 w5 log n fees gasLimit raw
             Hnonce Hfees Hgas Hcall Hdecode).
  rewrite Hrecord, Hsend. reflexivity.
Qed.

Lemma broadcast_failure_leaves_the_nonce_reserved_witness :
  observedSend
    (withFailingBroadcast (mkJsThrown true "nonce too low") acceptingNode)
    "0xA" firstSend (nonceManagerAt 5) (decodesAs None) acceptingLoader
    "future#1" (tt, [])
  = (Throw (Foreign (mkJsThrown true "nonce too low")),
     (tt,
      [] ++
      [JournalRecord (TRANSACTION_PREPARE_SEND "future#1" 1 5);
       Broadcast
         (withGasLimit
            (estimateGasPrams "0xA" firstSend 5 (EIP1559Fees 100 2))
            21000)])).
Proof.
  apply (@broadcast_failure_leaves_the_nonce_reserved
           unit
           (withFailingBroadcast (mkJsThrown true "nonce too low")
              acceptingNode)
           "0xA" firstSend (nonceManagerAt 5) (decodesAs None)
           acceptingLoader "future#1" tt tt tt tt tt tt tt tt [] 5 21000
           (EIP1559Fees 100 2) emptyResult (mkJsThrown true "nonce too low")
           eq_refl eq_refl eq_refl eq_refl eq_refl eq_refl eq_refl).
Defined.

(** X10. When [estimateGas] throws a value that is not an Error and the
    simulation decodes to no error, the pipeline throws the assertion error
    "Unexpected error type while resolving failed gas estimation"; the
    message of the thrown value is not looked at. *)
Theorem non_error_from_gas_estimation_is_an_assertion_error :
  forall S (client : JsonRpcClient S) (sender : string)
         (oi : OnchainInteraction) (nonceManager : NonceManager S)
         (decode : RawStaticCallResult -> Rpc S (option DecodedSimulationError))
         (loader : DeploymentLoader S) (futureId : string)
         (s0 s1 s2 s3 s4 s5 : S) (n : Z) (fees : NetworkFees)
         (error : JsThrown) (raw : RawStaticCallResult),
    nonceFor nonceManager sender oi s0 = (Val n, s1) ->
    getNextTransactionFees client oi s1 = (Val fees, s2) ->
    estimateGas client (estimateGasPrams sender oi n fees) s2
    = (Throw error, s3) ->
    call client (paramsWithoutFees (estimateGasPrams sender oi n fees))
      pending s3 = (Val raw, s4) ->
    decode raw s4 = (Val None, s5) ->
    instanceofError error = false ->
    sendTransactionForOnchainInteraction client sender oi nonceManager decode
      loader futureId s0
    = (Throw (Ignition (ASSERTION_ERROR
         "Unexpected error type while resolving failed gas estimation")),
       s5).
Proof.
  intros S client sender oi nonceManager decode loader futureId
         s0 s1 s2 s3 s4 s5 n fees error raw
         Hnonce Hfees Hgas Hcall Hdecode Hnot.
  unfold sendTransactionForOnchainInteraction.
  rewrite (bind_val _ _ _ Hnonce). rewrite (bind_val _ _ _ Hfees).
  unfold tryAwait. rewrite Hgas.
  rewrite (bind_val _ _ _ (await_val _ _ Hcall)).
  rewrite (bind_val _ _ _ (await_val _ _ Hdecode)).
  rewrite Hnot. reflexivity.
Qed.

Lemma non_error_from_gas_estimation_is_an_assertion_error_witness :
  sendTransactionForOnchainInteraction oddlyRefusingNode "0xA" firstSend
    (nonceManagerAt 5) (decodesAs None) acceptingLoader "future#1" tt
  = (Throw (Ignition (ASSERTION_ERROR
       "Unexpected error type while resolving failed gas estimation")),
     tt).
Proof.
  apply (@non_error_from_gas_estimation_is_an_assertion_error
           unit oddlyRefusingNode "0xA" firstSend (nonceManagerAt 5)
           (decodesAs None) acceptingLoader "future#1" tt tt tt tt tt tt
           5 (EIP1559Fees 100 2)
           (mkJsThrown false "insufficient funds for transfer") emptyResult
           eq_refl eq_refl eq_refl eq_refl eq_refl eq_refl).
Defined.

(** *** Nonce synchronisation: the pass as a whole *)

Lemma forOf_keeps {S A C} (P : C -> Prop) (l : list A)
    (body : A -> C -> M S C) :
  (forall x, In x l ->
     forall acc s acc' s',
       P acc -> body x acc s = (Val acc', s') -> P acc') ->
  forall acc s out s',
    P acc -> forOf l body acc s = (Val out, s') -> P out.
Proof.
  induction l as [| x l IH]; intros Hbody acc s out s' Hacc Hrun.
  - simpl in Hrun. unfold ret in Hrun. injection Hrun as <- <-. exact Hacc.
  - simpl in Hrun. unfold bind in Hrun.
    destruct (body x acc s) as [[acc1 | e] s1] eqn:Hx; [| discriminate].
    apply (IH (fun y Hy => Hbody y (or_intror Hy)) acc1 s1 out s').
    + apply (Hbody x (or_introl eq_refl) acc s acc1 s1 Hacc Hx).
    + exact Hrun.
Qed.

Lemma forOf_throws_in_body {S A C} (l : list A) (body : A -> C -> M S C)
    acc s e s' :
  forOf l body acc s = (Throw e, s') ->
  exists x acc0 s0, In x l /\ body x acc0 s0 = (Throw e, s').
Proof.
  revert acc s. induction l as [| x l IH]; intros acc s Hrun.
  - simpl in Hrun. discriminate.
  - simpl in Hrun. unfold bind in Hrun.
    destruct (body x acc s) as [[acc1 | e1] s1] eqn:Hx.
    + destruct (IH acc1 s1 Hrun) as [y [acc0 [s0 [Hy Hthrow]]]].
      exists y, acc0, s0. split; [right; exact Hy | exact Hthrow].
    + injection Hrun as <- <-. exists x, acc, s.
      split; [left; reflexivity | exact Hx].
Qed.

Lemma promiseAll_throws_foreign {S A} (ops : list (Rpc S A)) s e s' :
  promiseAll ops s = (Throw e, s') -> exists v, e = Foreign v.
Proof.
  revert s. induction ops as [| op ops IH]; intros s Hrun; simpl in Hrun.
  - discriminate.
  - destruct (op s) as [[a | v] s1].
    + destruct (promiseAll ops s1) as [[l | e1] s2] eqn:Hrest;
        [discriminate |].
      injection Hrun as <- <-. apply (IH s1 Hrest).
    + destruct (promiseAll ops s1) as [r s2].
      injection Hrun as <- <-. exists v. reflexivity.
Qed.

(** What one turn of the inner loop can do to the messages. *)
Lemma syncPendingTransaction_val {S} (client : JsonRpcClient S) sender rc
    safe pendingCount latestCount e messages s out s' :
  syncPendingTransaction client sender rc safe pendingCount latestCount e
    messages s = (Val out, s') ->
  out = messages \/
  out = messages ++
        [ONCHAIN_INTERACTION_REPLACED_BY_USER (executionStateId e)
           (networkInteractionId e)] \/
  out = messages ++
        [ONCHAIN_INTERACTION_DROPPED (executionStateId e)
           (networkInteractionId e)].
Proof.
  unfold syncPendingTransaction, bind, ret, throw.
  destruct (promiseAll _ s) as [[fetched | err] s1]; [| discriminate].
  destruct (existsb isDefined fetched).
  - intros H; injection H as <- <-. left. reflexivity.
  - destruct (latestCount >? nonce e).
    + destruct (negb _); [discriminate |].
      intros H; injection H as <- <-. right. left. reflexivity.
    + destruct (pendingCount >? nonce e); [discriminate |].
      intros H; injection H as <- <-. right. right. reflexivity.
Qed.

Lemma syncPendingTransaction_throw {S} (client : JsonRpcClient S) sender rc
    safe pendingCount latestCount e messages s err s' :
  syncPendingTransaction client sender rc safe pendingCount latestCount e
    messages s = (Throw (Ignition err), s') ->
  err = WAITING_FOR_NONCE sender (nonce e) rc.
Proof.
  unfold syncPendingTransaction, bind, ret, throw.
  destruct (promiseAll _ s) as [[fetched | err1] s1] eqn:Hfetch.
  - destruct (existsb isDefined fetched); [discriminate |].
    destruct (latestCount >? nonce e).
    + destruct (negb _); [| discriminate].
      intros H; injection H as <- <-. reflexivity.
    + destruct (pendingCount >? nonce e); [| discriminate].
      intros H; injection H as <- <-. reflexivity.
  - intros H; injection H as -> <-.
    destruct (promiseAll_throws_foreign _ _ _ _ Hfetch) as [v Hv].
    discriminate.
Qed.

(** A turn of the outer loop that ends well is its inner loop. *)
Lemma syncSender_val {S} (client : JsonRpcClient S) rc confirmedBlockNumber
    sender l messages s out s' :
  syncSender client rc confirmedBlockNumber (sender, l) messages s
  = (Val out, s') ->
  exists safe pendingCount latestCount sb,
    forOf l
      (syncPendingTransaction client sender rc safe pendingCount latestCount)
      messages sb = (Val out, s').
Proof.
  unfold syncSender. cbn [fst snd]. unfold bind at 1.
  destruct (safeConfirmationsCountOf _ _ _ s) as [[safe | e] s1];
    [| discriminate].
  unfold bind at 1.
  destruct (await _ s1) as [[pendingCount | e] s2]; [| discriminate].
  unfold bind at 1.
  destruct (await _ s2) as [[latestCount | e] s3]; [| discriminate].
  unfold bind at 1.
  match goal with
  | |- context [match ?c s3 with _ => _ end] =>
      destruct (c s3) as [[[] | e] s4]; [| discriminate]
  end.
  unfold bind at 1.
  destruct (forOf _ _ messages s4) as [[messages' | e] s5] eqn:Hloop;
    [| discriminate].
  intros Hcheck. apply checkHigherUserNonces_keeps in Hcheck.
  destruct Hcheck as [-> ->].
  exists safe, pendingCount, latestCount, s4. exact Hloop.
Qed.

Lemma syncSender_throw {S} (client : JsonRpcClient S) rc confirmedBlockNumber
    sender l messages s err s' :
  syncSender client rc confirmedBlockNumber (sender, l) messages s
  = (Throw (Ignition err), s') ->
  err = WAITING_FOR_CONFIRMATIONS sender rc \/
  exists n, err = WAITING_FOR_NONCE sender n rc.
Proof.
  unfold syncSender. cbn [fst snd]. unfold bind at 1.
  destruct (safeConfirmationsCountOf _ _ _ s) as [[safe | e] s1] eqn:Hsafe.
  2:{ intros H; injection H as -> <-. exfalso.
      unfold safeConfirmationsCountOf in Hsafe.
      destruct confirmedBlockNumber; [| discriminate].
      unfold bind, await, ret in Hsafe.
      destruct (getTransactionCount client sender _ s) as [[c | v] sx];
        discriminate. }
  unfold bind at 1. unfold await at 1.
  destruct (getTransactionCount client sender pending s1)
    as [[pendingCount | v] s2]; [| discriminate].
  unfold bind at 1. unfold await at 1.
  destruct (getTransactionCount client sender latest s2)
    as [[latestCount | v] s3]; [| discriminate].
  unfold bind at 1.
  destruct (List.length l =? 0)%nat.
  - destruct (hasOnchainUnconfirmedPendingTransactions safe pendingCount).
    + unfold throw. intros H; injection H as <- <-. left. reflexivity.
    + unfold ret at 1. unfold bind at 1.
      destruct (forOf _ _ messages s3) as [[messages' | e] s5] eqn:Hloop.
      * unfold checkHigherUserNonces, throw, ret.
        destruct (jsLt _ _);
          [destruct (hasOnchainUnconfirmedPendingTransactions _ _) |];
          intros H; try discriminate.
        injection H as <- <-. right. eexists. reflexivity.
      * intros H; injection H as -> <-.
        destruct (forOf_throws_in_body _ _ _ _ _ _ Hloop)
          as [x [acc0 [s0 [_ Hx]]]].
        right. exists (nonce x).
        apply (syncPendingTransaction_throw _ _ _ _ _ _ _ _ _ _ _ Hx).
  - unfold ret at 1. unfold bind at 1.
    destruct (forOf _ _ messages s3) as [[messages' | e] s5] eqn:Hloop.
    + unfold checkHigherUserNonces, throw, ret.
      destruct (jsLt _ _);
        [destruct (hasOnchainUnconfirmedPendingTransactions _ _) |];
        intros H; try discriminate.
      injection H as <- <-. right. eexists. reflexivity.
    + intros H; injection H as -> <-.
      destruct (forOf_throws_in_body _ _ _ _ _ _ Hloop)
        as [x [acc0 [s0 [_ Hx]]]].
      right. exists (nonce x).
      apply (syncPendingTransaction_throw _ _ _ _ _ _ _ _ _ _ _ Hx).
Qed.

(** The pass that ends well is its outer loop. *)
Lemma pass_val {S} (client : JsonRpcClient S) perSender rc s0 out sf :
  syncPendingTransactionsPerSender client perSender rc s0 = (Val out, sf) ->
  exists block s1,
    forOf perSender
      (syncSender client rc (confirmedBlockNumberOf block rc)) [] s1
    = (Val out, sf).
Proof.
  unfold syncPendingTransactionsPerSender, bind, await.
  destruct (getLatestBlock client s0) as [[block | v] s1]; [| discriminate].
  intros H. exists block, s1. exact H.
Qed.

Lemma forOf_grows_by {S A C} (weight : A -> nat) (l : list A)
    (body : A -> list C -> M S (list C)) :
  (forall x acc s acc' s',
      body x acc s = (Val acc', s') ->
      (List.length acc' <= List.length acc + weight x)%nat) ->
  forall acc s out s',
    forOf l body acc s = (Val out, s') ->
    (List.length out
     <= List.length acc + fold_right (fun x n => weight x + n) 0 l)%nat.
Proof.
  intros Hbody. induction l as [| x l IH]; intros acc s out s' Hrun.
  - simpl in Hrun. unfold ret in Hrun. injection Hrun as <- <-. simpl. lia.
  - simpl in Hrun. unfold bind in Hrun.
    destruct (body x acc s) as [[acc1 | e] s1] eqn:Hx; [| discriminate].
    pose proof (Hbody _ _ _ _ _ Hx). pose proof (IH _ _ _ _ Hrun).
    simpl. lia.
Qed.

Lemma count_ones {A} (l : list A) :
  fold_right (fun _ n => S n) 0%nat l = List.length l.
Proof.
  induction l as [| x l IH]; [reflexivity |].
  simpl. rewrite IH. reflexivity.
Qed.

(** The outer loop only pushes reports of the pending transactions it goes
    through. *)
Lemma senders_loop_reports_entries {S} (client : JsonRpcClient S) rc
    confirmedBlockNumber perSender (P : JournalMessage -> Prop) :
  (forall sender l e,
      In (sender, l) perSender -> In e l ->
      P (ONCHAIN_INTERACTION_REPLACED_BY_USER (executionStateId e)
           (networkInteractionId e)) /\
      P (ONCHAIN_INTERACTION_DROPPED (executionStateId e)
           (networkInteractionId e))) ->
  forall acc s out s',
    Forall P acc ->
    forOf perSender (syncSender client rc confirmedBlockNumber) acc s
    = (Val out, s') ->
    Forall P out.
Proof.
  intros Hentries.
  apply (forOf_keeps (Forall P) perSender
           (syncSender client rc confirmedBlockNumber)).
  intros [sender l] Hin acc s acc' s' Hacc Hturn.
  destruct (syncSender_val client rc confirmedBlockNumber sender l acc s acc'
              s' Hturn) as [safe [pendingCount [latestCount [sb Hloop]]]].
  apply (forOf_keeps (Forall P) l
           (syncPendingTransaction client sender rc safe pendingCount
              latestCount)) with (acc := acc) (s := sb) (s' := s');
    [| exact Hacc | exact Hloop].
  intros e He acc0 s0 acc1 s1 Hacc0 Hstep.
  destruct (Hentries sender l e Hin He) as [Hreplaced Hdropped].
  destruct (syncPendingTransaction_val client sender rc safe pendingCount
              latestCount e acc0 s0 acc1 s1 Hstep) as [-> | [-> | ->]].
  - exact Hacc0.
  - apply Forall_app. split; [exact Hacc0 |]. constructor; [exact Hreplaced |].
    constructor.
  - apply Forall_app. split; [exact Hacc0 |]. constructor; [exact Hdropped |].
    constructor.
Qed.

(** X11. Every message the pass returns is a replaced-by-user or a dropped
    message carrying the ids of a pending transaction of the map: the pass
    reports nothing it was not given, and never a message of another type. *)
Theorem pass_reports_only_given_transactions :
  forall S (client : JsonRpcClient S)
         (perSender : JsObject (list PendingIgnitionTransaction))
         (requiredConfirmations : Z) (s0 sf : S)
         (out : list JournalMessage),
    syncPendingTransactionsPerSender client perSender requiredConfirmations s0
    = (Val out, sf) ->
    Forall (reportsEntryOf perSender) out.
Proof.
  intros S client perSender rc s0 sf out Hpass.
  destruct (pass_val client perSender rc s0 out sf Hpass)
    as [block [s1 Hloop]].
  apply (senders_loop_reports_entries client rc
           (confirmedBlockNumberOf block rc) perSender
           (reportsEntryOf perSender)) with (acc := []) (s := s1) (s' := sf).
  - intros sender l e Hin He. split; exists sender, l, e; auto.
  - constructor.
  - exact Hloop.
Qed.

Lemma pass_reports_only_given_transactions_witness :
  Forall
    (reportsEntryOf [("0xA", [pendingAt 5; pendingAt 6])])
    [ONCHAIN_INTERACTION_DROPPED "future#1" 5;
     ONCHAIN_INTERACTION_DROPPED "future#1" 6].
Proof.
  apply (@pass_reports_only_given_transactions
           unit (syncNode 10 5 5 5 knowsNothing)
           [("0xA", [pendingAt 5; pendingAt 6])] 5 tt tt).
  reflexivity.
Defined.

(** X12. The pass returns at most one message per pending transaction of the
    map. *)
Theorem pass_reports_each_transaction_at_most_once :
  forall S (client : JsonRpcClient S)
         (perSender : JsObject (list PendingIgnitionTransaction))
         (requiredConfirmations : Z) (s0 sf : S)
         (out : list JournalMessage),
    syncPendingTransactionsPerSender client perSender requiredConfirmations s0
    = (Val out, sf) ->
    (List.length out <= countEntries perSender)%nat.
Proof.
  intros S client perSender rc s0 sf out Hpass.
  destruct (pass_val client perSender rc s0 out sf Hpass)
    as [block [s1 Hloop]].
  apply (forOf_grows_by (fun kv => List.length (snd kv)) perSender
           (syncSender client rc (confirmedBlockNumberOf block rc)))
    with (acc := []) (s := s1) (s' := sf); [| exact Hloop].
  intros [sender l] acc s acc' s' Hturn.
  destruct (syncSender_val client rc (confirmedBlockNumberOf block rc) sender
              l acc s acc' s' Hturn)
    as [safe [pendingCount [latestCount [sb Hinner]]]].
  pose proof (forOf_grows_by (fun _ => 1%nat) l
                (syncPendingTransaction client sender rc safe pendingCount
                   latestCount)) as Hlen.
  simpl in Hlen. rewrite count_ones in Hlen. cbn [snd].
  apply (Hlen) with (s := sb) (s' := s'); [| exact Hinner].
  intros e acc0 t0 acc1 t1 Hstep.
  destruct (syncPendingTransaction_val client sender rc safe pendingCount
              latestCount e acc0 t0 acc1 t1 Hstep) as [-> | [-> | ->]];
    rewrite ?length_app; simpl; lia.
Qed.

Lemma pass_reports_each_transaction_at_most_once_witness :
  (List.length
     [ONCHAIN_INTERACTION_DROPPED "future#1" 5;
      ONCHAIN_INTERACTION_DROPPED "future#1" 6]
   <= countEntries [("0xA", [pendingAt 5; pendingAt 6])])%nat.
Proof.
  apply (@pass_reports_each_transaction_at_most_once
           unit (syncNode 10 5 5 5 knowsNothing)
           [("0xA", [pendingAt 5; pendingAt 6])] 5 tt tt).
  reflexivity.
Defined.

(** X13. The only errors the pass makes itself are WAITING_FOR_CONFIRMATIONS
    and WAITING_FOR_NONCE, for a sender of the map and with the required
    confirmations it was called with; every other error it throws is a
    collaborator's. *)
Theorem pass_only_asks_to_wait :
  forall S (client : JsonRpcClient S)
         (perSender : JsObject (list PendingIgnitionTransaction))
         (requiredConfirmations : Z) (s0 sf : S) (err : IgnitionError),
    syncPendingTransactionsPerSender client perSender requiredConfirmations s0
    = (Throw (Ignition err), sf) ->
    isWaitingErrorOf perSender requiredConfirmations err.
Proof.
  intros S client perSender rc s0 sf err.
  unfold syncPendingTransactionsPerSender, bind, await.
  destruct (getLatestBlock client s0) as [[block | v] s1]; [| discriminate].
  intros Hloop.
  destruct (forOf_throws_in_body _ _ _ _ _ _ Hloop)
    as [[sender l] [acc0 [t0 [Hin Hturn]]]].
  exists sender, l. split; [exact Hin |].
  apply (syncSender_throw client rc (confirmedBlockNumberOf block rc) sender l
           acc0 t0 err sf Hturn).
Qed.

Lemma pass_only_asks_to_wait_witness :
  isWaitingErrorOf [("0xA", [pendingAt 5])] 5 (WAITING_FOR_NONCE "0xA" 5 5).
Proof.
  apply (@pass_only_asks_to_wait
           unit (syncNode 10 5 6 5 knowsNothing) [("0xA", [pendingAt 5])] 5
           tt tt).
  reflexivity.
Defined.

Lemma snoc_differs {A} (l : list A) (x : A) : l ++ [x] <> l.
Proof.
  intros H. apply (f_equal (@List.length A)) in H.
  rewrite length_app in H. simpl in H. lia.
Qed.

(** X14. A pending transaction without any transaction hash is never taken
    for live: the node is not asked about it (the turn is the same with any
    client and leaves the outside as it was), and the turn does not end with
    the messages unchanged: it pushes a message or throws. *)
Theorem transaction_without_hashes_is_never_live :
  forall S (client client' : JsonRpcClient S) (sender : string)
         (requiredConfirmations : Z) (safeCount : option Z)
         (pendingCount latestCount : Z) (e : PendingIgnitionTransaction)
         (messages : list JournalMessage) (s : S),
    transactions e = [] ->
    let turn :=
      syncPendingTransaction client sender requiredConfirmations safeCount
        pendingCount latestCount e messages s in
    turn =
      syncPendingTransaction client' sender requiredConfirmations safeCount
        pendingCount latestCount e messages s /\
    snd turn = s /\
    fst turn <> Val messages.
Proof.
  intros S client client' sender rc safeCount pendingCount latestCount e
         messages s Hnone turn.
  subst turn. unfold syncPendingTransaction. rewrite Hnone.
  simpl. unfold bind, ret, throw. simpl.
  split; [reflexivity |].
  destruct (latestCount >? nonce e).
  - destruct (negb _); simpl; (split; [reflexivity |]).
    + discriminate.
    + intros H. injection H as H. exact (snoc_differs _ _ H).
  - destruct (pendingCount >? nonce e); simpl; (split; [reflexivity |]).
    + discriminate.
    + intros H. injection H as H. exact (snoc_differs _ _ H).
Qed.

Lemma transaction_without_hashes_is_never_live_witness :
  syncPendingTransaction (syncNode 10 5 5 5 knowsAll) "0xA" 5 (Some 5) 5 5
    (reservedAt 5) [] tt
  = syncPendingTransaction (syncNode 10 5 5 5 knowsNothing) "0xA" 5 (Some 5)
      5 5 (reservedAt 5) [] tt.
Proof.
  apply (proj1 (@transaction_without_hashes_is_never_live
                  unit (syncNode 10 5 5 5 knowsAll)
                  (syncNode 10 5 5 5 knowsNothing) "0xA" 5 (Some 5) 5 5
                  (reservedAt 5) [] tt eq_refl)).
Defined.

Lemma promiseAll_of_known {S} (client : JsonRpcClient S) :
  knowsEveryTransaction client ->
  forall hashes s,
    exists fetched s',
      promiseAll (map (fun tx => getTransaction client tx) hashes) s
      = (Val fetched, s') /\
      (hashes <> [] -> existsb isDefined fetched = true).
Proof.
  intros Hknown. induction hashes as [| h hashes IH]; intros s.
  - exists [], s. split; [reflexivity | intros H; contradiction].
  - destruct (Hknown h s) as [tx [s1 Hh]].
    destruct (IH s1) as [fetched [s2 [Hrest _]]].
    exists (Some tx :: fetched), s2. split.
    + simpl. rewrite Hh, Hrest. reflexivity.
    + intros _. reflexivity.
Qed.

(** X15. When the node still knows every transaction it is asked about and
    every pending transaction of the map has at least one hash, the pass
    reports nothing: any list it returns is empty. *)
Theorem pass_reports_nothing_while_all_are_known :
  forall S (client : JsonRpcClient S)
         (perSender : JsObject (list PendingIgnitionTransaction))
         (requiredConfirmations : Z) (s0 sf : S)
         (out : list JournalMessage),
    knowsEveryTransaction client ->
    (forall sender l e,
        In (sender, l) perSender -> In e l -> transactions e <> []) ->
    syncPendingTransactionsPerSender client perSender requiredConfirmations s0
    = (Val out, sf) ->
    out = [].
Proof.
  intros S client perSender rc s0 sf out Hknown Hhashes Hpass.
  destruct (pass_val client perSender rc s0 out sf Hpass)
    as [block [s1 Hloop]].
  apply (forOf_keeps (fun acc => acc = []) perSender
           (syncSender client rc (confirmedBlockNumberOf block rc)))
    with (acc := []) (s := s1) (s' := sf); [| reflexivity | exact Hloop].
  intros [sender l] Hin acc s acc' s' Hacc Hturn.
  destruct (syncSender_val client rc (confirmedBlockNumberOf block rc) sender
              l acc s acc' s' Hturn)
    as [safe [pendingCount [latestCount [sb Hinner]]]].
  apply (forOf_keeps (fun acc => acc = []) l
           (syncPendingTransaction client sender rc safe pendingCount
              latestCount))
    with (acc := acc) (s := sb) (s' := s'); [| exact Hacc | exact Hinner].
  intros e He acc0 t0 acc1 t1 Hacc0 Hstep.
  unfold syncPendingTransaction, bind in Hstep.
  destruct (promiseAll_of_known client Hknown (transactions e) t0)
    as [fetched [t2 [Hfetch Hsome]]].
  rewrite Hfetch, (Hsome (Hhashes sender l e Hin He)) in Hstep.
  unfold ret in Hstep. injection Hstep as <- _. exact Hacc0.
Qed.

Lemma pass_reports_nothing_while_all_are_known_witness :
  syncPendingTransactionsPerSender (syncNode 10 8 8 8 knowsAll)
    [("0xA", [pendingAt 5; pendingAt 6])] 5 tt
  = (Val [], tt) /\
  (@nil JournalMessage) = [].
Proof.
  assert (Hknown : knowsEveryTransaction (syncNode 10 8 8 8 knowsAll)).
  { intros h s. exists (mkTransaction h (EIP1559Fees 100 2)), s.
    reflexivity. }
  assert (Hhashes :
    forall sender l e,
      In (sender, l) [("0xA", [pendingAt 5; pendingAt 6])] -> In e l ->
      transactions e <> []).
  { intros sender l e [Heq | []] He. injection Heq as <- <-.
    destruct He as [<- | [<- | []]]; discriminate. }
  split; [reflexivity |].
  exact (@pass_reports_nothing_while_all_are_known
           unit (syncNode 10 8 8 8 knowsAll)
           [("0xA", [pendingAt 5; pendingAt 6])] 5 tt tt
           [] Hknown Hhashes eq_refl).
Defined.

(** *** JavaScript objects, [uniq] and [sort] *)

Lemma objGet_in {A} (o : JsObject A) k v :
  objGet o k = Some v -> In (k, v) o.
Proof.
  induction o as [| [k' v'] o IH]; simpl; [discriminate |].
  destruct (String.eqb_spec k' k) as [-> | Hne].
  - intros H; injection H as <-. left. reflexivity.
  - intros H. right. apply IH. exact H.
Qed.

Lemma objGet_none {A} (o : JsObject A) k :
  objGet o k = None <-> ~ In k (keysOf o).
Proof.
  induction o as [| [k' v'] o IH]; simpl.
  - split; [intros _ [] | reflexivity].
  - destruct (String.eqb_spec k' k) as [-> | Hne].
    + split; [discriminate | intros H; exfalso; apply H; left; reflexivity].
    + rewrite IH. split.
      * intros H [Heq | Hin]; [exact (Hne Heq) | exact (H Hin)].
      * intros H Hin. apply H. right. exact Hin.
Qed.

Lemma objGet_some_key {A} (o : JsObject A) k v :
  objGet o k = Some v -> In k (keysOf o).
Proof.
  intros H. apply objGet_in in H.
  apply (in_map fst) in H. exact H.
Qed.

Lemma objGet_of_in {A} (o : JsObject A) k v :
  NoDup (keysOf o) -> In (k, v) o -> objGet o k = Some v.
Proof.
  induction o as [| [k' v'] o IH]; simpl; [intros _ [] |].
  intros Hnodup [Heq | Hin].
  - injection Heq as -> ->. rewrite String.eqb_refl. reflexivity.
  - inversion Hnodup as [| x xs Hnotin Hrest]; subst.
    destruct (String.eqb_spec k' k) as [-> | Hne].
    + exfalso. apply Hnotin. apply (in_map fst) in Hin. exact Hin.
    + apply IH; assumption.
Qed.

Lemma objGet_objSet_same {A} (o : JsObject A) k v :
  objGet (objSet o k v) k = Some v.
Proof.
  induction o as [| [k' v'] o IH]; simpl.
  - rewrite String.eqb_refl. reflexivity.
  - destruct (String.eqb_spec k' k) as [-> | Hne]; simpl.
    + rewrite String.eqb_refl. reflexivity.
    + destruct (String.eqb_spec k' k) as [Heq | _]; [contradiction |].
      exact IH.
Qed.

Lemma objGet_objSet_other {A} (o : JsObject A) k v k0 :
  k0 <> k -> objGet (objSet o k v) k0 = objGet o k0.
Proof.
  intros Hne. induction o as [| [k' v'] o IH]; simpl.
  - destruct (String.eqb_spec k k0) as [Heq | _]; [congruence | reflexivity].
  - destruct (String.eqb_spec k' k) as [-> | Hne']; simpl.
    + destruct (String.eqb_spec k k0) as [Heq | _]; [congruence |].
      reflexivity.
    + destruct (String.eqb_spec k' k0); [reflexivity | exact IH].
Qed.

Lemma keysOf_objSet {A} (o : JsObject A) k v :
  keysOf (objSet o k v) =
  if existsb (String.eqb k) (keysOf o) then keysOf o else keysOf o ++ [k].
Proof.
  unfold keysOf. induction o as [| [k' v'] o IH]; simpl; [reflexivity |].
  rewrite (String.eqb_sym k k').
  destruct (String.eqb_spec k' k) as [-> | Hne]; simpl; [reflexivity |].
  rewrite IH.
  destruct (existsb (String.eqb k) (map fst o)); reflexivity.
Qed.

Lemma in_keysOf_objSet {A} (o : JsObject A) k v k0 :
  In k0 (keysOf (objSet o k v)) <-> k0 = k \/ In k0 (keysOf o).
Proof.
  rewrite keysOf_objSet.
  destruct (existsb (String.eqb k) (keysOf o)) eqn:Hex.
  - split; [intros H; right; exact H |].
    intros [-> | H]; [| exact H].
    apply existsb_exists in Hex. destruct Hex as [x [Hx Heq]].
    apply String.eqb_eq in Heq. subst x. exact Hx.
  - rewrite in_app_iff. simpl. split.
    + intros [H | [<- | []]]; [right; exact H | left; reflexivity].
    + intros [-> | H]; [right; left; reflexivity | left; exact H].
Qed.

Lemma NoDup_keysOf_objSet {A} (o : JsObject A) k v :
  NoDup (keysOf o) -> NoDup (keysOf (objSet o k v)).
Proof.
  intros Hnodup. rewrite keysOf_objSet.
  destruct (existsb (String.eqb k) (keysOf o)) eqn:Hex; [exact Hnodup |].
  apply NoDup_app; [exact Hnodup | repeat constructor; intros [] |].
  intros x Hx [Heq | []]. subst x.
  assert (Htrue : existsb (String.eqb k) (keysOf o) = true).
  { apply existsb_exists. exists k. split; [exact Hx |].
    apply String.eqb_refl. }
  congruence.
Qed.

Lemma uniqFrom_spec (seen l : list string) (x : string) :
  In x (uniqFrom seen l) <-> In x l /\ ~ In x seen.
Proof.
  revert seen. induction l as [| y l IH]; intros seen; simpl.
  - tauto.
  - destruct (existsb (String.eqb y) seen) eqn:Hex.
    + apply existsb_exists in Hex. destruct Hex as [z [Hz Heq]].
      apply String.eqb_eq in Heq. subst z.
      rewrite IH. split.
      * intros [Hin Hnot]. split; [right; exact Hin | exact Hnot].
      * intros [[<- | Hin] Hnot]; [contradiction | split; assumption].
    + assert (Hy : ~ In y seen).
      { intros Hin.
        assert (Htrue : existsb (String.eqb y) seen = true).
        { apply existsb_exists. exists y. split; [exact Hin |].
          apply String.eqb_refl. }
        congruence. }
      simpl. rewrite IH. simpl. split.
      * intros [<- | [Hin Hnot]].
        -- split; [left; reflexivity | exact Hy].
        -- split; [right; exact Hin | tauto].
      * intros [[<- | Hin] Hnot]; [left; reflexivity |].
        destruct (string_dec y x) as [-> | Hne]; [left; reflexivity |].
        right. split; [exact Hin |]. intros [Heq | Hs]; tauto.
Qed.

Lemma uniqFrom_NoDup (seen l : list string) : NoDup (uniqFrom seen l).
Proof.
  revert seen. induction l as [| y l IH]; intros seen; simpl.
  - constructor.
  - destruct (existsb (String.eqb y) seen); [apply IH |].
    constructor; [| apply IH].
    rewrite uniqFrom_spec. intros [_ Hnot]. apply Hnot. left. reflexivity.
Qed.

Lemma insertByNonce_in (x : PendingIgnitionTransaction) l e :
  In e (insertByNonce x l) <-> e = x \/ In e l.
Proof.
  induction l as [| y l IH]; simpl.
  - split; [intros [<- | []]; left; reflexivity |].
    intros [-> | []]; left; reflexivity.
  - destruct (nonce x - nonce y >? 0); simpl.
    + rewrite IH. split.
      * intros [<- | [-> | H]]; auto.
      * intros [-> | [<- | H]]; auto.
    + split.
      * intros [<- | [<- | H]]; auto.
      * intros [-> | [<- | H]]; auto.
Qed.

Lemma sortByNonce_in (l : list PendingIgnitionTransaction) e :
  In e (sortByNonce l) <-> In e l.
Proof.
  induction l as [| x l IH]; simpl; [reflexivity |].
  unfold sortByNonce in *. simpl. rewrite insertByNonce_in, IH.
  split; intros [H | H]; auto.
Qed.

Lemma insertByNonce_ascending (x : PendingIgnitionTransaction) l :
  ascendingNonces l -> ascendingNonces (insertByNonce x l).
Proof.
  induction l as [| y l IH]; simpl.
  - intros _. split; [intros b [] | exact I].
  - intros [Hy Hrest].
    destruct (Z.gtb_spec (nonce x - nonce y) 0) as [Hgt | Hle]; simpl.
    + split; [| apply IH; exact Hrest].
      intros b Hb. apply insertByNonce_in in Hb.
      destruct Hb as [-> | Hb]; [lia | apply Hy; exact Hb].
    + split; [| split; assumption].
      intros b [<- | Hb]; [lia |].
      specialize (Hy b Hb). lia.
Qed.

Lemma sortByNonce_ascending (l : list PendingIgnitionTransaction) :
  ascendingNonces (sortByNonce l).
Proof.
  induction l as [| x l IH]; [exact I |].
  unfold sortByNonce in *. simpl. apply insertByNonce_ascending. exact IH.
Qed.

(** *** Building the map *)

Lemma holds_objSet_push (o : JsObject (list PendingIgnitionTransaction))
    k x sender e :
  holds
    (objSet o k (match objGet o k with None => [] | Some l => l end ++ [x]))
    sender e
  <-> holds o sender e \/ (sender = k /\ e = x).
Proof.
  unfold holds. destruct (string_dec sender k) as [-> | Hne].
  - rewrite objGet_objSet_same. split.
    + intros [l [Hl Hin]]. injection Hl as <-.
      apply in_app_iff in Hin. destruct Hin as [Hin | [<- | []]].
      * left. destruct (objGet o k) as [l0 |]; [| destruct Hin].
        exists l0. split; [reflexivity | exact Hin].
      * right. split; reflexivity.
    + intros [[l [Hl Hin]] | [_ ->]]; eexists; (split; [reflexivity |]).
      * rewrite Hl. apply in_app_iff. left. exact Hin.
      * apply in_app_iff. right. left. reflexivity.
  - rewrite (objGet_objSet_other o k _ sender Hne). split.
    + intros H. left. exact H.
    + intros [H | [Heq _]]; [exact H | contradiction].
Qed.

(** What one execution state does to the map under construction. *)
Lemma addExecutionState_spec (h : ModuleHelpers) acc es :
  (addExecutionState h acc es = acc /\
   forall sender e, ~ contributes h es sender e) \/
  exists x,
    contributes h es (es_from es) x /\
    (forall sender e, contributes h es sender e ->
                      sender = es_from es /\ e = x) /\
    addExecutionState h acc es =
      objSet acc (es_from es)
        (match objGet acc (es_from es) with None => [] | Some l => l end
         ++ [x]).
Proof.
  unfold addExecutionState.
  destruct (isReadOnlyType (es_type es)) eqn:Htype.
  { left. split; [reflexivity |]. intros sender e [H _]. congruence. }
  destruct (isSuccess (es_status es)) eqn:Hstatus.
  { left. split; [reflexivity |]. intros sender e [_ [H _]]. congruence. }
  destruct (getPendingOnchainInteraction h es) as [oi |] eqn:Hpending.
  2:{ left. split; [reflexivity |].
      intros sender e [_ [_ [oi' [H _]]]]. congruence. }
  destruct (oi_nonce oi) as [n |] eqn:Hnonce.
  2:{ left. split; [reflexivity |].
      intros sender e [_ [_ [oi' [H [Hn _]]]]]. congruence. }
  right. eexists. split; [| split; [| reflexivity]].
  - split; [exact Htype |]. split; [exact Hstatus |].
    exists oi. repeat split; assumption.
  - intros sender e [_ [_ [oi' [H [Hn [Hfrom [Htxs [Hid Hni]]]]]]]].
    assert (oi' = oi) by congruence. subst oi'.
    split; [symmetry; exact Hfrom |].
    destruct e as [en et ei eni]. simpl in *.
    f_equal; congruence.
Qed.

Lemma fromStates_invariant (h : ModuleHelpers) states :
  forall acc done,
    NoDup (keysOf acc) ->
    (forall sender e,
        holds acc sender e <->
        exists es, In es done /\ contributes h es sender e) ->
    (forall sender,
        In sender (keysOf acc) <->
        exists es e, In es done /\ contributes h es sender e) ->
    let result := fold_left (addExecutionState h) states acc in
    NoDup (keysOf result) /\
    (forall sender e,
        holds result sender e <->
        exists es, In es (done ++ states) /\ contributes h es sender e) /\
    (forall sender,
        In sender (keysOf result) <->
        exists es e, In es (done ++ states) /\ contributes h es sender e).
Proof.
  induction states as [| es states IH]; intros acc done Hnodup Hholds Hkeys.
  - simpl. rewrite app_nil_r. repeat split; try assumption;
      try apply Hholds; try apply Hkeys.
  - simpl.
    replace (done ++ es :: states) with ((done ++ [es]) ++ states)
      by (rewrite <- app_assoc; reflexivity).
    apply IH.
    + destruct (addExecutionState_spec h acc es)
        as [[-> _] | [x [_ [_ ->]]]];
        [exact Hnodup | apply NoDup_keysOf_objSet; exact Hnodup].
    + intros sender e.
      destruct (addExecutionState_spec h acc es)
        as [[-> Hnone] | [x [Hx [Honly ->]]]].
      * rewrite Hholds. split.
        -- intros [es' [Hin Hc]]. exists es'.
           split; [apply in_app_iff; left; exact Hin | exact Hc].
        -- intros [es' [Hin Hc]]. apply in_app_iff in Hin.
           destruct Hin as [Hin | [<- | []]];
             [exists es'; split; assumption |].
           exfalso. exact (Hnone sender e Hc).
      * rewrite holds_objSet_push, Hholds. split.
        -- intros [[es' [Hin Hc]] | [-> ->]].
           ++ exists es'. split; [apply in_app_iff; left; exact Hin | exact Hc].
           ++ exists es. split; [apply in_app_iff; right; left; reflexivity |].
              exact Hx.
        -- intros [es' [Hin Hc]]. apply in_app_iff in Hin.
           destruct Hin as [Hin | [<- | []]].
           ++ left. exists es'. split; assumption.
           ++ right. apply Honly. exact Hc.
    + intros sender.
      destruct (addExecutionState_spec h acc es)
        as [[-> Hnone] | [x [Hx [Honly ->]]]].
      * rewrite Hkeys. split.
        -- intros [es' [e [Hin Hc]]]. exists es', e.
           split; [apply in_app_iff; left; exact Hin | exact Hc].
        -- intros [es' [e [Hin Hc]]]. apply in_app_iff in Hin.
           destruct Hin as [Hin | [<- | []]];
             [exists es', e; split; assumption |].
           exfalso. exact (Hnone sender e Hc).
      * rewrite in_keysOf_objSet, Hkeys. split.
        -- intros [-> | [es' [e [Hin Hc]]]].
           ++ exists es, x.
              split; [apply in_app_iff; right; left; reflexivity | exact Hx].
           ++ exists es', e.
              split; [apply in_app_iff; left; exact Hin | exact Hc].
        -- intros [es' [e [Hin Hc]]]. apply in_app_iff in Hin.
           destruct Hin as [Hin | [<- | []]].
           ++ right. exists es', e. split; assumption.
           ++ left. apply (Honly sender e Hc).
Qed.

Lemma addFutureSender_holds o k sender e :
  holds (addFutureSender o k) sender e <-> holds o sender e.
Proof.
  unfold addFutureSender.
  destruct (objGet o k) as [l |] eqn:Hk; [reflexivity |].
  unfold holds. destruct (string_dec sender k) as [-> | Hne].
  - rewrite objGet_objSet_same, Hk. split.
    + intros [l [Hl Hin]]. injection Hl as <-. destruct Hin.
    + intros [l [Hl _]]. discriminate.
  - rewrite (objGet_objSet_other o k [] sender Hne). reflexivity.
Qed.

Lemma addFutureSender_keys o k sender :
  In sender (keysOf (addFutureSender o k)) <-> sender = k \/ In sender (keysOf o).
Proof.
  unfold addFutureSender.
  destruct (objGet o k) as [l |] eqn:Hk.
  - split; [intros H; right; exact H |].
    intros [-> | H]; [| exact H]. apply (objGet_some_key o k l Hk).
  - apply in_keysOf_objSet.
Qed.

Lemma addFutureSender_NoDup o k :
  NoDup (keysOf o) -> NoDup (keysOf (addFutureSender o k)).
Proof.
  intros H. unfold addFutureSender.
  destruct (objGet o k); [exact H | apply NoDup_keysOf_objSet; exact H].
Qed.

Lemma futureSenders_invariant senders :
  forall o,
    NoDup (keysOf o) ->
    let result := fold_left addFutureSender senders o in
    NoDup (keysOf result) /\
    (forall sender e, holds result sender e <-> holds o sender e) /\
    (forall sender,
        In sender (keysOf result) <-> In sender (keysOf o) \/ In sender senders).
Proof.
  induction senders as [| k senders IH]; intros o Hnodup.
  - simpl. repeat split; try assumption; try tauto.
  - simpl.
    destruct (IH (addFutureSender o k) (addFutureSender_NoDup o k Hnodup))
      as [Hn [Hh Hk]].
    split; [exact Hn |]. split.
    + intros sender e. rewrite Hh. apply addFutureSender_holds.
    + intros sender. rewrite Hk, addFutureSender_keys. simpl.
      split; intros H; intuition.
Qed.

Lemma objGet_sorted (o : JsObject (list PendingIgnitionTransaction)) k :
  objGet (map (fun kv => (fst kv, sortByNonce (snd kv))) o) k
  = option_map sortByNonce (objGet o k).
Proof.
  induction o as [| [k' l] o IH]; simpl; [reflexivity |].
  destruct (String.eqb k' k); [reflexivity | exact IH].
Qed.

Lemma keysOf_sorted (o : JsObject (list PendingIgnitionTransaction)) :
  keysOf (map (fun kv => (fst kv, sortByNonce (snd kv))) o) = keysOf o.
Proof.
  unfold keysOf. rewrite map_map. reflexivity.
Qed.

Lemma holds_sorted (o : JsObject (list PendingIgnitionTransaction)) sender e :
  holds (map (fun kv => (fst kv, sortByNonce (snd kv))) o) sender e
  <-> holds o sender e.
Proof.
  unfold holds. rewrite objGet_sorted. split.
  - intros [l [Hl Hin]]. destruct (objGet o sender) as [l0 |];
      [| discriminate].
    injection Hl as <-. exists l0. split; [reflexivity |].
    apply sortByNonce_in. exact Hin.
  - intros [l [Hl Hin]]. rewrite Hl. exists (sortByNonce l).
    split; [reflexivity |]. apply sortByNonce_in. exact Hin.
Qed.

Lemma dropNulls_in (l : list (option string)) x :
  In x (dropNulls l) <-> In (Some x) l.
Proof.
  induction l as [| [y |] l IH]; simpl.
  - reflexivity.
  - rewrite IH. split; intros [H | H]; auto; left; congruence.
  - rewrite IH. split; [intros H; right; exact H |].
    intros [H | H]; [discriminate | exact H].
Qed.

Lemma not_in_as_bool (x : string) (l : list string) :
  negb (existsb (String.eqb x) l) = true <-> ~ In x l.
Proof.
  rewrite negb_true_iff. split.
  - intros Hex Hin.
    assert (Htrue : existsb (String.eqb x) l = true).
    { apply existsb_exists. exists x. split; [exact Hin |].
      apply String.eqb_refl. }
    congruence.
  - intros Hnot. destruct (existsb (String.eqb x) l) eqn:Hex; [| reflexivity].
    exfalso. apply Hnot. apply existsb_exists in Hex.
    destruct Hex as [y [Hy Heq]]. apply String.eqb_eq in Heq. subst y.
    exact Hy.
Qed.

Lemma pickFrom_spec (h : ModuleHelpers) (f : Future h) accounts defaultSender
    sender :
  _pickFrom h f accounts defaultSender = Some sender <->
  isNamedContractAtFuture h f = false /\
  isArtifactContractAtFuture h f = false /\
  isReadEventArgumentFuture h f = false /\
  isEncodeFunctionCallFuture h f = false /\
  sender = resolveFutureFrom h (future_from h f) accounts defaultSender.
Proof.
  unfold _pickFrom.
  destruct (isNamedContractAtFuture h f);
    [split; [discriminate | intros [H _]; discriminate] |].
  destruct (isArtifactContractAtFuture h f);
    [split; [discriminate | intros [_ [H _]]; discriminate] |].
  destruct (isReadEventArgumentFuture h f);
    [split; [discriminate | intros [_ [_ [H _]]]; discriminate] |].
  destruct (isEncodeFunctionCallFuture h f);
    [split; [discriminate | intros [_ [_ [_ [H _]]]]; discriminate] |].
  split.
  - intros H. injection H as <-. repeat split.
  - intros [_ [_ [_ [_ ->]]]]. reflexivity.
Qed.

Lemma resolveFutureSenders_in (h : ModuleHelpers) ignitionModule accounts
    defaultSender exStateIds sender :
  In sender
    (_resolveFutureSenders h ignitionModule accounts defaultSender exStateIds)
  <->
  exists f,
    In f (getFuturesFromModule h ignitionModule) /\
    willSendFrom h accounts defaultSender exStateIds f sender.
Proof.
  unfold _resolveFutureSenders, uniq, willSendFrom.
  rewrite uniqFrom_spec, dropNulls_in, in_map_iff. split.
  - intros [[f [Hpick Hin]] _]. apply filter_In in Hin.
    destruct Hin as [Hin Hnew]. apply not_in_as_bool in Hnew.
    apply pickFrom_spec in Hpick.
    exists f. split; [exact Hin |]. split; [exact Hnew | exact Hpick].
  - intros [f [Hin [Hnew Hpick]]]. split; [| intros []].
    exists f. split; [apply pickFrom_spec; exact Hpick |].
    apply filter_In. split; [exact Hin |]. apply not_in_as_bool. exact Hnew.
Qed.

(** The map in three facts: its keys are distinct; its arrays hold exactly
    the unsettled transactions of the execution states; its keys are the
    senders of those and the senders of the futures still to start. *)
Lemma createMap_facts (h : ModuleHelpers) deploymentState ignitionModule
    accounts defaultSender :
  let result :=
    createMapFromSenderToNonceAndTransactions h deploymentState
      ignitionModule accounts defaultSender in
  let states := map snd (executionStates deploymentState) in
  NoDup (keysOf result) /\
  (forall sender e,
      holds result sender e <->
      exists es, In es states /\ contributes h es sender e) /\
  (forall sender,
      In sender (keysOf result) <->
      (exists es e, In es states /\ contributes h es sender e) \/
      In sender
        (_resolveFutureSenders h ignitionModule accounts defaultSender
           (map fst (executionStates deploymentState)))).
Proof.
  intros result states. subst result.
  unfold createMapFromSenderToNonceAndTransactions.
  destruct (fromStates_invariant h states [] [])
    as [Hn1 [Hh1 Hk1]].
  { constructor. }
  { intros sender e. split.
    - intros [l [Hl _]]. discriminate.
    - intros [es [[] _]]. }
  { intros sender. split; [intros [] | intros [es [e [[] _]]]]. }
  simpl in Hn1, Hh1, Hk1. fold states.
  destruct (futureSenders_invariant
              (_resolveFutureSenders h ignitionModule accounts defaultSender
                 (map fst (executionStates deploymentState)))
              (fold_left (addExecutionState h) states []) Hn1)
    as [Hn2 [Hh2 Hk2]].
  split; [rewrite keysOf_sorted; exact Hn2 |]. split.
  - intros sender e. rewrite holds_sorted, Hh2. apply Hh1.
  - intros sender. rewrite keysOf_sorted, Hk2, Hk1. reflexivity.
Qed.

(** X16. No sender appears twice among the keys of the map: the pass visits
    every sender once, whatever the order and the number of the execution
    states and futures that name it. *)
Theorem map_senders_are_distinct :
  forall (h : ModuleHelpers) (deploymentState : DeploymentState)
         (ignitionModule : IgnitionModule h) (accounts : list string)
         (defaultSender : string),
    NoDup
      (keysOf
         (createMapFromSenderToNonceAndTransactions h deploymentState
            ignitionModule accounts defaultSender)).
Proof.
  intros h deploymentState ignitionModule accounts defaultSender.
  exact (proj1 (createMap_facts h deploymentState ignitionModule accounts
                  defaultSender)).
Qed.

(** X17. Every array of the map is in ascending order of nonce. *)
Theorem map_arrays_ascend_by_nonce :
  forall (h : ModuleHelpers) (deploymentState : DeploymentState)
         (ignitionModule : IgnitionModule h) (accounts : list string)
         (defaultSender : string),
    Forall (fun kv => ascendingNonces (snd kv))
      (createMapFromSenderToNonceAndTransactions h deploymentState
         ignitionModule accounts defaultSender).
Proof.
  intros h deploymentState ignitionModule accounts defaultSender.
  unfold createMapFromSenderToNonceAndTransactions.
  apply Forall_map. apply Forall_forall. intros kv _. cbn [snd].
  apply sortByNonce_ascending.
Qed.

(** X18. The array of a sender holds a pending transaction exactly when some
    execution state contributes it: a state of a type that sends
    transactions, not succeeded, sent from that sender, whose pending
    on-chain interaction has a nonce; the entry carries that nonce, the
    hashes of the interaction's transactions and the two ids.  Succeeded and
    read-only states, and interactions without a nonce, leave no entry. *)
Theorem map_holds_exactly_the_unsettled_transactions :
  forall (h : ModuleHelpers) (deploymentState : DeploymentState)
         (ignitionModule : IgnitionModule h) (accounts : list string)
         (defaultSender sender : string) (e : PendingIgnitionTransaction),
    holds
      (createMapFromSenderToNonceAndTransactions h deploymentState
         ignitionModule accounts defaultSender) sender e
    <->
    exists es,
      In es (map snd (executionStates deploymentState)) /\
      contributes h es sender e.
Proof.
  intros h deploymentState ignitionModule accounts defaultSender sender e.
  exact (proj1 (proj2 (createMap_facts h deploymentState ignitionModule
                         accounts defaultSender)) sender e).
Qed.

(** X19. The senders the pass visits are exactly the senders of the
    unsettled transactions of the deployment state and the accounts that
    futures not yet in the state will send from; the latter get an entry even
    without any transaction. *)
Theorem map_senders_are_pending_and_future_senders :
  forall (h : ModuleHelpers) (deploymentState : DeploymentState)
         (ignitionModule : IgnitionModule h) (accounts : list string)
         (defaultSender sender : string),
    In sender
      (keysOf
         (createMapFromSenderToNonceAndTransactions h deploymentState
            ignitionModule accounts defaultSender))
    <->
    (exists es e,
        In es (map snd (executionStates deploymentState)) /\
        contributes h es sender e) \/
    (exists f,
        In f (getFuturesFromModule h ignitionModule) /\
        willSendFrom h accounts defaultSender
          (map fst (executionStates deploymentState)) f sender).
Proof.
  intros h deploymentState ignitionModule accounts defaultSender sender.
  rewrite <- resolveFutureSenders_in.
  exact (proj2 (proj2 (createMap_facts h deploymentState ignitionModule
                         accounts defaultSender)) sender).
Qed.

(** X20. [_resolveFutureSenders] returns, without repetition, exactly the
    accounts resolved for the futures whose id is not among the execution
    states and that are none of the four kinds that send nothing (named and
    artifact contract-at, read-event-argument, encode-function-call). *)
Theorem future_senders_are_those_of_unstarted_sending_futures :
  forall (h : ModuleHelpers) (ignitionModule : IgnitionModule h)
         (accounts : list string) (defaultSender : string)
         (exStateIds : list string),
    NoDup
      (_resolveFutureSenders h ignitionModule accounts defaultSender
         exStateIds) /\
    forall sender,
      In sender
        (_resolveFutureSenders h ignitionModule accounts defaultSender
           exStateIds)
      <->
      exists f,
        In f (getFuturesFromModule h ignitionModule) /\
        willSendFrom h accounts defaultSender exStateIds f sender.
Proof.
  intros h ignitionModule accounts defaultSender exStateIds. split.
  - unfold _resolveFutureSenders, uniq. apply uniqFrom_NoDup.
  - intros sender. apply resolveFutureSenders_in.
Qed.

(** X21. Every message [getNonceSyncMessages] returns is a replaced-by-user
    or a dropped message that carries the id of an execution state of the
    deployment state and the id of its pending on-chain interaction, the
    state being of a type that sends transactions and not succeeded. *)
Theorem sync_messages_name_unsettled_interactions :
  forall S (h : ModuleHelpers) (client : JsonRpcClient S)
         (deploymentState : DeploymentState)
         (ignitionModule : IgnitionModule h) (accounts : list string)
         (defaultSender : string) (requiredConfirmations : Z) (s0 sf : S)
         (out : list JournalMessage),
    getNonceSyncMessages h client deploymentState ignitionModule accounts
      defaultSender requiredConfirmations s0 = (Val out, sf) ->
    Forall
      (fun m =>
         exists es onchainInteraction,
           In es (map snd (executionStates deploymentState)) /\
           isReadOnlyType (es_type es) = false /\
           isSuccess (es_status es) = false /\
           getPendingOnchainInteraction h es = Some onchainInteraction /\
           (m = ONCHAIN_INTERACTION_REPLACED_BY_USER (es_id es)
                  (oi_id onchainInteraction) \/
            m = ONCHAIN_INTERACTION_DROPPED (es_id es)
                  (oi_id onchainInteraction)))
      out.
Proof.
  intros S h client deploymentState ignitionModule accounts defaultSender rc
         s0 sf out Hrun.
  unfold getNonceSyncMessages in Hrun.
  destruct (pass_val client _ rc s0 out sf Hrun) as [block [s1 Hloop]].
  destruct (createMap_facts h deploymentState ignitionModule accounts
              defaultSender) as [Hnodup [Hholds _]].
  refine (senders_loop_reports_entries client rc
            (confirmedBlockNumberOf block rc) _ _ _ [] s1 out sf
            (Forall_nil _) Hloop).
  intros sender l e Hin He.
  assert (Hheld :
    holds (createMapFromSenderToNonceAndTransactions h deploymentState
             ignitionModule accounts defaultSender) sender e).
  { exists l. split; [| exact He].
    apply objGet_of_in; [exact Hnodup | exact Hin]. }
  apply Hholds in Hheld.
  destruct Hheld as [es [Hes [Htype [Hstatus [oi [Hoi [_ [_ [_ [Hid Hni]]]]]]]]]].
  rewrite Hid, Hni.
  split; exists es, oi; repeat split; auto.
Qed.

(** X21 on the example deployment: the started call of sender "0xA" lost its
    transaction and is reported dropped; the succeeded deployment and the
    sender "0xD" of the future still to start give no message. *)
Lemma sync_messages_name_unsettled_interactions_witness :
  getNonceSyncMessages exampleHelpers (syncNode 10 5 5 5 knowsNothing)
    exampleState exampleModule ["0xA"; "0xD"] "0xD" 5 tt
  = (Val [ONCHAIN_INTERACTION_DROPPED "future#1" 1], tt) /\
  Forall
    (fun m =>
       exists es onchainInteraction,
         In es (map snd (executionStates exampleState)) /\
         isReadOnlyType (es_type es) = false /\
         isSuccess (es_status es) = false /\
         getPendingOnchainInteraction exampleHelpers es
         = Some onchainInteraction /\
         (m = ONCHAIN_INTERACTION_REPLACED_BY_USER (es_id es)
                (oi_id onchainInteraction) \/
          m = ONCHAIN_INTERACTION_DROPPED (es_id es)
                (oi_id onchainInteraction)))
    [ONCHAIN_INTERACTION_DROPPED "future#1" 1].
Proof.
  split; [reflexivity |].
  apply (@sync_messages_name_unsettled_interactions
           unit exampleHelpers (syncNode 10 5 5 5 knowsNothing) exampleState
           exampleModule ["0xA"; "0xD"] "0xD" 5 tt tt).
  reflexivity.
Defined.

(** The map of the example deployment: the transaction of nonce 5 under
    "0xA", and the default sender "0xD" with nothing pending. *)
Example example_map :
  createMapFromSenderToNonceAndTransactions exampleHelpers exampleState
    exampleModule ["0xA"; "0xD"] "0xD"
  = [("0xA",
      [{| nonce := 5; transactions := ["0xaa"];
          executionStateId := "future#1"; networkInteractionId := 1 |}]);
     ("0xD", [])].
Proof. reflexivity. Qed.

(** X22. An account that a future still to start will send from, and for
    which no execution state has an unsettled transaction, is in the map with
    the empty array: the pass checks it as a sender without pending
    transactions. *)
Theorem unstarted_senders_get_the_empty_array :
  forall (h : ModuleHelpers) (deploymentState : DeploymentState)
         (ignitionModule : IgnitionModule h) (accounts : list string)
         (defaultSender sender : string) (f : Future h),
    In f (getFuturesFromModule h ignitionModule) ->
    willSendFrom h accounts defaultSender
      (map fst (executionStates deploymentState)) f sender ->
    (forall es e,
        In es (map snd (executionStates deploymentState)) ->
        ~ contributes h es sender e) ->
    objGet
      (createMapFromSenderToNonceAndTransactions h deploymentState
         ignitionModule accounts defaultSender) sender
    = Some [].
Proof.
  intros h deploymentState ignitionModule accounts defaultSender sender f
         Hf Hsend Hnone.
  destruct (createMap_facts h deploymentState ignitionModule accounts
              defaultSender) as [_ [Hholds Hkeys]].
  assert (Hkey :
    In sender
      (keysOf (createMapFromSenderToNonceAndTransactions h deploymentState
                 ignitionModule accounts defaultSender))).
  { apply Hkeys. right. apply resolveFutureSenders_in.
    exists f. split; assumption. }
  destruct (objGet (createMapFromSenderToNonceAndTransactions h
                      deploymentState ignitionModule accounts defaultSender)
              sender) as [l |] eqn:Hget.
  - destruct l as [| e l]; [reflexivity |].
    exfalso.
    assert (Hheld :
      holds (createMapFromSenderToNonceAndTransactions h deploymentState
               ignitionModule accounts defaultSender) sender e).
    { exists (e :: l). split; [exact Hget | left; reflexivity]. }
    apply Hholds in Hheld. destruct Hheld as [es [Hes Hc]].
    exact (Hnone es e Hes Hc).
  - exfalso. apply objGet_none in Hget. exact (Hget Hkey).
Qed.

Lemma unstarted_senders_get_the_empty_array_witness :
  objGet
    (createMapFromSenderToNonceAndTransactions exampleHelpers exampleState
       exampleModule ["0xA"; "0xD"] "0xD") "0xD"
  = Some [].
Proof.
  apply (@unstarted_senders_get_the_empty_array
           exampleHelpers exampleState exampleModule ["0xA"; "0xD"] "0xD"
           "0xD" (mkExampleFuture "future#3" None false)).
  - right. right. right. left. reflexivity.
  - unfold willSendFrom. simpl. repeat split.
    intros [H | [H | []]]; discriminate.
  - intros es e Hes [_ [Hstatus [oi [_ [_ [Hfrom _]]]]]].
    simpl in Hes. destruct Hes as [<- | [<- | []]]; simpl in *; discriminate.
Defined.
